(** * ppt-to-images: task lifecycle, progress reporting and converter

    A shallow embedding of [api_server.py] and [ppt_exporter.py].

    - Python [float] arithmetic is IEEE-754 binary64 with round-to-nearest,
      ties-to-even.  Module [Binary64] gives that rounding on rationals; it
      is exact for every value inside the normal exponent range, which
      covers all quotients [current / total] of slide counts.  The model is
      compared with the kernel's primitive binary64 floats further down.
    - Strings are byte strings; [str.lower] folds the ASCII letters.
    - The outside world (installed tools, the outcome of the external
      converter, the number of rendered pages, faults while saving, whether
      the operating system lets a path be removed) is an explicit record
      [Env]; random draws ([uuid4], temporary file names) are arguments.
    - Handlers and the background runner are computations in a state and
      exception monad [M] over [State]; every attribute assignment to a task
      record is one step and is logged in a journal, so that what a
      concurrent poll may observe between two assignments is available. *)

From Stdlib Require Import ZArith QArith Qround Qpower Qabs Lia Lqa List.
From Stdlib Require Import String Ascii DecimalString Floats Sorted.
From stdpp Require Import gmap strings list.

(** ** Python floats *)

Module Binary64.
Local Open Scope Q_scope.

(** Nearest integer, ties to the even one. *)
Definition round_half_even (y : Q) : Z :=
  let m := Qfloor y in
  match Qcompare (y - inject_Z m) (1 # 2) with
  | Lt => m
  | Gt => (m + 1)%Z
  | Eq => if Z.even m then m else (m + 1)%Z
  end.

(** The exponent [e] with [2^e <= x < 2^(e+1)], for positive [x]. *)
Definition binade (x : Q) : Z :=
  let e0 := (Z.log2 (Qnum x) - Z.log2 (Zpos (Qden x)))%Z in
  if Qle_bool (2 ^ e0) x then e0 else (e0 - 1)%Z.

(** Spacing of the 53-bit significands around [x]. *)
Definition ulp (x : Q) : Q := 2 ^ (binade (Qabs x) - 52).

(** Rounding of a real to the nearest binary64 number. *)
Definition fl (x : Q) : Q :=
  if Qeq_bool x 0 then 0
  else inject_Z (round_half_even (x / ulp x)) * ulp x.

(** [a / b] on Python ints (true division, correctly rounded), [b <> 0]. *)
Definition py_truediv (a b : Z) : Q := fl (inject_Z a / inject_Z b).

(** [float(n)]. *)
Definition py_float (n : Z) : Q := fl (inject_Z n).

(** [x * y] on floats. *)
Definition py_mul (x y : Q) : Q := fl (x * y).

(** [int(x)]: truncation towards zero. *)
Definition py_int (x : Q) : Z := Z.quot (Qnum x) (Zpos (Qden x)).

(** The same operations on the kernel's primitive floats. *)
Definition prim_of_Z (n : Z) : float := PrimFloat.of_uint63 (Uint63.of_Z n).

Definition prim_int (f : float) : Z :=
  match Prim2SF f with
  | S754_finite s m e =>
      let v := if (0 <=? e)%Z then (Zpos m * 2 ^ e)%Z
               else (Zpos m / 2 ^ (- e))%Z in
      if s then (- v)%Z else v
  | _ => 0%Z
  end.

End Binary64.

(** ** Strings and paths *)

(** [s.endswith(suffix)]: some tail of [s] is [suffix]. *)
Fixpoint endswith (s suffix : string) : bool :=
  String.eqb s suffix ||
  match s with
  | EmptyString => false
  | String _ r => endswith r suffix
  end.

(** [s.endswith((a, b, ...))] *)
Definition endswith_any (s : string) (suffixes : list string) : bool :=
  existsb (endswith s) suffixes.

Definition lower_ascii (c : ascii) : ascii :=
  let n := nat_of_ascii c in
  if ((65 <=? n) && (n <=? 90))%nat then ascii_of_nat (n + 32) else c.

Fixpoint lower (s : string) : string :=
  match s with
  | EmptyString => EmptyString
  | String c r => String (lower_ascii c) (lower r)
  end.

Fixpoint has_slash (s : string) : bool :=
  match s with
  | EmptyString => false
  | String c r => Ascii.eqb c "/" || has_slash r
  end.

(** [os.path.basename] *)
Fixpoint basename (s : string) : string :=
  match s with
  | EmptyString => EmptyString
  | String c r =>
      if has_slash r then basename r
      else if Ascii.eqb c "/" then r else s
  end.

(** [os.path.join] of two components. *)
Definition path_join (a b : string) : string :=
  if String.prefix "/" b then b
  else if String.eqb a "" || endswith a "/" then a +:+ b
  else a +:+ "/" +:+ b.

Definition str_of_nat (n : nat) : string :=
  NilEmpty.string_of_uint (Nat.to_uint n).

(** [str(z)] *)
Definition str_of_Z (z : Z) : string :=
  NilZero.string_of_int (Z.to_int z).

Fixpoint zeros (k : nat) : string :=
  match k with
  | O => EmptyString
  | S k' => String "0" (zeros k')
  end.

(** [f"{i:03d}"] for a non-negative index. *)
Definition fmt_03d (i : nat) : string :=
  let s := str_of_nat i in
  zeros (3 - String.length s) +:+ s.

(** ** Exceptions *)

Inductive exn : Type :=
| HTTPException (status_code : Z) (detail : string)
| FileNotFoundError (msg : string)
| ValueError (msg : string)
| RuntimeError (msg : string)
| OSError (msg : string)
| ZeroDivisionError (msg : string)
| ForeignError (text : string).
(* [ForeignError]: anything raised inside pdf2image, Pillow, aspose or the
   interpreter itself (for instance [MemoryError]); only [str(e)] is used. *)

(** [str(e)] *)
Definition exn_str (e : exn) : string :=
  match e with
  | HTTPException c d => str_of_Z c +:+ ": " +:+ d
  | FileNotFoundError m | ValueError m | RuntimeError m
  | OSError m | ZeroDivisionError m | ForeignError m => m
  end.

Inductive res (A : Type) : Type :=
| Ok (a : A)
| Raise (e : exn).
Arguments Ok {A} a.
Arguments Raise {A} e.

(** ** The outside world *)

Inductive soffice_outcome : Type :=
| SofficeTimeout                      (* subprocess.TimeoutExpired *)
| SofficeExit (stderr : string)       (* subprocess.CalledProcessError *)
| SofficeRaises (e : exn)             (* any other exception of subprocess.run *)
| SofficeDone (pdf_found : bool).     (* exit 0; is there a *.pdf in the temp dir? *)

Record Env : Type := {
  OUTPUT_BASE_DIR : string;
  API_BASE_URL : string;
  HAS_PPTX : bool;
  (* Presentation(ppt_path): [None] when it raises; otherwise, per slide,
     the text [slide.element.xml], a [str] ([None]: reading it raises) *)
  pptx_slides : option (list (option string));
  has_libreoffice : bool;
  has_pdf2image : bool;
  has_aspose : bool;
  soffice_run : soffice_outcome;
  (* convert_from_path(pdf_path, ...): an exception or the number of pages *)
  convert_from_path : exn + nat;
  (* image.save / thumbnail for the image with the given 1-based index *)
  save_fault : nat -> option exn;
  (* slides.Presentation(ppt_path): an exception or the number of slides *)
  aspose_presentation : exn + nat;
  (* does the operating system carry out shutil.rmtree / os.unlink? *)
  rmtree_ok : bool;
  unlink_ok : bool
}.

(** ** Task records *)

Inductive TaskStatus : Type := PENDING | PROCESSING | COMPLETED | FAILED.

Record ImageEntry : Type := {
  slide_number : Z;
  url : string;
  image_filename : string
}.

Record TaskInfo : Type := {
  task_id : string;
  filename : string;
  status : TaskStatus;
  progress : Z;
  total_slides : Z;
  current_slide : Z;
  created_at : nat;
  updated_at : nat;
  status_message : string;
  images : list ImageEntry;
  error : option string
}.

(** One attribute assignment [task.<field> = value]. *)
Inductive Write : Type :=
| SetStatus (s : TaskStatus)
| SetProgress (p : Z)
| SetTotalSlides (n : Z)
| SetCurrentSlide (n : Z)
| SetStatusMessage (m : string)
| SetImages (l : list ImageEntry)
| SetError (e : string)
| SetUpdatedAt (t : nat).

Definition apply_write (w : Write) (t : TaskInfo) : TaskInfo :=
  let '{| task_id := i; filename := f; status := s; progress := p;
          total_slides := ts; current_slide := cs; created_at := ca;
          updated_at := ua; status_message := m; images := im;
          error := er |} := t in
  match w with
  | SetStatus s' => Build_TaskInfo i f s' p ts cs ca ua m im er
  | SetProgress p' => Build_TaskInfo i f s p' ts cs ca ua m im er
  | SetTotalSlides n => Build_TaskInfo i f s p n cs ca ua m im er
  | SetCurrentSlide n => Build_TaskInfo i f s p ts n ca ua m im er
  | SetStatusMessage m' => Build_TaskInfo i f s p ts cs ca ua m' im er
  | SetImages l => Build_TaskInfo i f s p ts cs ca ua m l er
  | SetError e => Build_TaskInfo i f s p ts cs ca ua m im (Some e)
  | SetUpdatedAt u => Build_TaskInfo i f s p ts cs ca u m im er
  end.

(** ** Server state *)

Record FS : Type := {
  files : gset string;
  dirs : gset string
}.

(** One call queued with [background_tasks.add_task(process_ppt_task, ...)]. *)
Record Job : Type := {
  job_task_id : string;
  job_temp_file_path : string;
  job_dpi : Z;
  job_format : string
}.

(** What happened to the task store, in program order. *)
Inductive Event : Type :=
| Created (id : string) (t : TaskInfo)    (* tasks_cache[id] = t *)
| Wrote (id : string) (w : Write)         (* an assignment to the record of id *)
| Scheduled (id : string)                 (* add_task for id *)
| Deleted (id : string).                  (* del tasks_cache[id] *)

Record State : Type := {
  tasks_cache : gmap string TaskInfo;
  fs : FS;
  now : nat;                    (* the clock read by datetime.now() *)
  background : list Job;
  journal : list Event
}.

(** ** The monad of handlers *)

Definition M (A : Type) : Type := State -> res A * State.

Definition ret {A} (a : A) : M A := fun st => (Ok a, st).

Definition bind {A B} (m : M A) (k : A -> M B) : M B :=
  fun st =>
    match m st with
    | (Ok a, st') => k a st'
    | (Raise e, st') => (Raise e, st')
    end.

Definition raise {A} (e : exn) : M A := fun st => (Raise e, st).

Definition get : M State := fun st => (Ok st, st).

(** [try: m  except Exception as e: h e] *)
Definition try_except {A} (m : M A) (h : exn -> M A) : M A :=
  fun st =>
    match m st with
    | (Ok a, st') => (Ok a, st')
    | (Raise e, st') => h e st'
    end.

(** [try: m  finally: f] *)
Definition try_finally {A} (m : M A) (f : M unit) : M A :=
  fun st =>
    match m st with
    | (r, st') =>
        match f st' with
        | (Ok _, st'') => (r, st'')
        | (Raise e, st'') => (Raise e, st'')
        end
    end.

Declare Scope monad_scope.
Delimit Scope monad_scope with monad.
Notation "x <- m ;; k" := (bind m (fun x => k))
  (at level 100, m at next level, k at level 200, right associativity)
  : monad_scope.
Notation "m ;; k" := (bind m (fun _ => k))
  (at level 100, k at level 200, right associativity) : monad_scope.
Local Open Scope monad_scope.

(** ** Primitive effects *)

Definition with_cache (c : gmap string TaskInfo) (st : State) : State :=
  {| tasks_cache := c; fs := fs st; now := now st;
     background := background st; journal := journal st |}.

Definition with_fs (f : FS) (st : State) : State :=
  {| tasks_cache := tasks_cache st; fs := f; now := now st;
     background := background st; journal := journal st |}.

Definition log (ev : Event) (st : State) : State :=
  {| tasks_cache := tasks_cache st; fs := fs st; now := now st;
     background := background st; journal := journal st ++ [ev] |}.

(** [task.<field> = value] on the record stored under [id].  The runner and
    the progress hook both reach the record through the store entry of the
    task, which nothing replaces while a run is in progress. *)
Definition after_assign (id : string) (w : Write) (st : State) : State :=
  log (Wrote id w) (with_cache (alter (apply_write w) id (tasks_cache st)) st).

Definition assign (id : string) (w : Write) : M unit :=
  fun st => (Ok tt, after_assign id w st).

(** [datetime.now()]: reads the clock, which then moves on. *)
Definition tick (st : State) : State :=
  {| tasks_cache := tasks_cache st; fs := fs st; now := S (now st);
     background := background st; journal := journal st |}.

Definition datetime_now : M nat := fun st => (Ok (now st), tick st).

(** [task.updated_at = datetime.now().isoformat()] *)
Definition touch (id : string) : M unit :=
  t <- datetime_now ;; assign id (SetUpdatedAt t).

(** [os.path.exists] *)
Definition path_exists (p : string) (f : FS) : bool :=
  bool_decide (p ∈ files f) || bool_decide (p ∈ dirs f).

(** [os.makedirs(p, exist_ok=True)] *)
Definition makedirs (p : string) : M unit :=
  fun st =>
    if bool_decide (p ∈ files (fs st))
    then (Raise (OSError ("[Errno 17] File exists: '" +:+ p +:+ "'")), st)
    else (Ok tt, with_fs {| files := files (fs st);
                            dirs := {[ p ]} ∪ dirs (fs st) |} st).

(** Creating or overwriting a regular file. *)
Definition write_file (p : string) : M unit :=
  fun st =>
    (Ok tt, with_fs {| files := {[ p ]} ∪ files (fs st);
                       dirs := dirs (fs st) |} st).

(** [os.unlink(p)] *)
Definition unlink (env : Env) (p : string) : M unit :=
  fun st =>
    if negb (bool_decide (p ∈ files (fs st)))
    then (Raise (FileNotFoundError
                   ("[Errno 2] No such file or directory: '" +:+ p +:+ "'")), st)
    else if negb (unlink_ok env)
    then (Raise (OSError ("[Errno 13] Permission denied: '" +:+ p +:+ "'")), st)
    else (Ok tt, with_fs {| files := files (fs st) ∖ {[ p ]};
                            dirs := dirs (fs st) |} st).

Definition outside (p f : string) : Prop :=
  f ≠ p ∧ String.prefix (p +:+ "/") f = false.

Global Instance outside_dec p f : Decision (outside p f).
Proof. unfold outside. apply _. Defined.

(** [shutil.rmtree(p, ignore_errors=True)]: when the operating system
    refuses, the error is swallowed and the tree stays. *)
Definition rmtree_ignore_errors (env : Env) (p : string) : M unit :=
  fun st =>
    if rmtree_ok env
    then (Ok tt, with_fs {| files := filter (outside p) (files (fs st));
                            dirs := filter (outside p) (dirs (fs st)) |} st)
    else (Ok tt, st).

(** ** ppt_exporter.py *)

Record ExportConfig : Type := {
  dpi : Z;
  format : string;
  quality : Z;
  width : option Z;
  height : option Z
}.

(** The progress hook handed to the converter:
    [callback(current, total, filename)]. *)
Definition Callback : Type := Z -> Z -> string -> M unit.

(** [image.save(output_path, ...)] (after the thumbnail, for aspose). *)
Definition save_image (env : Env) (i : nat) (output_path : string) : M unit :=
  match save_fault env i with
  | Some e => raise e
  | None => write_file output_path
  end.

(** [f"{prefix}_{i:03d}.{self.config.format}"] *)
Definition slide_filename (prefix fmt : string) (i : nat) : string :=
  prefix +:+ "_" +:+ fmt_03d i +:+ "." +:+ fmt.

(** The loop [for i, image in enumerate(images, 1)] of
    [_export_with_libreoffice]; [indices] are the iterations still to run.
    Pixels are not modelled, so [_resize_image] leaves no trace. *)
Fixpoint save_pages (env : Env) (cfg : ExportConfig)
    (output_dir prefix : string) (progress_callback : option Callback)
    (total_images : nat) (indices : list nat) (output_files : list string)
    : M (list string) :=
  match indices with
  | [] => ret output_files
  | i :: rest =>
      let filename := slide_filename prefix (format cfg) i in
      let output_path := path_join output_dir filename in
      save_image env i output_path ;;
      match progress_callback with
      | Some cb => cb (Z.of_nat i) (Z.of_nat total_images) filename
      | None => ret tt
      end ;;
      save_pages env cfg output_dir prefix progress_callback total_images
                 rest (output_files ++ [output_path])
  end.

Definition _export_with_libreoffice (env : Env) (cfg : ExportConfig)
    (ppt_path output_dir prefix : string)
    (progress_callback : option Callback) : M (list string) :=
  match soffice_run env with
  | SofficeTimeout => raise (RuntimeError "LibreOffice 转换超时（120秒）")
  | SofficeExit error_msg =>
      raise (RuntimeError ("LibreOffice 转换失败: " +:+ error_msg))
  | SofficeRaises e => raise e
  | SofficeDone pdf_found =>
      if negb pdf_found then raise (RuntimeError "PDF 转换失败")
      else if negb (has_pdf2image env)
      then raise (RuntimeError "需要安装 pdf2image: pip install pdf2image Pillow")
      else
        match convert_from_path env with
        | inl e => raise e
        | inr total_images =>
            save_pages env cfg output_dir prefix progress_callback
                       total_images (seq 1 total_images) []
        end
  end.

Definition _export_with_pdf2image (env : Env) (cfg : ExportConfig)
    (ppt_path output_dir prefix : string)
    (progress_callback : option Callback) : M (list string) :=
  if negb (has_libreoffice env)
  then raise (RuntimeError "此方法需要 LibreOffice 来转换 PPT 为 PDF")
  else _export_with_libreoffice env cfg ppt_path output_dir prefix
                                progress_callback.

(** The loop of [_export_with_aspose]: same file names, no progress hook. *)
Fixpoint save_slides (env : Env) (cfg : ExportConfig)
    (output_dir prefix : string) (indices : list nat)
    (output_files : list string) : M (list string) :=
  match indices with
  | [] => ret output_files
  | i :: rest =>
      let filename := slide_filename prefix (format cfg) i in
      let output_path := path_join output_dir filename in
      save_image env i output_path ;;
      save_slides env cfg output_dir prefix rest (output_files ++ [output_path])
  end.

Definition _export_with_aspose (env : Env) (cfg : ExportConfig)
    (ppt_path output_dir prefix : string)
    (progress_callback : option Callback) : M (list string) :=
  if negb (has_aspose env)
  then raise (RuntimeError "需要安装 aspose.slides: pip install aspose.slides")
  else
    match aspose_presentation env with
    | inl e => raise e
    | inr n => save_slides env cfg output_dir prefix (seq 1 n) []
    end.

(** Truth value of an [Optional[int]] setting: [None] and [0] are false. *)
Definition given (o : option Z) : bool :=
  match o with
  | Some z => negb (z =? 0)%Z
  | None => false
  end.

(** [PPTExporter._resize_image] on an image of size
    [(orig_width, orig_height)]: [None] when the image is returned as it
    is, otherwise the [new_size] handed to [image.resize]. *)
Definition _resize_image (cfg : ExportConfig) (orig_width orig_height : Z)
    : res (option (Z * Z)) :=
  if negb (given (width cfg)) && negb (given (height cfg)) then Ok None
  else
    let w := from_option id 0%Z (width cfg) in
    let h := from_option id 0%Z (height cfg) in
    if given (width cfg) && given (height cfg) then Ok (Some (w, h))
    else if given (width cfg) then
      if (orig_width =? 0)%Z
      then Raise (ZeroDivisionError "division by zero")
      else
        let ratio := Binary64.py_truediv w orig_width in
        Ok (Some (w, Binary64.py_int
                       (Binary64.py_mul (Binary64.py_float orig_height) ratio)))
    else
      if (orig_height =? 0)%Z
      then Raise (ZeroDivisionError "division by zero")
      else
        let ratio := Binary64.py_truediv h orig_height in
        Ok (Some (Binary64.py_int
                    (Binary64.py_mul (Binary64.py_float orig_width) ratio), h)).

(** The converter's own input check. *)
Definition supported_input (ppt_path : string) : bool :=
  endswith_any (lower ppt_path) [".ppt"; ".pptx"].

(** [PPTExporter.export] *)
Definition export (env : Env) (cfg : ExportConfig)
    (ppt_path output_dir method prefix : string)
    (progress_callback : option Callback) : M (list string) :=
  st <- get ;;
  if negb (path_exists ppt_path (fs st))
  then raise (FileNotFoundError ("文件不存在: " +:+ ppt_path))
  else if negb (supported_input ppt_path)
  then raise (ValueError "仅支持 .ppt 或 .pptx 格式")
  else
    makedirs output_dir ;;
    method <- (if String.eqb method "auto"
               then if has_libreoffice env then ret "libreoffice"
                    else if has_pdf2image env then ret "pdf2image"
                    else if has_aspose env then ret "aspose"
                    else raise (RuntimeError "未找到可用的转换工具")
               else ret method) ;;
    if String.eqb method "libreoffice"
    then _export_with_libreoffice env cfg ppt_path output_dir prefix
                                  progress_callback
    else if String.eqb method "pdf2image"
    then _export_with_pdf2image env cfg ppt_path output_dir prefix
                                progress_callback
    else if String.eqb method "aspose"
    then _export_with_aspose env cfg ppt_path output_dir prefix
                             progress_callback
    else raise (ValueError ("不支持的方法: " +:+ method)).

(** ** api_server.py *)

(** The quotation mark. *)
Definition quote_char : ascii := ascii_of_nat 34.

(** The needles of the hidden-slide test, [show="0"] and [show="false"]. *)
Definition show_zero : string :=
  "show=" +:+ String quote_char ("0" +:+ String quote_char EmptyString).

Definition show_false : string :=
  "show=" +:+ String quote_char ("false" +:+ String quote_char EmptyString).

(** [needle in text] for a [bytes] needle and a [str] text: Python refuses
    the operands with a [TypeError], whatever they hold. *)
Definition bytes_in_str (needle text : string) : res bool :=
  Raise (ForeignError
           "'in <string>' requires string as left operand, not bytes").

(** The test inside the inner [try], for one slide:
    [b'show="0"' in slide_xml or b'show="false"' in slide_xml]. *)
Definition hidden_marker (slide_xml : option string) : res bool :=
  match slide_xml with
  | None => Raise (ForeignError "slide.element.xml")
  | Some text =>
      match bytes_in_str show_zero text with
      | Ok true => Ok true
      | Ok false => bytes_in_str show_false text
      | Raise e => Raise e
      end
  end.

(** The loop over [prs.slides]: [hidden_count += 1] when the test holds,
    [except: pass] when it raises. *)
Fixpoint count_hidden (slides : list (option string)) (hidden_count : nat)
    : nat :=
  match slides with
  | [] => hidden_count
  | slide_xml :: rest =>
      match hidden_marker slide_xml with
      | Ok true => count_hidden rest (S hidden_count)
      | Ok false | Raise _ => count_hidden rest hidden_count
      end
  end.

Definition get_ppt_slide_count (env : Env) (ppt_path : string) : Z :=
  if negb (HAS_PPTX env) then 0%Z
  else
    match pptx_slides env with
    | None => 0%Z
    | Some slides =>
        let hidden_count := count_hidden slides 0 in
        (Z.of_nat (List.length slides) - Z.of_nat hidden_count)%Z
    end.

(** The value [30 + int((current / total) * 55)], clamped at 85. *)
Definition hook_progress (current total : Z) : Z :=
  let progress :=
    (30 + Binary64.py_int
            (Binary64.py_mul (Binary64.py_truediv current total)
                             (Binary64.py_float 55)))%Z in
  Z.min progress 85.

Definition progress_callback (task_id : string) (current total : Z)
    (filename : string) : M unit :=
  st <- get ;;
  match tasks_cache st !! task_id with
  | None => ret tt
  | Some _ =>
      assign task_id (SetCurrentSlide current) ;;
      assign task_id (SetTotalSlides total) ;;
      if (total =? 0)%Z then raise (ZeroDivisionError "division by zero")
      else
        assign task_id (SetProgress (hook_progress current total)) ;;
        assign task_id
          (SetStatusMessage
             ("✓ 已保存: " +:+ filename +:+ " (" +:+ str_of_Z current
              +:+ "/" +:+ str_of_Z total +:+ ")")) ;;
        touch task_id
  end.

(** The check both upload endpoints apply to [file.filename]. *)
Definition accepted_upload (file_name : string) : bool :=
  endswith_any file_name [".ppt"; ".pptx"].

(** [tempfile.NamedTemporaryFile(delete=False, suffix='.pptx').name] for the
    random part [rnd] drawn by the library. *)
Definition temp_path (rnd : string) : string := "/tmp/tmp" +:+ rnd +:+ ".pptx".

Record SubmitResponse : Type := {
  submit_success : bool;
  submit_task_id : string;
  submit_message : string
}.

Definition add_task (j : Job) : M unit :=
  fun st =>
    (Ok tt, log (Scheduled (job_task_id j))
              {| tasks_cache := tasks_cache st; fs := fs st; now := now st;
                 background := background st ++ [j];
                 journal := journal st |}).

(** [tasks_cache[task_id] = task_info] *)
Definition store_task (id : string) (t : TaskInfo) : M unit :=
  fun st =>
    (Ok tt, log (Created id t) (with_cache (<[ id := t ]> (tasks_cache st)) st)).

(** [POST /api/convert-async]; [uuid] is the value of [uuid.uuid4()]. *)
Definition convert_ppt_async (file_name : string) (dpi : Z) (format : string)
    (uuid rnd : string) : M SubmitResponse :=
  if negb (accepted_upload file_name)
  then raise (HTTPException 400 "仅支持 .ppt 或 .pptx 格式")
  else
    let task_id := uuid in
    created <- datetime_now ;;
    updated <- datetime_now ;;
    let task_info :=
      {| task_id := task_id; filename := file_name; status := PENDING;
         progress := 0; total_slides := 0; current_slide := 0;
         created_at := created; updated_at := updated;
         status_message := "等待处理..."; images := []; error := None |} in
    store_task task_id task_info ;;
    let temp_file_path := temp_path rnd in
    write_file temp_file_path ;;
    add_task {| job_task_id := task_id; job_temp_file_path := temp_file_path;
                job_dpi := dpi; job_format := format |} ;;
    ret {| submit_success := true; submit_task_id := task_id;
           submit_message := "任务已创建，正在处理中" |}.

(** The list comprehension over [enumerate(image_files)]. *)
Definition image_urls (env : Env) (folder : string) (image_files : list string)
    : list ImageEntry :=
  imap (fun i img_path =>
          {| slide_number := (Z.of_nat i + 1)%Z;
             url := API_BASE_URL env +:+ "/images/" +:+ folder +:+ "/"
                    +:+ basename img_path;
             image_filename := basename img_path |})
       image_files.

(** [task.total_slides], read from the record of the running task. *)
Definition read_total_slides (id : string) : M Z :=
  st <- get ;;
  ret (from_option total_slides 0%Z (tasks_cache st !! id)).

(** Stages 1 to 4 of the [try] block of [process_ppt_task]: everything up
    to the return of [exporter.export]. *)
Definition convert_stage (env : Env) (task_id temp_file_path : string)
    (dpi : Z) (format : string) : M (list string) :=
  assign task_id (SetStatus PROCESSING) ;;
  assign task_id (SetProgress 5) ;;
  assign task_id (SetStatusMessage "读取 PPT 信息...") ;;
  touch task_id ;;
  let slide_count := get_ppt_slide_count env temp_file_path in
  (if (0 <? slide_count)%Z
   then assign task_id (SetTotalSlides slide_count) ;;
        assign task_id
          (SetStatusMessage
             ("检测到 " +:+ str_of_Z slide_count +:+ " 张幻灯片，准备转换..."))
   else assign task_id (SetStatusMessage "准备转换...")) ;;
  touch task_id ;;
  let output_dir := path_join (OUTPUT_BASE_DIR env) task_id in
  makedirs output_dir ;;
  assign task_id (SetProgress 10) ;;
  assign task_id (SetStatusMessage "转换为 PDF...") ;;
  touch task_id ;;
  let config := {| dpi := dpi; format := format; quality := 95;
                   width := None; height := None |} in
  assign task_id (SetProgress 15) ;;
  assign task_id (SetStatusMessage "正在使用 LibreOffice 转换 PDF...") ;;
  touch task_id ;;
  assign task_id (SetProgress 30) ;;
  known <- read_total_slides task_id ;;
  (if (0 <? known)%Z
   then assign task_id
          (SetStatusMessage
             ("PDF 转换为图片 (0/" +:+ str_of_Z known +:+ ")..."))
   else assign task_id (SetStatusMessage "PDF 转换为图片...")) ;;
  touch task_id ;;
  makedirs output_dir ;;
  export env config temp_file_path output_dir "auto" "slide"
         (Some (progress_callback task_id)).

(** Stage 5 and the final update, from the files the converter returned. *)
Definition finish_stage (env : Env) (task_id : string)
    (image_files : list string) : M unit :=
  let actual_count := Z.of_nat (List.length image_files) in
  expected <- read_total_slides task_id ;;
  (if negb (actual_count =? expected)%Z
   then assign task_id (SetTotalSlides actual_count)
   else ret tt) ;;
  assign task_id (SetCurrentSlide actual_count) ;;
  assign task_id (SetProgress 90) ;;
  assign task_id
    (SetStatusMessage
       ("正在生成图片 URL (" +:+ str_of_Z actual_count +:+ " 张)...")) ;;
  touch task_id ;;
  let urls := image_urls env task_id image_files in
  assign task_id (SetStatus COMPLETED) ;;
  assign task_id (SetProgress 100) ;;
  assign task_id (SetCurrentSlide actual_count) ;;
  assign task_id
    (SetStatusMessage ("转换完成！共 " +:+ str_of_Z actual_count +:+ " 张图片")) ;;
  assign task_id (SetImages urls) ;;
  touch task_id.

(** The [try] block of [process_ppt_task]. *)
Definition process_body (env : Env) (task_id temp_file_path : string)
    (dpi : Z) (format : string) : M unit :=
  image_files <- convert_stage env task_id temp_file_path dpi format ;;
  finish_stage env task_id image_files.

(** The [except Exception as e] block. *)
Definition process_failure (env : Env) (task_id : string) (e : exn) : M unit :=
  assign task_id (SetStatus FAILED) ;;
  assign task_id (SetStatusMessage "转换失败") ;;
  assign task_id (SetError (exn_str e)) ;;
  touch task_id ;;
  let folder_path := path_join (OUTPUT_BASE_DIR env) task_id in
  st <- get ;;
  if path_exists folder_path (fs st)
  then rmtree_ignore_errors env folder_path
  else ret tt.

(** The [finally] block: [try: os.unlink(temp_file_path) except: pass]. *)
Definition process_cleanup (env : Env) (temp_file_path : string) : M unit :=
  try_except (unlink env temp_file_path) (fun _ => ret tt).

(** The background runner. *)
Definition process_ppt_task (env : Env) (task_id temp_file_path : string)
    (dpi : Z) (format : string) : M unit :=
  st <- get ;;
  match tasks_cache st !! task_id with
  | None => ret tt
  | Some _ =>
      try_finally
        (try_except (process_body env task_id temp_file_path dpi format)
                    (process_failure env task_id))
        (process_cleanup env temp_file_path)
  end.

(** [GET /api/task/{task_id}] *)
Definition get_task_status (task_id : string) : M TaskInfo :=
  st <- get ;;
  match tasks_cache st !! task_id with
  | None => raise (HTTPException 404 "任务不存在")
  | Some task => ret task
  end.

(** [del tasks_cache[task_id]] *)
Definition remove_task (id : string) : M unit :=
  fun st =>
    (Ok tt, log (Deleted id) (with_cache (delete id (tasks_cache st)) st)).

(** [DELETE /api/task/{task_id}] *)
Definition delete_task (env : Env) (task_id : string) : M string :=
  st <- get ;;
  match tasks_cache st !! task_id with
  | None => raise (HTTPException 404 "任务不存在")
  | Some _ =>
      let folder_path := path_join (OUTPUT_BASE_DIR env) task_id in
      (if path_exists folder_path (fs st)
       then rmtree_ignore_errors env folder_path
       else ret tt) ;;
      remove_task task_id ;;
      ret ("任务 " +:+ task_id +:+ " 已删除")
  end.

Record SyncResponse : Type := {
  sync_success : bool;
  sync_folder_id : string;
  sync_count : nat;
  sync_images : list ImageEntry;
  sync_message : string
}.

(** [POST /api/convert], the synchronous endpoint. *)
Definition convert_ppt_sync (env : Env) (file_name : string) (dpi : Z)
    (format : string) (uuid rnd : string) : M SyncResponse :=
  if negb (accepted_upload file_name)
  then raise (HTTPException 400 "仅支持 .ppt 或 .pptx 格式文件")
  else
    try_except
      (let temp_file_path := temp_path rnd in
       write_file temp_file_path ;;
       let folder_id := uuid in
       let output_dir := path_join (OUTPUT_BASE_DIR env) folder_id in
       makedirs output_dir ;;
       let config := {| dpi := dpi; format := format; quality := 95;
                        width := None; height := None |} in
       image_files <- export env config temp_file_path output_dir "auto"
                             "slide" None ;;
       let urls := image_urls env folder_id image_files in
       unlink env temp_file_path ;;
       ret {| sync_success := true; sync_folder_id := folder_id;
              sync_count := List.length urls; sync_images := urls;
              sync_message :=
                "成功转换 " +:+ str_of_nat (List.length urls) +:+ " 张图片" |})
      (fun e => raise (HTTPException 500 ("转换失败: " +:+ exn_str e))).

(** ** The read-only endpoints *)

Record HealthResponse : Type := {
  health_status : string;
  health_service : string;
  health_port : Z;
  health_tasks_count : nat
}.

(** [GET /health] *)
Definition health_check : M HealthResponse :=
  st <- get ;;
  ret {| health_status := "healthy"; health_service := "ppt-to-images";
         health_port := 4000; health_tasks_count := size (tasks_cache st) |}.

(** One step of [tasks.sort(key=lambda x: x['created_at'], reverse=True)]:
    [x], which stood before every record of the sorted list [l], goes in
    front of the first record that is not newer than it. *)
Fixpoint insert_newest_first (x : TaskInfo) (l : list TaskInfo)
    : list TaskInfo :=
  match l with
  | [] => [x]
  | y :: r =>
      if (created_at y <=? created_at x)%nat then x :: l
      else y :: insert_newest_first x r
  end.

(** [list.sort] with [reverse=True] is stable: newest first, and records
    created at the same time keep the order they had. *)
Definition sort_newest_first (l : list TaskInfo) : list TaskInfo :=
  fold_right insert_newest_first [] l.

Record ListResponse : Type := {
  list_success : bool;
  list_count : nat;
  list_tasks : list TaskInfo
}.

(** [GET /api/tasks]; [keys] are the identifiers in the order in which the
    dict [tasks_cache] holds them, so that the list comprehension over
    [tasks_cache.values()] reads the records in that order. *)
Definition list_all_tasks (keys : list string) : M ListResponse :=
  st <- get ;;
  let tasks := omap (fun k => tasks_cache st !! k) keys in
  let tasks := sort_newest_first tasks in
  ret {| list_success := true; list_count := List.length tasks;
         list_tasks := tasks |}.

(** The number of tasks [GET /health] reports in the state [st]. *)
Definition reported_tasks_count (st : State) : nat :=
  match fst (health_check st) with
  | Ok r => health_tasks_count r
  | Raise _ => 0%nat
  end.

(** The server runs the oldest queued background call. *)
Definition run_background (env : Env) : M unit :=
  fun st =>
    match background st with
    | [] => (Ok tt, st)
    | j :: rest =>
        process_ppt_task env (job_task_id j) (job_temp_file_path j)
                         (job_dpi j) (job_format j)
          {| tasks_cache := tasks_cache st; fs := fs st; now := now st;
             background := rest; journal := journal st |}
    end.

(** What the server can be asked to do.  The runner is run in one piece;
    the listing and health endpoints only read the store. *)
Inductive Op : Type :=
| OpSubmit (file_name : string) (dpi : Z) (format : string) (uuid rnd : string)
| OpSync (env : Env) (file_name : string) (dpi : Z) (format : string)
         (uuid rnd : string)
| OpStatus (task_id : string)
| OpDelete (env : Env) (task_id : string)
| OpRun (env : Env).

Definition step (op : Op) (st : State) : State :=
  match op with
  | OpSubmit f d fmt uuid rnd => snd (convert_ppt_async f d fmt uuid rnd st)
  | OpSync env f d fmt uuid rnd => snd (convert_ppt_sync env f d fmt uuid rnd st)
  | OpStatus id => snd (get_task_status id st)
  | OpDelete env id => snd (delete_task env id st)
  | OpRun env => snd (run_background env st)
  end.

Definition run_ops (ops : list Op) (st : State) : State :=
  fold_left (fun s op => step op s) ops st.

Definition initial_state : State :=
  {| tasks_cache := ∅; fs := {| files := ∅; dirs := ∅ |}; now := 0;
     background := []; journal := [] |}.

(** ** Reading the journal *)

(** The [progress] values given to the record of [id], oldest first: the
    value it was created with and every later assignment. *)
Fixpoint progress_trace (id : string) (j : list Event) : list Z :=
  match j with
  | [] => []
  | Created id' t :: r =>
      if String.eqb id' id then progress t :: progress_trace id r
      else progress_trace id r
  | Wrote id' (SetProgress p) :: r =>
      if String.eqb id' id then p :: progress_trace id r
      else progress_trace id r
  | _ :: r => progress_trace id r
  end.

(** The successive contents of the record of [id], oldest first, starting
    from [t] (or from nothing) and following the journal. *)
Fixpoint snapshots (id : string) (cur : option TaskInfo) (j : list Event)
    : list TaskInfo :=
  match j with
  | [] => []
  | Created id' t :: r =>
      if String.eqb id' id then t :: snapshots id (Some t) r
      else snapshots id cur r
  | Wrote id' w :: r =>
      if String.eqb id' id
      then match cur with
           | Some t => apply_write w t :: snapshots id (Some (apply_write w t)) r
           | None => snapshots id cur r
           end
      else snapshots id cur r
  | Deleted id' :: r =>
      if String.eqb id' id then snapshots id None r else snapshots id cur r
  | Scheduled _ :: r => snapshots id cur r
  end.

(** The record of [id] after the journal, starting from [cur]. *)
Fixpoint current (id : string) (cur : option TaskInfo) (j : list Event)
    : option TaskInfo :=
  match j with
  | [] => cur
  | Created id' t :: r =>
      if String.eqb id' id then current id (Some t) r else current id cur r
  | Wrote id' w :: r =>
      if String.eqb id' id then current id (apply_write w <$> cur) r
      else current id cur r
  | Deleted id' :: r =>
      if String.eqb id' id then current id None r else current id cur r
  | Scheduled _ :: r => current id cur r
  end.

(** What one journal event does to the task store. *)
Definition apply_event (ev : Event) (c : gmap string TaskInfo)
    : gmap string TaskInfo :=
  match ev with
  | Created id t => <[ id := t ]> c
  | Wrote id w => alter (apply_write w) id c
  | Scheduled _ => c
  | Deleted id => delete id c
  end.

(** The store after the events [evs], starting from the store [c]. *)
Definition replay (evs : list Event) (c : gmap string TaskInfo)
    : gmap string TaskInfo :=
  fold_left (fun c ev => apply_event ev c) evs c.

(** A list of percentages that never decreases and stays within [0, b]. *)
Definition upto (b : Z) (l : list Z) : Prop :=
  (0 <= b)%Z
  /\ (forall i j p q, (i <= j)%nat -> l !! i = Some p -> l !! j = Some q ->
                      (p <= q)%Z)
  /\ Forall (fun p => (0 <= p <= b)%Z) l.

(** No event of the journal is about [id]. *)
Definition unused (id : string) (j : list Event) : Prop :=
  Forall (fun ev => match ev with
                    | Created id' _ | Wrote id' _ | Scheduled id' | Deleted id' =>
                        id' <> id
                    end) j.

(** Outside the completed state a record shows no image. *)
Definition quiet (t : TaskInfo) : Prop :=
  status t <> COMPLETED -> images t = [].

(** ** Assertions about handlers *)

(** From every state satisfying [P], [m] ends in a state satisfying [Q] when
    it returns and [E] when it raises. *)
Definition hoare {A} (P : State -> Prop) (m : M A)
    (Q : A -> State -> Prop) (E : exn -> State -> Prop) : Prop :=
  forall st, P st ->
    match m st with
    | (Ok a, st') => Q a st'
    | (Raise e, st') => E e st'
    end.

(** Writes that touch neither [status], [progress] nor [images]. *)
Definition neutral (w : Write) : Prop :=
  match w with
  | SetTotalSlides _ | SetCurrentSlide _ | SetStatusMessage _
  | SetError _ | SetUpdatedAt _ => True
  | SetStatus _ | SetProgress _ | SetImages _ => False
  end.

(** A family of assertions [I b done] that follows the runner of task [id]:
    [b] bounds the progress written so far, [done] tells whether the status
    has been set to completed.  The fields say which assignments the family
    tolerates. *)
Record Protocol (id : string) (I : Z -> bool -> State -> Prop) : Prop := {
  proto_frame : forall b d st st',
      tasks_cache st' = tasks_cache st -> journal st' = journal st ->
      I b d st -> I b d st';
  proto_progress : forall b d p st,
      (b <= p)%Z -> I b d st -> I p d (after_assign id (SetProgress p) st);
  proto_status : forall b s st,
      s <> COMPLETED -> I b false st ->
      I b false (after_assign id (SetStatus s) st);
  proto_completed : forall b st,
      I b false st -> I b true (after_assign id (SetStatus COMPLETED) st);
  proto_images : forall b l st,
      I b true st -> I b true (after_assign id (SetImages l) st);
  proto_neutral : forall b d w st,
      neutral w -> I b d st -> I b d (after_assign id w st)
}.

(** The paths the converter returns for [n] images. *)
Definition slide_paths (output_dir prefix fmt : string) (n : nat)
    : list string :=
  map (fun i => path_join output_dir (slide_filename prefix fmt i)) (seq 1 n).

(** The run is under way, at most [b] has been written as progress. *)
Definition active (I : Z -> bool -> State -> Prop) (b : Z) (st : State)
    : Prop :=
  exists b', (b' <= b)%Z /\ I b' false st.

(** The loop of the converter, seen from the task: [k] images are saved. *)
Definition looping (I : Z -> bool -> State -> Prop)
    (n k : nat) (st : State) : Prop :=
  exists b, (b <= 85)%Z
            /\ (forall i, (k < i <= n)%nat ->
                          (b <= hook_progress (Z.of_nat i) (Z.of_nat n))%Z)
            /\ I b false st.

(** What the task sees of a conversion: the files carry the slide names in
    order, and the progress stays at or below 85. *)
Definition converted (I : Z -> bool -> State -> Prop)
    (cfg : ExportConfig) (dir prefix : string)
    (files : list string) (st : State) : Prop :=
  active I 85 st /\ exists n, files = slide_paths dir prefix (format cfg) n.

(** The run is over: completed with progress 100, or stopped at or below 85. *)
Definition settled (I : Z -> bool -> State -> Prop) (st : State) : Prop :=
  I 100%Z true st \/ active I 85 st.

(** The journal tells the store: the record under [id] is the one the
    journal leads to, it is the last snapshot, every snapshot so far is
    [quiet], and the latest one is completed ([done]) or still without
    images. *)
Definition recorded (id : string) (done : bool) (st : State) : Prop :=
  exists t,
    tasks_cache st !! id = Some t
    /\ current id None (journal st) = Some t
    /\ last (snapshots id None (journal st)) = Some t
    /\ Forall quiet (snapshots id None (journal st))
    /\ (if done then status t = COMPLETED else images t = []).

(** [st'] differs from [st] at most in the record stored under [id], the
    clock and the journal. *)
Definition own_record_only (id : string) (st st' : State) : Prop :=
  (forall id', id' <> id -> tasks_cache st' !! id' = tasks_cache st !! id')
  /\ dom (tasks_cache st') = dom (tasks_cache st)
  /\ fs st' = fs st
  /\ background st' = background st.

(** The file system of [st] holds everything [f0] holds, and every path of
    [paths] as a regular file. *)
Definition fs_extends (f0 : FS) (paths : list string) (st : State) : Prop :=
  files f0 ⊆ files (fs st)
  /\ dirs f0 ⊆ dirs (fs st)
  /\ Forall (fun p => p ∈ files (fs st)) paths.

(** A progress hook that leaves the file system alone. *)
Definition fs_neutral (cb : option Callback) : Prop :=
  forall hook, cb = Some hook ->
    forall current total name st, fs (snd (hook current total name st)) = fs st.

(** The journal holds exactly the progress values [l] for the task [id],
    whose record is in the store. *)
Definition tracking (id : string) (l : list Z) (st : State) : Prop :=
  progress_trace id (journal st) = l /\ is_Some (tasks_cache st !! id).

(** The record of [id] shows slide [c] of [n] at progress [p]. *)
Definition showing (id : string) (c n p : Z) (st : State) : Prop :=
  exists t, tasks_cache st !! id = Some t
            /\ current_slide t = c /\ total_slides t = n /\ progress t = p.

(** The progress values the hook writes for the pages [a .. a + m - 1] of a
    document of [n] pages. *)
Definition hook_values (n a m : nat) : list Z :=
  map (fun i => hook_progress (Z.of_nat i) (Z.of_nat n)) (seq a m).

(** The upload [tmp] exists and no regular file stands where the output
    directory [folder] is to be. *)
Definition ready (tmp folder : string) (st : State) : Prop :=
  path_exists tmp (fs st) = true /\ folder ∉ files (fs st).

(** ** The progress formula as the specification words it *)

(** [min(30 + floor(current/total * 55), 85)] over the reals. *)
Definition spec_hook_progress (current total : Z) : Z :=
  Z.min (30 + (current * 55) / total) 85.

(** [int((current / total) * 55)] on primitive binary64 floats. *)
Definition prim_scaled (current total : Z) : Z :=
  Binary64.prim_int
    (PrimFloat.mul
       (PrimFloat.div (Binary64.prim_of_Z current) (Binary64.prim_of_Z total))
       (Binary64.prim_of_Z 55)).

(** ** Sample inputs *)

(** A deployment with the given tools and outcomes; python-pptx is absent. *)
Definition mk_env (lo p2i asp : bool) (so : soffice_outcome)
    (pages : exn + nat) (fault : nat -> option exn) (rm ul : bool) : Env :=
  {| OUTPUT_BASE_DIR := "/srv/output"; API_BASE_URL := "http://localhost:4000";
     HAS_PPTX := false; pptx_slides := None;
     has_libreoffice := lo; has_pdf2image := p2i; has_aspose := asp;
     soffice_run := so; convert_from_path := pages; save_fault := fault;
     aspose_presentation := inr 0%nat; rmtree_ok := rm; unlink_ok := ul |}.

(** LibreOffice and pdf2image installed, a document of [n] pages, no fault. *)
Definition healthy_env (n : nat) : Env :=
  mk_env true true false (SofficeDone true) (inr n) (fun _ => None) true true.

(** No conversion tool installed at all. *)
Definition bare_env : Env :=
  mk_env false false false (SofficeDone true) (inr 0%nat) (fun _ => None)
         true true.

(** The record [convert_ppt_async] creates. *)
Definition pending_task (id file_name : string) (t : nat) : TaskInfo :=
  {| task_id := id; filename := file_name; status := PENDING; progress := 0;
     total_slides := 0; current_slide := 0; created_at := t;
     updated_at := S t; status_message := "等待处理..."; images := [];
     error := None |}.

(** The state an accepted Submit leaves behind. *)
Definition submitted (st : State) (file_name : string) (dpi : Z)
    (fmt uuid rnd : string) : State :=
  {| tasks_cache :=
       <[ uuid := pending_task uuid file_name (now st) ]> (tasks_cache st);
     fs := {| files := {[ temp_path rnd ]} ∪ files (fs st);
              dirs := dirs (fs st) |};
     now := S (S (now st));
     background :=
       background st ++ [ {| job_task_id := uuid;
                             job_temp_file_path := temp_path rnd;
                             job_dpi := dpi; job_format := fmt |} ];
     journal :=
       journal st ++ [ Created uuid (pending_task uuid file_name (now st));
                       Scheduled uuid ] |}.

(** The rasteriser runs out of memory ([str(MemoryError())] is empty) and
    the operating system refuses to remove the output directory. *)
Definition stubborn_env : Env :=
  mk_env true true false (SofficeDone true) (inl (ForeignError ""))
         (fun _ => None) false true.

(** * Properties *)

(** ** Rounding to binary64 is monotone *)

Module Binary64Facts.
Import Binary64.
Local Open Scope Q_scope.

Lemma round_half_even_floor y :
  (Qfloor y <= round_half_even y <= Qfloor y + 1)%Z.
Proof.
  unfold round_half_even.
  destruct (Qcompare _ _); [destruct (Z.even _)| |]; lia.
Qed.

Lemma round_half_even_mono y y' :
  y <= y' -> (round_half_even y <= round_half_even y')%Z.
Proof.
  intros Hle.
  pose proof (Qfloor_resp_le _ _ Hle) as Hfl.
  destruct (Z.eq_dec (Qfloor y) (Qfloor y')) as [Heq|Hne].
  - unfold round_half_even. rewrite <- Heq.
    destruct (Qcompare_spec (y - inject_Z (Qfloor y)) (1 # 2)) as [H1|H1|H1];
    destruct (Qcompare_spec (y' - inject_Z (Qfloor y)) (1 # 2)) as [H2|H2|H2];
    try (destruct (Z.even (Qfloor y))); try lia; exfalso; lra.
  - pose proof (round_half_even_floor y). pose proof (round_half_even_floor y'). lia.
Qed.

Lemma round_half_even_ge (a : Z) y : inject_Z a <= y -> (a <= round_half_even y)%Z.
Proof.
  intros H. pose proof (Qfloor_resp_le _ _ H) as Hf. rewrite Qfloor_Z in Hf.
  pose proof (round_half_even_floor y). lia.
Qed.

Lemma round_half_even_le (b : Z) y : y <= inject_Z b -> (round_half_even y <= b)%Z.
Proof.
  intros H. pose proof (Qfloor_resp_le _ _ H) as Hf. rewrite Qfloor_Z in Hf.
  destruct (Z.eq_dec (Qfloor y) b) as [Heq|Hne].
  - unfold round_half_even.
    pose proof (Qfloor_le y) as Hlo. rewrite Heq in *.
    destruct (Qcompare_spec (y - inject_Z b) (1 # 2)) as [H1|H1|H1]; try lia; exfalso; lra.
  - pose proof (round_half_even_floor y). lia.
Qed.


Lemma pow2_pos (k : Z) : 0 < 2 ^ k.
Proof. apply Qpower_0_lt. reflexivity. Qed.

Lemma pow2_mono (a b : Z) : (a <= b)%Z -> 2 ^ a <= 2 ^ b.
Proof. intros H. apply Qpower_le_compat_l; [exact H | discriminate]. Qed.

Lemma pow2_frac (p q : Z) :
  (0 <= p)%Z -> (0 <= q)%Z -> 2 ^ (p - q) == inject_Z (2 ^ p) / inject_Z (2 ^ q).
Proof.
  intros Hp Hq. rewrite Qpower_minus by discriminate.
  rewrite !Zpower_Qpower by assumption. reflexivity.
Qed.

Lemma pow2_le_frac (p q n : Z) (d : positive) :
  (0 <= p)%Z -> (0 <= q)%Z ->
  (2 ^ p * Zpos d <= n * 2 ^ q)%Z -> 2 ^ (p - q) <= n # d.
Proof.
  intros Hp Hq H. rewrite pow2_frac by assumption.
  assert (Hq0 : (0 < 2 ^ q)%Z) by (apply Z.pow_pos_nonneg; lia).
  apply Qle_shift_div_r.
  - unfold Qlt; simpl; lia.
  - unfold Qle; simpl. lia.
Qed.

Lemma frac_lt_pow2 (p q n : Z) (d : positive) :
  (0 <= p)%Z -> (0 <= q)%Z ->
  (n * 2 ^ q < 2 ^ p * Zpos d)%Z -> n # d < 2 ^ (p - q).
Proof.
  intros Hp Hq H. rewrite pow2_frac by assumption.
  assert (Hq0 : (0 < 2 ^ q)%Z) by (apply Z.pow_pos_nonneg; lia).
  apply Qlt_shift_div_l.
  - unfold Qlt; simpl; lia.
  - unfold Qlt; simpl. lia.
Qed.

Lemma binade_spec x : 0 < x -> 2 ^ binade x <= x /\ x < 2 ^ (binade x + 1).
Proof.
  destruct x as [n d]. intros Hx.
  assert (Hn : (0 < n)%Z) by (unfold Qlt in Hx; simpl in Hx; lia).
  unfold binade; simpl Qnum; simpl Qden.
  set (a := Z.log2 n). set (b := Z.log2 (Zpos d)).
  destruct (Z.log2_spec n Hn) as [Ha1 Ha2]. fold a in Ha1, Ha2.
  destruct (Z.log2_spec (Zpos d) (Pos2Z.is_pos d)) as [Hb1 Hb2]. fold b in Hb1, Hb2.
  assert (Ha0 : (0 <= a)%Z) by apply Z.log2_nonneg.
  assert (Hb0 : (0 <= b)%Z) by apply Z.log2_nonneg.
  assert (Hup : n # d < 2 ^ (a - b + 1)).
  { replace (a - b + 1)%Z with (Z.succ a - b)%Z by lia.
    apply frac_lt_pow2; [lia | lia | ].
    assert (0 < 2 ^ b)%Z by (apply Z.pow_pos_nonneg; lia). nia. }
  destruct (Qle_bool (2 ^ (a - b)) (n # d)) eqn:Ht.
  - apply Qle_bool_iff in Ht. split; assumption.
  - assert (Hlt : n # d < 2 ^ (a - b)).
    { apply Qnot_le_lt. intros Hc. apply Qle_bool_iff in Hc. congruence. }
    split.
    + replace (a - b - 1)%Z with (a - Z.succ b)%Z by lia.
      apply pow2_le_frac; [lia | lia | ].
      assert (0 < 2 ^ a)%Z by (apply Z.pow_pos_nonneg; lia). nia.
    + replace (a - b - 1 + 1)%Z with (a - b)%Z by lia. exact Hlt.
Qed.

Lemma binade_unique x e : 2 ^ e <= x -> x < 2 ^ (e + 1) -> binade x = e.
Proof.
  intros Hlo Hhi.
  assert (Hx : 0 < x) by (eapply Qlt_le_trans; [apply (pow2_pos e) | exact Hlo]).
  destruct (binade_spec x Hx) as [Blo Bhi].
  assert (H1 : (e < binade x + 1)%Z).
  { apply (Qpower_lt_compat_l_inv 2); [| reflexivity].
    eapply Qle_lt_trans; eassumption. }
  assert (H2 : (binade x < e + 1)%Z).
  { apply (Qpower_lt_compat_l_inv 2); [| reflexivity].
    eapply Qle_lt_trans; eassumption. }
  lia.
Qed.

Lemma binade_mono x y : 0 < x -> x <= y -> (binade x <= binade y)%Z.
Proof.
  intros Hx Hxy.
  assert (Hy : 0 < y) by (eapply Qlt_le_trans; eassumption).
  destruct (binade_spec x Hx) as [Xlo _]. destruct (binade_spec y Hy) as [_ Yhi].
  assert (H : (binade x < binade y + 1)%Z).
  { apply (Qpower_lt_compat_l_inv 2); [| reflexivity].
    eapply Qle_lt_trans; [exact Xlo|]. eapply Qle_lt_trans; eassumption. }
  lia.
Qed.


Lemma ulp_of_pos x : 0 < x -> ulp x = 2 ^ (binade x - 52).
Proof.
  intros Hx. unfold ulp. f_equal. f_equal.
  destruct (binade_spec x Hx) as [Hlo Hhi].
  apply binade_unique; rewrite Qabs_pos by (apply Qlt_le_weak; exact Hx); assumption.
Qed.

Lemma fl_of_pos x :
  0 < x -> fl x = inject_Z (round_half_even (x / 2 ^ (binade x - 52))) * 2 ^ (binade x - 52).
Proof.
  intros Hx. unfold fl.
  destruct (Qeq_bool x 0) eqn:E.
  - apply Qeq_bool_iff in E. rewrite E in Hx. discriminate Hx.
  - rewrite (ulp_of_pos x Hx). reflexivity.
Qed.

Lemma pow2_split (e : Z) : 2 ^ e == inject_Z (2 ^ 52) * 2 ^ (e - 52).
Proof.
  rewrite Zpower_Qpower by lia. rewrite <- Qpower_plus by discriminate.
  replace (52 + (e - 52))%Z with e by lia. reflexivity.
Qed.

Lemma pow2_split' (e : Z) : 2 ^ (e + 1) == inject_Z (2 ^ 53) * 2 ^ (e - 52).
Proof.
  rewrite Zpower_Qpower by lia. rewrite <- Qpower_plus by discriminate.
  replace (53 + (e - 52))%Z with (e + 1)%Z by lia. reflexivity.
Qed.

Lemma fl_bounds x :
  0 < x -> 2 ^ binade x <= fl x /\ fl x <= 2 ^ (binade x + 1).
Proof.
  intros Hx. rewrite (fl_of_pos x Hx).
  destruct (binade_spec x Hx) as [Hlo Hhi].
  pose proof (pow2_split (binade x)) as E1.
  pose proof (pow2_split' (binade x)) as E2.
  set (u := 2 ^ (binade x - 52)) in *.
  assert (Hu : 0 < u) by apply pow2_pos.
  split.
  - apply (Qle_trans _ (inject_Z (2 ^ 52) * u)).
    { apply Qle_lteq. right. exact E1. }
    apply Qmult_le_compat_r; [| apply Qlt_le_weak; exact Hu].
    rewrite <- Zle_Qle. apply round_half_even_ge.
    apply Qle_shift_div_l; [exact Hu|].
    apply (Qle_trans _ (2 ^ binade x)); [| exact Hlo].
    apply Qle_lteq. right. symmetry. exact E1.
  - apply (Qle_trans _ (inject_Z (2 ^ 53) * u)).
    2:{ apply Qle_lteq. right. symmetry. exact E2. }
    apply Qmult_le_compat_r; [| apply Qlt_le_weak; exact Hu].
    rewrite <- Zle_Qle. apply round_half_even_le.
    apply Qle_shift_div_r; [exact Hu|].
    apply (Qle_trans _ (2 ^ (binade x + 1))); [apply Qlt_le_weak; exact Hhi|].
    apply Qle_lteq. right. exact E2.
Qed.

Lemma fl_pos x : 0 < x -> 0 < fl x.
Proof.
  intros Hx. eapply Qlt_le_trans; [apply (pow2_pos (binade x))|].
  apply (fl_bounds x Hx).
Qed.

Lemma fl_mono x y : 0 < x -> x <= y -> fl x <= fl y.
Proof.
  intros Hx Hxy.
  assert (Hy : 0 < y) by (eapply Qlt_le_trans; eassumption).
  pose proof (binade_mono x y Hx Hxy) as He.
  destruct (Z.eq_dec (binade x) (binade y)) as [Heq|Hne].
  - rewrite (fl_of_pos x Hx), (fl_of_pos y Hy), Heq.
    set (u := 2 ^ (binade y - 52)).
    assert (Hu : 0 < u) by apply pow2_pos.
    apply Qmult_le_compat_r; [| apply Qlt_le_weak; exact Hu].
    rewrite <- Zle_Qle. apply round_half_even_mono.
    apply Qmult_le_compat_r; [exact Hxy|].
    apply Qlt_le_weak, Qinv_lt_0_compat, Hu.
  - destruct (fl_bounds x Hx) as [_ Hxhi]. destruct (fl_bounds y Hy) as [Hylo _].
    eapply Qle_trans; [exact Hxhi|]. eapply Qle_trans; [|exact Hylo].
    apply pow2_mono. lia.
Qed.


Lemma py_int_floor x : 0 <= x -> py_int x = Qfloor x.
Proof.
  destruct x as [n d]. unfold Qle; simpl. intros H.
  unfold py_int; simpl. apply Z.quot_div_nonneg; lia.
Qed.

Lemma py_float_pos n : (0 < n)%Z -> 0 < py_float n.
Proof.
  intros H. apply fl_pos. unfold Qlt; simpl. lia.
Qed.

Lemma py_truediv_pos a b : (0 < a)%Z -> (0 < b)%Z -> 0 < py_truediv a b.
Proof.
  intros Ha Hb. apply fl_pos. apply Qlt_shift_div_l.
  - unfold Qlt; simpl; lia.
  - unfold Qlt; simpl; lia.
Qed.

Lemma py_truediv_mono a a' b :
  (0 < a)%Z -> (a <= a')%Z -> (0 < b)%Z -> py_truediv a b <= py_truediv a' b.
Proof.
  intros Ha Hle Hb. apply fl_mono.
  - apply Qlt_shift_div_l; unfold Qlt; simpl; lia.
  - apply Qmult_le_compat_r.
    + unfold Qle; simpl; lia.
    + apply Qlt_le_weak, Qinv_lt_0_compat. unfold Qlt; simpl; lia.
Qed.

Lemma py_mul_pos x y : 0 < x -> 0 < y -> 0 < py_mul x y.
Proof. intros Hx Hy. apply fl_pos. apply Qmult_lt_0_compat; assumption. Qed.

Lemma py_mul_mono x x' y : 0 < x -> x <= x' -> 0 < y -> py_mul x y <= py_mul x' y.
Proof.
  intros Hx Hle Hy. apply fl_mono.
  - apply Qmult_lt_0_compat; assumption.
  - apply Qmult_le_compat_r; [exact Hle | apply Qlt_le_weak; exact Hy].
Qed.

Lemma py_int_mono x y : 0 <= x -> x <= y -> (py_int x <= py_int y)%Z.
Proof.
  intros Hx Hle. rewrite !py_int_floor.
  - apply Qfloor_resp_le; exact Hle.
  - eapply Qle_trans; eassumption.
  - exact Hx.
Qed.

Lemma py_int_nonneg x : 0 <= x -> (0 <= py_int x)%Z.
Proof.
  intros Hx. rewrite py_int_floor by exact Hx.
  change 0%Z with (Qfloor 0). apply Qfloor_resp_le; exact Hx.
Qed.

End Binary64Facts.

(** ** The progress hook *)

Lemma hook_progress_bounds current total :
  (0 < current)%Z -> (0 < total)%Z ->
  (30 <= hook_progress current total <= 85)%Z.
Proof.
  intros Hc Ht. unfold hook_progress.
  pose proof (Binary64Facts.py_int_nonneg
                (Binary64.py_mul (Binary64.py_truediv current total)
                                 (Binary64.py_float 55))) as H.
  assert (0 <= Binary64.py_int
                 (Binary64.py_mul (Binary64.py_truediv current total)
                                  (Binary64.py_float 55)))%Z.
  { apply H. apply Qlt_le_weak. apply Binary64Facts.py_mul_pos.
    - apply Binary64Facts.py_truediv_pos; assumption.
    - apply Binary64Facts.py_float_pos; lia. }
  lia.
Qed.

Lemma hook_progress_mono current current' total :
  (0 < current)%Z -> (current <= current')%Z -> (0 < total)%Z ->
  (hook_progress current total <= hook_progress current' total)%Z.
Proof.
  intros Hc Hle Ht. unfold hook_progress.
  apply Z.min_le_compat_r. apply Z.add_le_mono_l.
  apply Binary64Facts.py_int_mono.
  - apply Qlt_le_weak. apply Binary64Facts.py_mul_pos.
    + apply Binary64Facts.py_truediv_pos; assumption.
    + apply Binary64Facts.py_float_pos; lia.
  - apply Binary64Facts.py_mul_mono.
    + apply Binary64Facts.py_truediv_pos; assumption.
    + apply Binary64Facts.py_truediv_mono; assumption.
    + apply Binary64Facts.py_float_pos; lia.
Qed.

(** The rounding model and the kernel's binary64 floats give the same
    progress for every call [(current, total)] with [total <= 60]. *)
Lemma hook_progress_binary64 :
  forallb (fun t =>
             forallb (fun c =>
                        Z.eqb (hook_progress (Z.of_nat c) (Z.of_nat t))
                              (Z.min (30 + prim_scaled (Z.of_nat c) (Z.of_nat t)) 85))
                     (seq 1 t))
          (seq 1 60) = true.
Proof. vm_compute. reflexivity. Qed.

(** ** Rules for assertions *)

Section HoareRules.
Context {A B : Type}.

Lemma hoare_conseq (P P' : State -> Prop) (m : M A)
    (Q Q' : A -> State -> Prop) (E E' : exn -> State -> Prop) :
  hoare P' m Q' E' ->
  (forall st, P st -> P' st) ->
  (forall a st, Q' a st -> Q a st) ->
  (forall e st, E' e st -> E e st) ->
  hoare P m Q E.
Proof.
  intros H HP HQ HE st Hst. specialize (H st (HP st Hst)).
  destruct (m st) as [[a|e] st']; auto.
Qed.

Lemma hoare_ret (P : State -> Prop) (a : A) Q E :
  (forall st, P st -> Q a st) -> hoare P (ret a) Q E.
Proof. intros H st Hst. simpl. auto. Qed.

Lemma hoare_raise (P : State -> Prop) (e : exn) (Q : A -> State -> Prop) E :
  (forall st, P st -> E e st) -> hoare P (raise e) Q E.
Proof. intros H st Hst. simpl. auto. Qed.

Lemma hoare_bind (P : State -> Prop) (m : M A) (k : A -> M B)
    (R : A -> State -> Prop) (Q : B -> State -> Prop) E :
  hoare P m R E ->
  (forall a, hoare (R a) (k a) Q E) ->
  hoare P (bind m k) Q E.
Proof.
  intros Hm Hk st Hst. unfold bind. specialize (Hm st Hst).
  destruct (m st) as [[a|e] st']; [exact (Hk a st' Hm) | exact Hm].
Qed.

Lemma hoare_try_except (P : State -> Prop) (m : M A) (h : exn -> M A)
    (R : exn -> State -> Prop) Q E :
  hoare P m Q R ->
  (forall e, hoare (R e) (h e) Q E) ->
  hoare P (try_except m h) Q E.
Proof.
  intros Hm Hh st Hst. unfold try_except. specialize (Hm st Hst).
  destruct (m st) as [[a|e] st']; [exact Hm | exact (Hh e st' Hm)].
Qed.

Lemma hoare_try_finally (P : State -> Prop) (m : M A) (f : M unit)
    (R : A -> State -> Prop) (RE : exn -> State -> Prop) Q E :
  hoare P m R RE ->
  (forall a, hoare (R a) f (fun _ => Q a) E) ->
  (forall e, hoare (RE e) f (fun _ => E e) E) ->
  hoare P (try_finally m f) Q E.
Proof.
  intros Hm Hok Hex st Hst. unfold try_finally. specialize (Hm st Hst).
  destruct (m st) as [[a|e] st'].
  - specialize (Hok a st' Hm). destruct (f st') as [[[]|e'] st'']; exact Hok.
  - specialize (Hex e st' Hm). destruct (f st') as [[[]|e'] st'']; exact Hex.
Qed.

End HoareRules.

Lemma hoare_get (P : State -> Prop) (Q : State -> State -> Prop) E :
  (forall st, P st -> Q st st) -> hoare P get Q E.
Proof. intros H st Hst. simpl. auto. Qed.

(** A computation continued with the state it starts from in hand. *)
Lemma hoare_get_bind {B} (P : State -> Prop) (k : State -> M B) Q E :
  (forall st0, hoare (fun st => P st /\ st = st0) (k st0) Q E) ->
  hoare P (bind get k) Q E.
Proof.
  intros H st Hst. unfold bind, get. exact (H st st (conj Hst eq_refl)).
Qed.

Lemma hoare_assign (P : State -> Prop) id w (Q : unit -> State -> Prop) E :
  (forall st, P st -> Q tt (after_assign id w st)) ->
  hoare P (assign id w) Q E.
Proof. intros H st Hst. simpl. auto. Qed.

Lemma hoare_datetime_now (P : State -> Prop) (Q : nat -> State -> Prop) E :
  (forall st, P st -> Q (now st) (tick st)) ->
  hoare P datetime_now Q E.
Proof. intros H st Hst. simpl. auto. Qed.

Lemma hoare_exists {A X} (P : X -> State -> Prop) (m : M A) Q E :
  (forall x, hoare (P x) m Q E) ->
  hoare (fun st => exists x, P x st) m Q E.
Proof. intros H st [x Hx]. exact (H x st Hx). Qed.

Lemma hoare_makedirs (P : State -> Prop) p (Q : unit -> State -> Prop)
    (E : exn -> State -> Prop) :
  (forall st, P st -> forall f, Q tt (with_fs f st)) ->
  (forall st, P st -> forall e, E e st) ->
  hoare P (makedirs p) Q E.
Proof.
  intros HQ HE st Hst. unfold makedirs.
  destruct (bool_decide _); [apply HE | apply HQ]; exact Hst.
Qed.

Lemma hoare_write_file (P : State -> Prop) p (Q : unit -> State -> Prop) E :
  (forall st, P st -> forall f, Q tt (with_fs f st)) ->
  hoare P (write_file p) Q E.
Proof. intros HQ st Hst. unfold write_file. apply HQ; exact Hst. Qed.

Lemma hoare_unlink (P : State -> Prop) env p (Q : unit -> State -> Prop)
    (E : exn -> State -> Prop) :
  (forall st, P st -> forall f, Q tt (with_fs f st)) ->
  (forall st, P st -> forall e, E e st) ->
  hoare P (unlink env p) Q E.
Proof.
  intros HQ HE st Hst. unfold unlink.
  destruct (negb (bool_decide _)); [apply HE; exact Hst|].
  destruct (negb (unlink_ok env)); [apply HE | apply HQ]; exact Hst.
Qed.

Lemma hoare_rmtree (P : State -> Prop) env p (Q : unit -> State -> Prop) E :
  (forall st, P st -> forall f, Q tt (with_fs f st)) ->
  (forall st, P st -> Q tt st) ->
  hoare P (rmtree_ignore_errors env p) Q E.
Proof.
  intros HQ HQ' st Hst. unfold rmtree_ignore_errors.
  destruct (rmtree_ok env); [apply HQ | apply HQ']; exact Hst.
Qed.

(** ** Strings *)

Lemma append_nil b : "" +:+ b = b.
Proof. reflexivity. Qed.

Lemma append_cons x a b : String x a +:+ b = String x (a +:+ b).
Proof. reflexivity. Qed.

Lemma endswith_spec s suffix :
  endswith s suffix = true <-> exists stem, s = stem +:+ suffix.
Proof.
  induction s as [|c r IH].
  - change (endswith "" suffix) with (String.eqb "" suffix || false).
    rewrite orb_false_r, String.eqb_eq. split.
    + intros <-. exists EmptyString. reflexivity.
    + intros [[|c' stem] H].
      * exact H.
      * rewrite append_cons in H. discriminate.
  - change (endswith (String c r) suffix)
      with (String.eqb (String c r) suffix || endswith r suffix).
    rewrite orb_true_iff, String.eqb_eq, IH. split.
    + intros [<- | [stem ->]].
      * exists EmptyString. reflexivity.
      * exists (String c stem). reflexivity.
    + intros [[|c' stem] H].
      * left. exact H.
      * right. exists stem. rewrite append_cons in H. injection H as _ H. exact H.
Qed.

Lemma append_length a b :
  String.length (a +:+ b) = (String.length a + String.length b)%nat.
Proof.
  induction a as [|c a IH]; [reflexivity|].
  rewrite append_cons. simpl. rewrite IH. reflexivity.
Qed.

Lemma append_assoc a b c : (a +:+ b) +:+ c = a +:+ (b +:+ c).
Proof.
  induction a as [|x a IH]; [reflexivity|].
  rewrite !append_cons, IH. reflexivity.
Qed.

(** Two decompositions of a string with tails of equal length agree. *)
Lemma append_tail_inj a b c d :
  a +:+ b = c +:+ d -> String.length b = String.length d -> b = d.
Proof.
  revert c. induction a as [|x a IH]; intros c H Hlen.
  - destruct c as [|y c]; [exact H|].
    apply (f_equal String.length) in H.
    rewrite append_nil, append_cons in H. simpl in H.
    rewrite append_length in H. lia.
  - destruct c as [|y c].
    + apply (f_equal String.length) in H.
      rewrite append_nil, append_cons in H. simpl in H.
      rewrite append_length in H. lia.
    + rewrite !append_cons in H. injection H as _ H. exact (IH c H Hlen).
Qed.

Lemma lower_append a b : lower (a +:+ b) = lower a +:+ lower b.
Proof.
  induction a as [|x a IH]; [reflexivity|].
  rewrite append_cons. simpl. rewrite IH. reflexivity.
Qed.

Lemma lower_length a : String.length (lower a) = String.length a.
Proof. induction a as [|x a IH]; simpl; [reflexivity | rewrite IH; reflexivity]. Qed.

Lemma accepted_upload_iff name :
  accepted_upload name = true <->
  exists stem, name = stem +:+ ".ppt" \/ name = stem +:+ ".pptx".
Proof.
  unfold accepted_upload, endswith_any. simpl existsb.
  rewrite orb_false_r, orb_true_iff, !endswith_spec. split.
  - intros [[stem H] | [stem H]]; exists stem; auto.
  - intros [stem [H | H]]; [left | right]; exists stem; exact H.
Qed.

(** A tail that is [.ppt] or [.pptx] up to case only, and the exact check. *)
Lemma case_variant_not_accepted stem ext :
  lower ext = ".ppt" \/ lower ext = ".pptx" ->
  ext <> ".ppt" -> ext <> ".pptx" ->
  accepted_upload (stem +:+ ext) = false.
Proof.
  intros Hlow H3 H4.
  destruct (accepted_upload (stem +:+ ext)) eqn:Hacc; [exfalso | reflexivity].
  apply accepted_upload_iff in Hacc. destruct Hacc as [pre Hpre].
  assert (Hlen : String.length ext = 4%nat \/ String.length ext = 5%nat).
  { rewrite <- (lower_length ext). destruct Hlow as [-> | ->]; auto. }
  destruct Hpre as [Hpre | Hpre], Hlen as [Hlen | Hlen].
  - apply H3. exact (append_tail_inj _ _ _ _ Hpre Hlen).
  - destruct ext as [|e1 ext4]; [discriminate Hlen|].
    change (String e1 ext4) with (String e1 "" +:+ ext4) in Hpre.
    rewrite <- append_assoc in Hpre.
    assert (ext4 = ".ppt") as ->.
    { apply (append_tail_inj _ _ _ _ Hpre). simpl in Hlen. simpl. lia. }
    destruct Hlow as [Hl | Hl]; simpl in Hl; discriminate Hl.
  - change ".pptx" with ("." +:+ "pptx") in Hpre.
    rewrite <- append_assoc in Hpre.
    assert (ext = "pptx") as -> by exact (append_tail_inj _ _ _ _ Hpre Hlen).
    destruct Hlow as [Hl | Hl]; vm_compute in Hl; discriminate Hl.
  - apply H4. exact (append_tail_inj _ _ _ _ Hpre Hlen).
Qed.

Lemma case_variant_supported stem ext :
  lower ext = ".ppt" \/ lower ext = ".pptx" ->
  supported_input (stem +:+ ext) = true.
Proof.
  intros Hlow. unfold supported_input, endswith_any. simpl existsb.
  rewrite orb_false_r, orb_true_iff, !endswith_spec, lower_append.
  destruct Hlow as [-> | ->]; [left | right]; exists (lower stem); reflexivity.
Qed.

Lemma accepted_upload_false name :
  endswith name ".ppt" = false -> endswith name ".pptx" = false ->
  accepted_upload name = false.
Proof.
  intros H1 H2. unfold accepted_upload, endswith_any. simpl existsb.
  rewrite H1, H2. reflexivity.
Qed.

(** ** Upload validation *)

(** C8. A Submit whose file name ends neither in [.ppt] nor in [.pptx] is
    answered with HTTP 400 and leaves the whole server state as it was: no
    record is created, no file is written, nothing is scheduled. *)
Theorem submit_rejects_unrecognized_extension
    (st : State) (file_name : string) (dpi : Z) (fmt uuid rnd : string) :
  endswith file_name ".ppt" = false ->
  endswith file_name ".pptx" = false ->
  convert_ppt_async file_name dpi fmt uuid rnd st
  = (Raise (HTTPException 400 "仅支持 .ppt 或 .pptx 格式"), st).
Proof.
  intros H1 H2. unfold convert_ppt_async.
  rewrite (accepted_upload_false _ H1 H2). reflexivity.
Qed.

Lemma submit_rejects_notes_txt :
  convert_ppt_async "notes.txt" 300 "png" "id-1" "abc" initial_state
  = (Raise (HTTPException 400 "仅支持 .ppt 或 .pptx 格式"), initial_state).
Proof.
  apply (submit_rejects_unrecognized_extension
           initial_state "notes.txt" 300 "png" "id-1" "abc");
    vm_compute; reflexivity.
Defined.

(** C10. Both upload endpoints accept a file name exactly when it ends,
    case-sensitively, in [.ppt] or [.pptx]; a name whose tail is one of the
    two up to case only is answered with HTTP 400 by both, while the
    converter's own check, made on the lowercased name, accepts it. *)
Theorem upload_check_is_case_sensitive :
  (forall name,
      accepted_upload name = true <->
      exists stem, name = stem +:+ ".ppt" \/ name = stem +:+ ".pptx")
  /\ (forall stem ext,
        lower ext = ".ppt" \/ lower ext = ".pptx" ->
        ext <> ".ppt" -> ext <> ".pptx" ->
        (forall st dpi fmt uuid rnd,
            convert_ppt_async (stem +:+ ext) dpi fmt uuid rnd st
            = (Raise (HTTPException 400 "仅支持 .ppt 或 .pptx 格式"), st))
        /\ (forall env st dpi fmt uuid rnd,
               convert_ppt_sync env (stem +:+ ext) dpi fmt uuid rnd st
               = (Raise (HTTPException 400 "仅支持 .ppt 或 .pptx 格式文件"), st))
        /\ supported_input (stem +:+ ext) = true).
Proof.
  split; [exact accepted_upload_iff|].
  intros stem ext Hlow H3 H4.
  pose proof (case_variant_not_accepted stem ext Hlow H3 H4) as Hrej.
  repeat split.
  - intros. unfold convert_ppt_async. rewrite Hrej. reflexivity.
  - intros. unfold convert_ppt_sync. rewrite Hrej. reflexivity.
  - apply case_variant_supported; exact Hlow.
Qed.

Lemma upload_check_rejects_upper_pptx :
  convert_ppt_async "deck.PPTX" 300 "png" "id-1" "abc" initial_state
  = (Raise (HTTPException 400 "仅支持 .ppt 或 .pptx 格式"), initial_state)
  /\ supported_input "deck.PPTX" = true.
Proof.
  destruct upload_check_is_case_sensitive as [_ H].
  destruct (H "deck" ".PPTX") as (Ha & _ & Hc).
  - right. vm_compute. reflexivity.
  - discriminate.
  - discriminate.
  - split; [exact (Ha initial_state 300%Z "png" "id-1" "abc") | exact Hc].
Defined.

(** ** The converter *)

Lemma export_unfold env cfg ppt_path output_dir method prefix cb st :
  export env cfg ppt_path output_dir method prefix cb st =
  if negb (path_exists ppt_path (fs st))
  then (Raise (FileNotFoundError ("文件不存在: " +:+ ppt_path)), st)
  else if negb (supported_input ppt_path)
  then (Raise (ValueError "仅支持 .ppt 或 .pptx 格式"), st)
  else
    match makedirs output_dir st with
    | (Raise e, st1) => (Raise e, st1)
    | (Ok _, st1) =>
        let chosen :=
          if String.eqb method "auto"
          then if has_libreoffice env then Ok "libreoffice"
               else if has_pdf2image env then Ok "pdf2image"
               else if has_aspose env then Ok "aspose"
               else Raise (RuntimeError "未找到可用的转换工具")
          else Ok method in
        match chosen with
        | Raise e => (Raise e, st1)
        | Ok m =>
            if String.eqb m "libreoffice"
            then _export_with_libreoffice env cfg ppt_path output_dir prefix cb st1
            else if String.eqb m "pdf2image"
            then _export_with_pdf2image env cfg ppt_path output_dir prefix cb st1
            else if String.eqb m "aspose"
            then _export_with_aspose env cfg ppt_path output_dir prefix cb st1
            else (Raise (ValueError ("不支持的方法: " +:+ m)), st1)
        end
    end.
Proof.
  unfold export, bind, get.
  destruct (negb (path_exists ppt_path (fs st))); [reflexivity|].
  destruct (negb (supported_input ppt_path)); [reflexivity|].
  destruct (makedirs output_dir st) as [[[]|e] st1]; [|reflexivity].
  destruct (String.eqb method "auto");
    [destruct (has_libreoffice env);
     [|destruct (has_pdf2image env); [|destruct (has_aspose env)]]|];
    cbv beta iota zeta delta [ret raise];
    repeat match goal with
           | |- context [String.eqb ?a ?b] => destruct (String.eqb a b)
           end;
    reflexivity.
Qed.



(** ** The progress hook on a record *)

(** What one call of the hook does to the record of its task. *)
Lemma progress_callback_effect (st : State) (id : string) (t : TaskInfo)
    (current total : Z) (name : string) :
  tasks_cache st !! id = Some t ->
  total <> 0%Z ->
  exists st',
    progress_callback id current total name st = (Ok tt, st')
    /\ tasks_cache st' !! id =
       Some (apply_write (SetUpdatedAt (now st))
               (apply_write
                  (SetStatusMessage
                     ("✓ 已保存: " +:+ name +:+ " (" +:+ str_of_Z current
                      +:+ "/" +:+ str_of_Z total +:+ ")"))
                  (apply_write (SetProgress (hook_progress current total))
                     (apply_write (SetTotalSlides total)
                        (apply_write (SetCurrentSlide current) t))))).
Proof.
  intros Ht Htot. unfold progress_callback, bind, get. rewrite Ht.
  unfold assign at 1. unfold assign at 1.
  destruct (total =? 0)%Z eqn:E; [apply Z.eqb_eq in E; contradiction|].
  unfold assign at 1. unfold assign at 1. unfold touch, bind, datetime_now, assign.
  eexists. split; [reflexivity|].
  unfold after_assign, tick. cbn [tasks_cache log with_cache now].
  rewrite !lookup_alter_eq, Ht. reflexivity.
Qed.

(** C2, evaluated.  For the third image of eleven the hook stores progress
    44, where [min(30 + floor(current/total * 55), 85)] is 45: the quotient
    [3/11] rounded to binary64 times 55 is just below 15.  The kernel's own
    binary64 arithmetic gives the same 44. *)
Theorem progress_callback_third_of_eleven :
  let st := with_cache {[ "id-1" := pending_task "id-1" "deck.pptx" 0 ]}
                       initial_state in
  (progress <$> tasks_cache
                  (snd (progress_callback "id-1" 3 11 "slide_003.png" st))
                !! "id-1") = Some 44%Z
  /\ Z.min (30 + prim_scaled 3 11) 85 = 44%Z
  /\ spec_hook_progress 3 11 = 45%Z.
Proof. vm_compute. repeat split; reflexivity. Qed.

(** ** Temporary upload files *)

Lemma process_cleanup_removes (env : Env) (p : string) (st : State) :
  unlink_ok env = true ->
  p ∉ files (fs (snd (process_cleanup env p st))).
Proof.
  intros Hok. unfold process_cleanup, try_except, unlink. rewrite Hok.
  destruct (bool_decide (p ∈ files (fs st))) eqn:E; simpl.
  - rewrite elem_of_difference, elem_of_singleton. tauto.
  - apply bool_decide_eq_false in E. exact E.
Qed.

(** The runner's [finally] block: once the run of a stored task is over, the
    temporary file is gone whenever the operating system lets it go. *)
Lemma runner_removes_temp_file (env : Env) (id tmp : string) (dpi : Z)
    (fmt : string) (st : State) :
  is_Some (tasks_cache st !! id) ->
  unlink_ok env = true ->
  tmp ∉ files (fs (snd (process_ppt_task env id tmp dpi fmt st))).
Proof.
  intros [t Ht] Hok. unfold process_ppt_task, bind, get. rewrite Ht.
  unfold try_finally.
  destruct (try_except _ _ st) as [r st1].
  pose proof (process_cleanup_removes env tmp st1 Hok) as H.
  destruct (process_cleanup env tmp st1) as [[[]|e] st2]; exact H.
Qed.

(** C7, evaluated.  On the synchronous endpoint a conversion that fails (here:
    no conversion tool is installed) is answered with HTTP 500 and the
    temporary upload is still on disk afterwards, although [os.unlink] would
    have succeeded: that endpoint unlinks only after a successful export. *)
Theorem sync_failure_leaves_temp_file :
  let r := convert_ppt_sync bare_env "deck.pptx" 300 "png" "id-1" "abc"
                            initial_state in
  fst r = Raise (HTTPException 500 "转换失败: 未找到可用的转换工具")
  /\ path_exists (temp_path "abc") (fs (snd r)) = true
  /\ unlink_ok bare_env = true.
Proof. vm_compute. repeat split; reflexivity. Qed.

(** ** The runner follows its protocol *)

Lemma hoare_pre {A} (P P' : State -> Prop) (m : M A) Q E :
  (forall st, P st -> P' st) -> hoare P' m Q E -> hoare P m Q E.
Proof. intros HP H. eapply hoare_conseq; eauto. Qed.

Lemma hoare_post {A} (P : State -> Prop) (m : M A)
    (Q Q' : A -> State -> Prop) (E E' : exn -> State -> Prop) :
  (forall a st, Q' a st -> Q a st) ->
  (forall e st, E' e st -> E e st) ->
  hoare P m Q' E' -> hoare P m Q E.
Proof. intros HQ HE H. eapply hoare_conseq; eauto. Qed.

Lemma hoare_pure {A} (phi : Prop) (P : State -> Prop) (m : M A) Q E :
  (phi -> hoare P m Q E) -> hoare (fun st => phi /\ P st) m Q E.
Proof. intros H st [Hphi Hst]. exact (H Hphi st Hst). Qed.

Section Runner.
Context (env : Env) (id : string) (I : Z -> bool -> State -> Prop).
Context (HI : Protocol id I).

Lemma active_weaken b b' st : (b <= b')%Z -> active I b st -> active I b' st.
Proof. intros Hle (c & Hc & H). exists c. split; [lia | exact H]. Qed.

Lemma active_frame b st st' :
  tasks_cache st' = tasks_cache st -> journal st' = journal st ->
  active I b st -> active I b st'.
Proof.
  intros Hc Hj (c & Hle & H). exists c. split; [exact Hle|].
  exact (proto_frame id I HI c false st st' Hc Hj H).
Qed.

Lemma proto_assign_neutral b d w (E : exn -> State -> Prop) :
  neutral w -> hoare (I b d) (assign id w) (fun _ => I b d) E.
Proof.
  intros Hw. apply hoare_assign. intros st H.
  exact (proto_neutral id I HI b d w st Hw H).
Qed.

Lemma proto_assign_progress b d p (E : exn -> State -> Prop) :
  (b <= p)%Z -> hoare (I b d) (assign id (SetProgress p)) (fun _ => I p d) E.
Proof.
  intros Hle. apply hoare_assign. intros st H.
  exact (proto_progress id I HI b d p st Hle H).
Qed.

Lemma proto_touch b d (E : exn -> State -> Prop) :
  hoare (I b d) (touch id) (fun _ => I b d) E.
Proof.
  unfold touch. apply hoare_bind with (R := fun _ => I b d).
  - apply hoare_datetime_now. intros st H.
    exact (proto_frame id I HI b d st (tick st) eq_refl eq_refl H).
  - intros t. apply proto_assign_neutral. exact Logic.I.
Qed.

Lemma proto_makedirs b d p :
  hoare (I b d) (makedirs p) (fun _ => I b d) (fun _ => I b d).
Proof.
  apply hoare_makedirs.
  - intros st H f.
    exact (proto_frame id I HI b d st (with_fs f st) eq_refl eq_refl H).
  - intros st H e. exact H.
Qed.

Lemma proto_read_total b d (E : exn -> State -> Prop) :
  hoare (I b d) (read_total_slides id) (fun _ => I b d) E.
Proof.
  unfold read_total_slides. apply hoare_get_bind. intros st0.
  apply hoare_ret. intros st [H _]. exact H.
Qed.


Lemma looping_active n k st : looping I n k st -> active I 85 st.
Proof. intros (b & Hb & _ & H). exists b. split; assumption. Qed.

Lemma looping_start n st : active I 30 st -> looping I n 0 st.
Proof.
  intros (b & Hb & H). exists b. split; [lia|]. split; [|exact H].
  intros i Hi.
  pose proof (hook_progress_bounds (Z.of_nat i) (Z.of_nat n)). lia.
Qed.

Lemma looping_frame n k st st' :
  tasks_cache st' = tasks_cache st -> journal st' = journal st ->
  looping I n k st -> looping I n k st'.
Proof.
  intros Hc Hj (b & Hb & Hi & H). exists b. repeat split; try assumption.
  exact (proto_frame id I HI b false st st' Hc Hj H).
Qed.

Lemma proto_progress_callback n k name :
  (S k <= n)%nat ->
  hoare (looping I n k)
        (progress_callback id (Z.of_nat (S k)) (Z.of_nat n) name)
        (fun _ => looping I n (S k)) (fun _ => active I 85).
Proof.
  intros Hk. unfold progress_callback. apply hoare_get_bind. intros st0.
  destruct (tasks_cache st0 !! id) as [t|].
  - apply hoare_pre with
      (P' := fun st => exists b, ((b <= 85)%Z
               /\ (forall i, (k < i <= n)%nat ->
                     (b <= hook_progress (Z.of_nat i) (Z.of_nat n))%Z))
               /\ I b false st).
    { intros st [(b & Hb & Hi & H) _]. exists b. auto. }
    apply hoare_exists. intros b. apply hoare_pure. intros [Hb Hi].
    apply hoare_bind with (R := fun _ => I b false).
    { apply proto_assign_neutral. exact Logic.I. }
    intros _. apply hoare_bind with (R := fun _ => I b false).
    { apply proto_assign_neutral. exact Logic.I. }
    intros _. destruct (Z.of_nat n =? 0)%Z eqn:E.
    { apply Z.eqb_eq in E. lia. }
    set (h := hook_progress (Z.of_nat (S k)) (Z.of_nat n)).
    assert (Hh : (30 <= h <= 85)%Z) by (apply hook_progress_bounds; lia).
    apply hoare_bind with (R := fun _ => I h false).
    { apply proto_assign_progress. apply Hi. lia. }
    intros _. apply hoare_bind with (R := fun _ => I h false).
    { apply proto_assign_neutral. exact Logic.I. }
    intros _.
    apply hoare_post with (Q' := fun _ => I h false)
                          (E' := fun _ => active I 85);
      [| auto | apply proto_touch].
    intros _ st H. exists h. split; [lia|]. split; [|exact H].
    intros i Hi'. apply hook_progress_mono; lia.
  - apply hoare_ret. intros st [(b & Hb & Hi & H) _].
    exists b. repeat split; try assumption. intros i Hi'. apply Hi. lia.
Qed.


Lemma hoare_save_image (P : State -> Prop) i path :
  (forall st f, P st -> P (with_fs f st)) ->
  hoare P (save_image env i path) (fun _ => P) (fun _ => P).
Proof.
  intros HP. unfold save_image. destruct (save_fault env i) as [e|].
  - apply hoare_raise. auto.
  - apply hoare_write_file. intros st H f. apply HP. exact H.
Qed.

Lemma hoare_save_slides (P : State -> Prop) cfg dir prefix :
  (forall st f, P st -> P (with_fs f st)) ->
  forall indices acc,
    hoare P (save_slides env cfg dir prefix indices acc)
          (fun files st =>
             P st /\ files = acc ++ map (fun i => path_join dir
                                (slide_filename prefix (format cfg) i)) indices)
          (fun _ => P).
Proof.
  intros HP. induction indices as [|i rest IH]; intros acc.
  - apply hoare_ret. intros st H. split; [exact H|]. simpl.
    rewrite app_nil_r. reflexivity.
  - cbn [save_slides]. apply hoare_bind with (R := fun _ => P).
    { apply hoare_save_image. exact HP. }
    intros _. eapply hoare_post; [| | apply IH].
    + intros files st [H ->]. split; [exact H|].
      rewrite <- app_assoc. reflexivity.
    + auto.
Qed.

Lemma proto_save_pages cfg dir prefix n :
  forall m k acc, (k + m = n)%nat ->
    hoare (looping I n k)
          (save_pages env cfg dir prefix (Some (progress_callback id)) n
                      (seq (S k) m) acc)
          (fun files st =>
             looping I n n st
             /\ files = acc ++ map (fun i => path_join dir
                                 (slide_filename prefix (format cfg) i))
                               (seq (S k) m))
          (fun _ => active I 85).
Proof.
  induction m as [|m IH]; intros k acc Hk.
  - assert (k = n) by lia. subst k. apply hoare_ret. intros st H.
    split; [exact H|]. simpl. rewrite app_nil_r. reflexivity.
  - cbn [seq save_pages]. apply hoare_bind with (R := fun _ => looping I n k).
    { eapply hoare_post; [| | apply hoare_save_image].
      - auto.
      - intros e st H. exact (looping_active n k st H).
      - intros st f H.
        exact (looping_frame n k st (with_fs f st) eq_refl eq_refl H). }
    intros _. apply hoare_bind with (R := fun _ => looping I n (S k)).
    { apply proto_progress_callback. lia. }
    intros _. eapply hoare_post; [| | apply IH; lia].
    + intros files st [H ->]. split; [exact H|].
      rewrite <- app_assoc. reflexivity.
    + auto.
Qed.


Lemma active_with_fs b st f : active I b st -> active I b (with_fs f st).
Proof. apply active_frame; reflexivity. Qed.

Lemma proto_libreoffice cfg ppt dir prefix :
  hoare (active I 30)
        (_export_with_libreoffice env cfg ppt dir prefix
                                  (Some (progress_callback id)))
        (converted I cfg dir prefix) (fun _ => active I 85).
Proof.
  assert (Hup : forall st, active I 30 st -> active I 85 st)
    by (intros st; apply active_weaken; lia).
  unfold _export_with_libreoffice.
  destruct (soffice_run env) as [ | msg | e | found];
    try (apply hoare_raise; exact Hup).
  destruct (negb found); [apply hoare_raise; exact Hup|].
  destruct (negb (has_pdf2image env)); [apply hoare_raise; exact Hup|].
  destruct (convert_from_path env) as [e | n]; [apply hoare_raise; exact Hup|].
  apply hoare_pre with (P' := looping I n 0); [apply looping_start|].
  eapply hoare_post; [| | apply (proto_save_pages cfg dir prefix n n 0 []); lia].
  - intros files st [H ->]. split; [exact (looping_active n n st H)|].
    exists n. reflexivity.
  - auto.
Qed.

Lemma proto_aspose cfg ppt dir prefix cb :
  hoare (active I 30) (_export_with_aspose env cfg ppt dir prefix cb)
        (converted I cfg dir prefix) (fun _ => active I 85).
Proof.
  assert (Hup : forall st, active I 30 st -> active I 85 st)
    by (intros st; apply active_weaken; lia).
  unfold _export_with_aspose.
  destruct (negb (has_aspose env)); [apply hoare_raise; exact Hup|].
  destruct (aspose_presentation env) as [e | n]; [apply hoare_raise; exact Hup|].
  eapply hoare_post;
    [| | apply (hoare_save_slides (active I 30) cfg dir prefix)].
  - intros files st [H ->]. split; [exact (Hup st H)|]. exists n. reflexivity.
  - intros e st H. exact (Hup st H).
  - intros st f H. apply active_with_fs. exact H.
Qed.

Lemma proto_export cfg ppt dir method prefix :
  hoare (active I 30)
        (export env cfg ppt dir method prefix (Some (progress_callback id)))
        (converted I cfg dir prefix) (fun _ => active I 85).
Proof.
  assert (Hup : forall st, active I 30 st -> active I 85 st)
    by (intros st; apply active_weaken; lia).
  intros st H. rewrite export_unfold.
  destruct (negb (path_exists ppt (fs st))); [exact (Hup st H)|].
  destruct (negb (supported_input ppt)); [exact (Hup st H)|].
  unfold makedirs.
  destruct (bool_decide (dir ∈ files (fs st))); [exact (Hup st H)|].
  match goal with
  | |- context [with_fs ?f st] =>
      pose proof (active_with_fs 30 st f H) as H1; revert H1;
      generalize (with_fs f st); intros st1 H1
  end.
  assert (Hlo : forall m,
            match
              (if String.eqb m "libreoffice"
               then _export_with_libreoffice env cfg ppt dir prefix
                      (Some (progress_callback id)) st1
               else if String.eqb m "pdf2image"
               then _export_with_pdf2image env cfg ppt dir prefix
                      (Some (progress_callback id)) st1
               else if String.eqb m "aspose"
               then _export_with_aspose env cfg ppt dir prefix
                      (Some (progress_callback id)) st1
               else (Raise (ValueError ("不支持的方法: " +:+ m)), st1))
            with
            | (Ok a, st') => converted I cfg dir prefix a st'
            | (Raise _, st') => active I 85 st'
            end).
  { intros m. destruct (String.eqb m "libreoffice").
    - exact (proto_libreoffice cfg ppt dir prefix st1 H1).
    - destruct (String.eqb m "pdf2image").
      + unfold _export_with_pdf2image.
        destruct (negb (has_libreoffice env)); [exact (Hup st1 H1)|].
        exact (proto_libreoffice cfg ppt dir prefix st1 H1).
      + destruct (String.eqb m "aspose").
        * exact (proto_aspose cfg ppt dir prefix _ st1 H1).
        * exact (Hup st1 H1). }
  destruct (String.eqb method "auto").
  - destruct (has_libreoffice env); [apply Hlo; auto|].
    destruct (has_pdf2image env); [apply Hlo; auto|].
    destruct (has_aspose env); [apply Hlo; auto|].
    exact (Hup st1 H1).
  - apply Hlo; auto.
Qed.


Lemma proto_assign_status b s (E : exn -> State -> Prop) :
  s <> COMPLETED ->
  hoare (I b false) (assign id (SetStatus s)) (fun _ => I b false) E.
Proof.
  intros Hs. apply hoare_assign. intros st H.
  exact (proto_status id I HI b s st Hs H).
Qed.

Lemma active_of b d st : (b <= 85)%Z -> d = false -> I b d st -> active I 85 st.
Proof. intros Hb -> H. exists b. split; assumption. Qed.

(** One step of a sequence: the intermediate assertion is [R]. *)
Ltac proto_step mid :=
  apply hoare_bind with (R := fun _ => mid);
  [ first [ apply proto_assign_neutral; exact Logic.I
          | apply proto_assign_progress; lia
          | apply proto_assign_status; discriminate
          | apply proto_touch
          | apply proto_read_total
          | (eapply hoare_post; [| | apply proto_makedirs]);
            [ auto
            | let Hx := fresh in
              intros ? ? Hx; refine (active_of _ _ _ _ eq_refl Hx); lia ] ]
  | intros ? ].

Lemma proto_convert_stage tmp dpi fmt :
  hoare (I 0 false) (convert_stage env id tmp dpi fmt)
        (converted I {| dpi := dpi; format := fmt; quality := 95;
                      width := None; height := None |}
                   (path_join (OUTPUT_BASE_DIR env) id) "slide")
        (fun _ => active I 85).
Proof.
  unfold convert_stage.
  proto_step (I 0 false). proto_step (I 5 false). proto_step (I 5 false).
  proto_step (I 5 false).
  apply hoare_bind with (R := fun _ => I 5 false).
  { destruct (0 <? get_ppt_slide_count env tmp)%Z.
    - proto_step (I 5 false). apply proto_assign_neutral. exact Logic.I.
    - apply proto_assign_neutral. exact Logic.I. }
  intros _. proto_step (I 5 false). proto_step (I 5 false).
  proto_step (I 10 false). proto_step (I 10 false). proto_step (I 10 false).
  proto_step (I 15 false). proto_step (I 15 false). proto_step (I 15 false).
  proto_step (I 30 false). proto_step (I 30 false).
  apply hoare_bind with (R := fun _ => I 30 false).
  { match goal with |- context [(0 <? ?x)%Z] => destruct (0 <? x)%Z end;
      apply proto_assign_neutral; exact Logic.I. }
  intros _. proto_step (I 30 false). proto_step (I 30 false).
  apply hoare_pre with (P' := active I 30).
  { intros st H. exists 30%Z. split; [lia | exact H]. }
  apply proto_export.
Qed.

Lemma proto_finish_stage files (E : exn -> State -> Prop) :
  hoare (active I 85) (finish_stage env id files) (fun _ => I 100 true) E.
Proof.
  unfold active. apply hoare_exists. intros b. apply hoare_pure. intros Hb.
  unfold finish_stage.
  proto_step (I b false).
  apply hoare_bind with (R := fun _ => I b false).
  { match goal with |- context [negb ?c] => destruct (negb c) end.
    - apply proto_assign_neutral. exact Logic.I.
    - apply hoare_ret. auto. }
  intros _. proto_step (I b false). proto_step (I 90 false).
  proto_step (I 90 false). proto_step (I 90 false).
  apply hoare_bind with (R := fun _ => I 90 true).
  { apply hoare_assign. intros st H. exact (proto_completed id I HI 90 st H). }
  intros _. proto_step (I 100 true). proto_step (I 100 true).
  proto_step (I 100 true).
  apply hoare_bind with (R := fun _ => I 100 true).
  { apply hoare_assign. intros st H. exact (proto_images id I HI 100 _ st H). }
  intros _. apply proto_touch.
Qed.

Lemma proto_process_failure e (E : exn -> State -> Prop) :
  hoare (active I 85) (process_failure env id e) (fun _ => active I 85) E.
Proof.
  unfold active at 1. apply hoare_exists. intros b. apply hoare_pure.
  intros Hb. unfold process_failure.
  proto_step (I b false). proto_step (I b false). proto_step (I b false).
  proto_step (I b false).
  apply hoare_get_bind. intros st0.
  apply hoare_pre with (P' := I b false); [intros st [H _]; exact H|].
  destruct (path_exists _ (fs st0)).
  - apply hoare_rmtree.
    + intros st H f. apply active_with_fs. exists b. split; assumption.
    + intros st H. exists b. split; assumption.
  - apply hoare_ret. intros st H. exists b. split; assumption.
Qed.

Lemma hoare_process_cleanup (P : State -> Prop) tmp (E : exn -> State -> Prop) :
  (forall st f, P st -> P (with_fs f st)) ->
  hoare P (process_cleanup env tmp) (fun _ => P) E.
Proof.
  intros HP. unfold process_cleanup.
  apply hoare_try_except with (R := fun _ => P).
  - apply hoare_unlink; auto.
  - intros e. apply hoare_ret. auto.
Qed.

Lemma proto_process_body tmp dpi fmt :
  hoare (I 0 false) (process_body env id tmp dpi fmt)
        (fun _ => I 100 true) (fun _ => active I 85).
Proof.
  unfold process_body.
  apply hoare_bind with (R := fun _ => active I 85).
  - eapply hoare_post; [| | apply proto_convert_stage]; [|auto].
    intros files st [H _]. exact H.
  - intros files. apply proto_finish_stage.
Qed.

Lemma proto_process_ppt_task tmp dpi fmt :
  hoare (I 0 false) (process_ppt_task env id tmp dpi fmt)
        (fun _ => settled I) (fun _ _ => False).
Proof.
  unfold process_ppt_task. apply hoare_get_bind. intros st0.
  apply hoare_pre with (P' := I 0 false); [intros st [H _]; exact H|].
  destruct (tasks_cache st0 !! id) as [t|].
  - apply hoare_try_finally with (R := fun _ => settled I)
                                 (RE := fun _ _ => False).
    + apply hoare_try_except with (R := fun _ => active I 85).
      * eapply hoare_post; [| | apply proto_process_body]; [|auto].
        intros u st H. left. exact H.
      * intros e.
        eapply hoare_post;
          [| | apply (proto_process_failure e (fun _ _ => False))]; [|auto].
        intros u st H. right. exact H.
    + intros _. apply hoare_process_cleanup.
      intros st f [H | H]; [left | right].
      * exact (proto_frame id I HI 100 true st (with_fs f st) eq_refl eq_refl H).
      * apply active_with_fs. exact H.
    + intros e. apply hoare_pre with (P' := fun _ => False); [auto|].
      intros st [].
  - apply hoare_ret. intros st H. right. exists 0%Z. split; [lia | exact H].
Qed.

End Runner.

(** ** Reading the journal: lemmas *)

Lemma journal_after_assign id w st :
  journal (after_assign id w st) = journal st ++ [Wrote id w].
Proof. reflexivity. Qed.

Lemma cache_after_assign id w st :
  tasks_cache (after_assign id w st) = alter (apply_write w) id (tasks_cache st).
Proof. reflexivity. Qed.

Lemma progress_trace_app id j1 j2 :
  progress_trace id (j1 ++ j2) = progress_trace id j1 ++ progress_trace id j2.
Proof.
  induction j1 as [|ev j1 IH]; [reflexivity|].
  destruct ev as [id' t | id' w | id' | id']; simpl; try exact IH.
  - destruct (String.eqb id' id); simpl; rewrite IH; reflexivity.
  - destruct w; try exact IH.
    destruct (String.eqb id' id); simpl; rewrite IH; reflexivity.
Qed.

Lemma progress_trace_unused id j : unused id j -> progress_trace id j = [].
Proof.
  induction 1 as [|ev j Hev _ IH]; [reflexivity|].
  destruct ev as [id' t | id' w | id' | id']; simpl; try exact IH.
  - apply String.eqb_neq in Hev. rewrite Hev. exact IH.
  - destruct w; try exact IH.
    apply String.eqb_neq in Hev. rewrite Hev. exact IH.
Qed.

Lemma upto_nil b : (0 <= b)%Z -> upto b [].
Proof.
  intros Hb. split; [exact Hb|]. split; [|constructor].
  intros i j p q _ H. rewrite lookup_nil in H. discriminate.
Qed.

Lemma upto_weaken b b' l : (b <= b')%Z -> upto b l -> upto b' l.
Proof.
  intros Hle (Hb & Hs & Hf). split; [lia|]. split; [exact Hs|].
  eapply Forall_impl; [exact Hf|]. simpl. intros x Hx. lia.
Qed.

Lemma upto_snoc b p l : (b <= p)%Z -> upto b l -> upto p (l ++ [p]).
Proof.
  intros Hle (Hb & Hs & Hf). split; [lia|]. split.
  - intros i j x y Hij Hx Hy.
    apply lookup_app_Some in Hx. apply lookup_app_Some in Hy.
    destruct Hy as [Hy | [Hj Hy]].
    + destruct Hx as [Hx | [Hi Hx]].
      * exact (Hs i j x y Hij Hx Hy).
      * apply lookup_lt_Some in Hy. lia.
    + assert (y = p) as ->.
      { destruct (j - length l)%nat; simpl in Hy; [congruence | discriminate]. }
      destruct Hx as [Hx | [Hi Hx]].
      * rewrite Forall_forall in Hf.
        assert (x ∈ l) as Hin by (apply list_elem_of_lookup; eauto).
        specialize (Hf x Hin). simpl in Hf. lia.
      * destruct (i - length l)%nat; simpl in Hx; [|discriminate].
        injection Hx as ->. lia.
  - apply Forall_app. split.
    + eapply Forall_impl; [exact Hf|]. simpl. intros x Hx. lia.
    + constructor; [lia | constructor].
Qed.

Lemma upto_created : upto 0 [0%Z].
Proof. apply (upto_snoc 0 0 []); [lia | apply upto_nil; lia]. Qed.

(** The progress trace of a task as a protocol of its runner. *)
Lemma trace_protocol id :
  Protocol id (fun b _ st => upto b (progress_trace id (journal st))).
Proof.
  split.
  - intros b d st st' _ Hj H. rewrite Hj. exact H.
  - intros b d p st Hle H. rewrite journal_after_assign, progress_trace_app.
    simpl. rewrite String.eqb_refl. apply (upto_snoc b); assumption.
  - intros b s st _ H. rewrite journal_after_assign, progress_trace_app.
    simpl. rewrite app_nil_r. exact H.
  - intros b st H. rewrite journal_after_assign, progress_trace_app.
    simpl. rewrite app_nil_r. exact H.
  - intros b l st H. rewrite journal_after_assign, progress_trace_app.
    simpl. rewrite app_nil_r. exact H.
  - intros b d w st Hw H. rewrite journal_after_assign, progress_trace_app.
    destruct w; try contradiction; simpl; rewrite app_nil_r; exact H.
Qed.

(** ** Submit *)

Lemma submit_accepted st file_name dpi fmt uuid rnd :
  accepted_upload file_name = true ->
  convert_ppt_async file_name dpi fmt uuid rnd st
  = (Ok {| submit_success := true; submit_task_id := uuid;
           submit_message := "任务已创建，正在处理中" |},
     submitted st file_name dpi fmt uuid rnd).
Proof.
  intros Hacc. unfold convert_ppt_async. rewrite Hacc.
  unfold submitted, bind, datetime_now, store_task, write_file, add_task, ret,
    log, with_cache, with_fs, tick, pending_task. simpl.
  rewrite <- app_assoc. reflexivity.
Qed.

Lemma submitted_trace st file_name dpi fmt uuid rnd :
  unused uuid (journal st) ->
  progress_trace uuid (journal (submitted st file_name dpi fmt uuid rnd))
  = [0%Z].
Proof.
  intros Hun. unfold submitted. cbn [journal].
  rewrite progress_trace_app, (progress_trace_unused _ _ Hun).
  simpl. rewrite String.eqb_refl. reflexivity.
Qed.

(** The first entry of the trace stays what it is. *)
Lemma head_protocol id (p0 : Z) :
  Protocol id (fun _ _ st => progress_trace id (journal st) !! 0%nat = Some p0).
Proof.
  assert (Hgrow : forall st w,
             progress_trace id (journal st) !! 0%nat = Some p0 ->
             progress_trace id (journal (after_assign id w st)) !! 0%nat = Some p0).
  { intros st w H. rewrite journal_after_assign, progress_trace_app.
    apply lookup_app_l_Some. exact H. }
  split; intros; try (apply Hgrow; assumption).
  match goal with Hj : journal _ = journal _ |- _ => rewrite Hj end. assumption.
Qed.

(** ** Progress is monotone *)

(** C1. The progress values of a task, from its creation by Submit (0)
    through every assignment its runner and the progress hook make, never
    decrease and stay within [0, 100], whatever the converter does. *)
Theorem progress_never_decreases
    (env : Env) (st : State) (file_name : string) (dpi : Z)
    (fmt uuid rnd : string) :
  accepted_upload file_name = true ->
  unused uuid (journal st) ->
  let st1 := snd (convert_ppt_async file_name dpi fmt uuid rnd st) in
  let st2 := snd (process_ppt_task env uuid (temp_path rnd) dpi fmt st1) in
  let trace := progress_trace uuid (journal st2) in
  trace !! 0%nat = Some 0%Z
  /\ (forall i j p q, (i <= j)%nat ->
         trace !! i = Some p -> trace !! j = Some q -> (p <= q)%Z)
  /\ Forall (fun p => (0 <= p <= 100)%Z) trace.
Proof.
  intros Hacc Hun. rewrite (submit_accepted _ _ _ _ _ _ Hacc). cbn [snd].
  set (st1 := submitted st file_name dpi fmt uuid rnd).
  pose proof (submitted_trace st file_name dpi fmt uuid rnd Hun) as Htr.
  fold st1 in Htr.
  pose proof (proto_process_ppt_task env uuid _ (trace_protocol uuid)
                (temp_path rnd) dpi fmt st1) as Hrun.
  pose proof (proto_process_ppt_task env uuid _ (head_protocol uuid 0)
                (temp_path rnd) dpi fmt st1) as Hhead.
  destruct (process_ppt_task env uuid (temp_path rnd) dpi fmt st1)
    as [[[]|e] st2]; cbn [snd].
  - split.
    + assert (Hh : settled
                (fun _ _ st => progress_trace uuid (journal st) !! 0%nat
                               = Some 0%Z) st2).
      { apply Hhead. rewrite Htr. reflexivity. }
      destruct Hh as [Hh | (b & _ & Hh)]; exact Hh.
    + assert (Hs : settled
                (fun b _ st => upto b (progress_trace uuid (journal st))) st2).
      { apply Hrun. rewrite Htr. apply upto_created. }
      assert (Hup : upto 100 (progress_trace uuid (journal st2))).
      { destruct Hs as [Hs | (b & Hb & Hs)]; [exact Hs|].
        eapply upto_weaken; [|exact Hs]. lia. }
      destruct Hup as (_ & Hsorted & Hrange). split; assumption.
  - exfalso. apply Hrun. rewrite Htr. apply upto_created.
Qed.

Lemma progress_never_decreases_three_pages :
  let st1 := snd (convert_ppt_async "deck.pptx" 300 "png" "id-1" "abc"
                                    initial_state) in
  let st2 := snd (process_ppt_task (healthy_env 3) "id-1" (temp_path "abc")
                                   300 "png" st1) in
  let trace := progress_trace "id-1" (journal st2) in
  trace !! 0%nat = Some 0%Z
  /\ (forall i j p q, (i <= j)%nat ->
         trace !! i = Some p -> trace !! j = Some q -> (p <= q)%Z)
  /\ Forall (fun p => (0 <= p <= 100)%Z) trace.
Proof.
  apply (progress_never_decreases (healthy_env 3) initial_state "deck.pptx"
           300 "png" "id-1" "abc").
  - vm_compute. reflexivity.
  - constructor.
Defined.

(** ** The record of a task through a run *)

(** Records are only altered by a run, never removed or added. *)
Lemma present_protocol id id' :
  Protocol id (fun _ _ st => is_Some (tasks_cache st !! id')).
Proof.
  assert (Hkeep : forall st w,
             is_Some (tasks_cache st !! id') ->
             is_Some (tasks_cache (after_assign id w st) !! id')).
  { intros st w H. rewrite cache_after_assign.
    apply lookup_alter_is_Some. exact H. }
  split; intros; try (apply Hkeep; assumption).
  match goal with Hc : tasks_cache _ = tasks_cache _ |- _ => rewrite Hc end.
  assumption.
Qed.

Lemma finish_stage_record env id files st t :
  tasks_cache st !! id = Some t ->
  exists st' t',
    finish_stage env id files st = (Ok tt, st')
    /\ tasks_cache st' !! id = Some t'
    /\ status t' = COMPLETED
    /\ progress t' = 100%Z
    /\ images t' = image_urls env id files
    /\ total_slides t' = Z.of_nat (length files)
    /\ current_slide t' = Z.of_nat (length files)
    /\ error t' = error t.
Proof.
  intros Ht.
  cbv beta iota zeta delta [finish_stage bind read_total_slides get ret touch
                              datetime_now assign].
  rewrite Ht. cbn [from_option].
  destruct (negb (Z.of_nat (length files) =? total_slides t)%Z) eqn:E;
    eexists; eexists; (split; [reflexivity|]);
    cbn [tasks_cache after_assign tick log with_cache];
    rewrite !lookup_alter_eq, Ht; (split; [reflexivity|]);
    destruct t; cbn; repeat split; try reflexivity.
  apply negb_false_iff, Z.eqb_eq in E. cbn in E. symmetry. exact E.
Qed.

Lemma process_failure_record env id e st t :
  tasks_cache st !! id = Some t ->
  exists st' t',
    process_failure env id e st = (Ok tt, st')
    /\ tasks_cache st' !! id = Some t'
    /\ status t' = FAILED
    /\ status_message t' = "转换失败"
    /\ error t' = Some (exn_str e)
    /\ images t' = images t
    /\ progress t' = progress t
    /\ (rmtree_ok env = true ->
        path_exists (path_join (OUTPUT_BASE_DIR env) id) (fs st') = false)
    /\ (rmtree_ok env = false -> fs st' = fs st).
Proof.
  intros Ht.
  cbv beta iota zeta delta [process_failure bind get ret touch datetime_now
                              assign].
  cbn [fs after_assign tick log with_cache].
  set (folder := path_join (OUTPUT_BASE_DIR env) id).
  destruct (path_exists folder (fs st)) eqn:Hex.
  - unfold rmtree_ignore_errors. destruct (rmtree_ok env) eqn:Hrm.
    + eexists; eexists; (split; [reflexivity|]).
      cbn [tasks_cache fs after_assign tick log with_cache with_fs].
      rewrite !lookup_alter_eq, Ht. split; [reflexivity|].
      destruct t; cbn; repeat split; try reflexivity; try discriminate.
      intros _. unfold path_exists. cbn [files dirs].
      apply orb_false_iff. split; apply bool_decide_eq_false;
        rewrite elem_of_filter; unfold outside; tauto.
    + eexists; eexists; (split; [reflexivity|]).
      cbn [tasks_cache fs after_assign tick log with_cache with_fs].
      rewrite !lookup_alter_eq, Ht. split; [reflexivity|].
      destruct t; cbn; repeat split; try reflexivity; discriminate.
  - eexists; eexists; (split; [reflexivity|]).
    cbn [tasks_cache fs after_assign tick log with_cache with_fs].
    rewrite !lookup_alter_eq, Ht. split; [reflexivity|].
    destruct t; cbn; repeat split; try reflexivity. intros _. exact Hex.
Qed.

Lemma process_cleanup_effect env tmp st :
  exists st',
    process_cleanup env tmp st = (Ok tt, st')
    /\ tasks_cache st' = tasks_cache st
    /\ journal st' = journal st
    /\ dirs (fs st') = dirs (fs st)
    /\ files (fs st') ⊆ files (fs st).
Proof.
  unfold process_cleanup, try_except, unlink, ret.
  destruct (negb (bool_decide (tmp ∈ files (fs st)))).
  { exists st. repeat split; reflexivity. }
  destruct (negb (unlink_ok env)).
  { exists st. repeat split; reflexivity. }
  eexists. split; [reflexivity|]. cbn. repeat split; try reflexivity.
  intros x Hx. apply elem_of_difference in Hx. tauto.
Qed.

Lemma path_exists_shrinks p f f' :
  dirs f' = dirs f -> files f' ⊆ files f ->
  path_exists p f = false -> path_exists p f' = false.
Proof.
  unfold path_exists. intros Hd Hf H. apply orb_false_iff in H as [H1 H2].
  apply bool_decide_eq_false in H1. apply bool_decide_eq_false in H2.
  apply orb_false_iff. split; apply bool_decide_eq_false.
  - intros Hin. apply H1. apply Hf. exact Hin.
  - rewrite Hd. exact H2.
Qed.

Lemma slide_paths_length dir prefix fmt n :
  length (slide_paths dir prefix fmt n) = n.
Proof. unfold slide_paths. rewrite length_map, length_seq. reflexivity. Qed.

(** How a run ends for a stored task: the runner itself never raises; the
    record ends completed, built from the converter's files, when the [try]
    block returns, and failed, with the text of the exception, when it
    raises. *)
Lemma runner_outcome env id tmp dpi fmt st t :
  tasks_cache st !! id = Some t ->
  exists st' t',
    process_ppt_task env id tmp dpi fmt st = (Ok tt, st')
    /\ tasks_cache st' !! id = Some t'
    /\ ((exists n,
            fst (process_body env id tmp dpi fmt st) = Ok tt
            /\ fst (convert_stage env id tmp dpi fmt st)
               = Ok (slide_paths (path_join (OUTPUT_BASE_DIR env) id)
                                 "slide" fmt n)
            /\ status t' = COMPLETED
            /\ progress t' = 100%Z
            /\ images t' =
               image_urls env id
                 (slide_paths (path_join (OUTPUT_BASE_DIR env) id) "slide" fmt n)
            /\ total_slides t' = Z.of_nat n
            /\ current_slide t' = Z.of_nat n)
        \/ (exists e,
               fst (process_body env id tmp dpi fmt st) = Raise e
               /\ status t' = FAILED
               /\ status_message t' = "转换失败"
               /\ error t' = Some (exn_str e)
               /\ (rmtree_ok env = true ->
                   path_exists (path_join (OUTPUT_BASE_DIR env) id) (fs st')
                   = false))).
Proof.
  intros Ht.
  assert (Hpres : is_Some (tasks_cache st !! id)) by (rewrite Ht; eauto).
  unfold process_ppt_task, bind, get. rewrite Ht.
  unfold try_finally, try_except.
  pose proof (proto_process_body env id _ (present_protocol id id) tmp dpi fmt
                st Hpres) as Hbody.
  unfold process_body, bind in *.
  pose proof (proto_convert_stage env id _ (present_protocol id id) tmp dpi fmt
                st Hpres) as Hconv.
  destruct (convert_stage env id tmp dpi fmt st) as [[files|e] st0].
  - destruct Hconv as [(b & _ & [t0 Ht0]) [n Hn]]. cbn [format] in Hn.
    destruct (finish_stage_record env id files st0 t0 Ht0)
      as (st1 & t1 & Hfin & Ht1 & Hst & Hpr & Him & Htot & Hcur & _).
    rewrite Hfin.
    destruct (process_cleanup_effect env tmp st1)
      as (st2 & Hcl & Hc2 & _ & _ & _).
    rewrite Hcl. exists st2, t1. split; [reflexivity|].
    split; [rewrite Hc2; exact Ht1|]. left. exists n.
    rewrite Him, Htot, Hcur, Hn, slide_paths_length.
    repeat split; try assumption; reflexivity.
  - destruct Hconv as (b & _ & [t0 Ht0]).
    destruct (process_failure_record env id e st0 t0 Ht0)
      as (st1 & t1 & Hfail & Ht1 & Hst & Hmsg & Herr & _ & _ & Hdir & _).
    rewrite Hfail.
    destruct (process_cleanup_effect env tmp st1)
      as (st2 & Hcl & Hc2 & _ & Hd2 & Hf2).
    rewrite Hcl. exists st2, t1. split; [reflexivity|].
    split; [rewrite Hc2; exact Ht1|]. right. exists e.
    repeat split; try assumption.
    intros Hrm. eapply path_exists_shrinks; eauto.
Qed.

(** ** Failed runs *)

(** C4, as the code has it.  When the [try] block of the runner raises [e],
    the run still ends normally and leaves the record failed, with message
    "conversion failed" and [error = str(e)]; the output directory of the
    task is gone whenever [shutil.rmtree] was carried out. *)
Theorem failed_run_is_recorded
    (env : Env) (id tmp : string) (dpi : Z) (fmt : string)
    (st : State) (t : TaskInfo) (e : exn) :
  tasks_cache st !! id = Some t ->
  fst (process_body env id tmp dpi fmt st) = Raise e ->
  exists st' t',
    process_ppt_task env id tmp dpi fmt st = (Ok tt, st')
    /\ tasks_cache st' !! id = Some t'
    /\ status t' = FAILED
    /\ status_message t' = "转换失败"
    /\ error t' = Some (exn_str e)
    /\ (rmtree_ok env = true ->
        path_exists (path_join (OUTPUT_BASE_DIR env) id) (fs st') = false).
Proof.
  intros Ht Hbody.
  destruct (runner_outcome env id tmp dpi fmt st t Ht)
    as (st' & t' & Hrun & Ht'
        & [(n & Hok & _) | (e' & He & Hst & Hmsg & Herr & Hdir)]).
  - rewrite Hbody in Hok. discriminate.
  - rewrite Hbody in He. injection He as <-.
    exists st', t'. repeat split; assumption.
Qed.

Lemma failed_run_without_tools :
  let st := submitted initial_state "deck.pptx" 300 "png" "id-1" "abc" in
  exists st' t',
    process_ppt_task bare_env "id-1" (temp_path "abc") 300 "png" st
    = (Ok tt, st')
    /\ tasks_cache st' !! "id-1" = Some t'
    /\ status t' = FAILED
    /\ status_message t' = "转换失败"
    /\ error t' = Some "未找到可用的转换工具"
    /\ (rmtree_ok bare_env = true ->
        path_exists (path_join (OUTPUT_BASE_DIR bare_env) "id-1") (fs st')
        = false).
Proof.
  intros st.
  apply (failed_run_is_recorded bare_env "id-1" (temp_path "abc") 300 "png" st
           (pending_task "id-1" "deck.pptx" 0)
           (RuntimeError "未找到可用的转换工具")).
  - vm_compute. reflexivity.
  - vm_compute. reflexivity.
Defined.

(** C4 as stated fails: the run below fails, yet the recorded error is the
    empty string and the task's output directory is still there. *)
Lemma failed_run_with_empty_error_and_directory :
  let st := submitted initial_state "deck.pptx" 300 "png" "id-1" "abc" in
  let st' := snd (process_ppt_task stubborn_env "id-1" (temp_path "abc")
                                   300 "png" st) in
  (status <$> tasks_cache st' !! "id-1") = Some FAILED
  /\ (error <$> tasks_cache st' !! "id-1") = Some (Some "")
  /\ path_exists (path_join (OUTPUT_BASE_DIR stubborn_env) "id-1") (fs st')
     = true.
Proof. vm_compute. repeat split; reflexivity. Qed.

(** ** Names and numbers of the slides *)

Lemma hoare_any {A} (m : M A) :
  hoare (fun _ => True) m (fun _ _ => True) (fun _ _ => True).
Proof. intros st _. destruct (m st) as [[a|e] st']; exact Logic.I. Qed.

Lemma save_pages_names env cfg dir prefix cb total :
  forall indices acc,
    hoare (fun _ => True)
          (save_pages env cfg dir prefix cb total indices acc)
          (fun files _ =>
             files = acc ++ map (fun i => path_join dir
                              (slide_filename prefix (format cfg) i)) indices)
          (fun _ _ => True).
Proof.
  induction indices as [|i rest IH]; intros acc.
  - apply hoare_ret. intros st _. simpl. rewrite app_nil_r. reflexivity.
  - cbn [save_pages]. apply hoare_bind with (R := fun _ _ => True).
    { eapply hoare_post; [| | apply hoare_any]; auto. }
    intros _. apply hoare_bind with (R := fun _ _ => True).
    { eapply hoare_post; [| | apply hoare_any]; auto. }
    intros _. eapply hoare_post; [| | apply IH]; [|auto].
    intros files st ->. rewrite <- app_assoc. reflexivity.
Qed.

Lemma export_names env cfg ppt dir method prefix cb st files st' :
  export env cfg ppt dir method prefix cb st = (Ok files, st') ->
  exists n, files = slide_paths dir prefix (format cfg) n.
Proof.
  rewrite export_unfold.
  destruct (negb (path_exists ppt (fs st))); [discriminate|].
  destruct (negb (supported_input ppt)); [discriminate|].
  destruct (makedirs dir st) as [[[]|e] st1]; [|discriminate].
  assert (Hlo : forall s0 r,
             _export_with_libreoffice env cfg ppt dir prefix cb s0 = (Ok files, r) ->
             exists n, files = slide_paths dir prefix (format cfg) n).
  { intros s0 r. unfold _export_with_libreoffice.
    destruct (soffice_run env) as [ | msg | e | found]; try discriminate.
    destruct (negb found); [discriminate|].
    destruct (negb (has_pdf2image env)); [discriminate|].
    destruct (convert_from_path env) as [e | n]; [discriminate|].
    intros H. exists n.
    pose proof (save_pages_names env cfg dir prefix cb n (seq 1 n) [] s0
                  Logic.I) as Hn.
    rewrite H in Hn. exact Hn. }
  assert (Hall : forall m,
             (if String.eqb m "libreoffice"
              then _export_with_libreoffice env cfg ppt dir prefix cb st1
              else if String.eqb m "pdf2image"
              then _export_with_pdf2image env cfg ppt dir prefix cb st1
              else if String.eqb m "aspose"
              then _export_with_aspose env cfg ppt dir prefix cb st1
              else (Raise (ValueError ("不支持的方法: " +:+ m)), st1))
             = (Ok files, st') ->
             exists n, files = slide_paths dir prefix (format cfg) n).
  { intros m. destruct (String.eqb m "libreoffice"); [apply Hlo|].
    destruct (String.eqb m "pdf2image").
    - unfold _export_with_pdf2image.
      destruct (negb (has_libreoffice env)); [discriminate | apply Hlo].
    - destruct (String.eqb m "aspose"); [|discriminate].
      unfold _export_with_aspose.
      destruct (negb (has_aspose env)); [discriminate|].
      destruct (aspose_presentation env) as [e | n]; [discriminate|].
      intros H. exists n.
      pose proof (hoare_save_slides env (fun _ => True) cfg dir prefix
                    (fun _ _ _ => Logic.I) (seq 1 n) [] st1 Logic.I) as Hn.
      rewrite H in Hn. destruct Hn as [_ Hn]. exact Hn. }
  destruct (String.eqb method "auto"); [|cbv beta iota zeta; apply Hall].
  destruct (has_libreoffice env); [cbv beta iota zeta; apply Hall|].
  destruct (has_pdf2image env); [cbv beta iota zeta; apply Hall|].
  destruct (has_aspose env); [cbv beta iota zeta; apply Hall | discriminate].
Qed.

Lemma image_urls_lookup env folder dir prefix fmt n i :
  (i < n)%nat ->
  image_urls env folder (slide_paths dir prefix fmt n) !! i
  = Some {| slide_number := (Z.of_nat i + 1)%Z;
            url := API_BASE_URL env +:+ "/images/" +:+ folder +:+ "/"
                   +:+ basename (path_join dir (slide_filename prefix fmt (S i)));
            image_filename :=
              basename (path_join dir (slide_filename prefix fmt (S i))) |}.
Proof.
  intros Hi. unfold image_urls, slide_paths.
  rewrite list_lookup_imap, list_lookup_fmap.
  rewrite (lookup_seq_lt 1 n i Hi). reflexivity.
Qed.


Lemma fmt_03d_examples :
  fmt_03d 1 = "001" /\ fmt_03d 12 = "012" /\ fmt_03d 123 = "123"
  /\ fmt_03d 1000 = "1000".
Proof. vm_compute. repeat split; reflexivity. Qed.



(** ** Images and status *)

Lemma current_app id cur j1 j2 :
  current id cur (j1 ++ j2) = current id (current id cur j1) j2.
Proof.
  revert cur. induction j1 as [|ev j1 IH]; intros cur; [reflexivity|].
  destruct ev as [id' t | id' w | id' | id']; simpl;
    try destruct (String.eqb id' id); apply IH.
Qed.

Lemma snapshots_app id cur j1 j2 :
  snapshots id cur (j1 ++ j2)
  = snapshots id cur j1 ++ snapshots id (current id cur j1) j2.
Proof.
  revert cur. induction j1 as [|ev j1 IH]; intros cur; [reflexivity|].
  destruct ev as [id' t | id' w | id' | id']; simpl;
    try destruct (String.eqb id' id); try apply IH.
  - rewrite IH. reflexivity.
  - destruct cur as [t|]; simpl; rewrite IH; reflexivity.
Qed.

Lemma current_unused id cur j : unused id j -> current id cur j = cur.
Proof.
  induction 1 as [|ev j Hev _ IH]; [reflexivity|].
  destruct ev as [id' t | id' w | id' | id']; simpl; try exact IH;
    apply String.eqb_neq in Hev; rewrite Hev; exact IH.
Qed.

Lemma snapshots_unused id cur j : unused id j -> snapshots id cur j = [].
Proof.
  induction 1 as [|ev j Hev _ IH]; [reflexivity|].
  destruct ev as [id' t | id' w | id' | id']; simpl; try exact IH;
    apply String.eqb_neq in Hev; rewrite Hev; exact IH.
Qed.

Lemma recorded_assign (id : string) (d d' : bool) (w : Write) (st : State) :
  (forall t, (if d then status t = COMPLETED else images t = []) ->
             (if d' then status (apply_write w t) = COMPLETED
              else images (apply_write w t) = [])) ->
  recorded id d st -> recorded id d' (after_assign id w st).
Proof.
  intros Hstep (t & Hc & Hcur & Hlast & Hall & Hd).
  exists (apply_write w t).
  rewrite cache_after_assign, journal_after_assign, current_app, snapshots_app.
  rewrite Hcur. simpl. rewrite String.eqb_refl. simpl.
  rewrite lookup_alter_eq, Hc. repeat split.
  - apply last_snoc.
  - apply Forall_app. split; [exact Hall|]. constructor; [|constructor].
    specialize (Hstep t Hd). unfold quiet. destruct d'; [|auto].
    intros Hne. contradiction.
  - exact (Hstep t Hd).
Qed.

Lemma snapshot_protocol id : Protocol id (fun _ d st => recorded id d st).
Proof.
  split.
  - intros b d st st' Hc Hj (t & H). exists t. rewrite Hc, Hj. exact H.
  - intros b d p st _. apply recorded_assign.
    intros t. destruct t, d; simpl; auto.
  - intros b s st Hs. apply recorded_assign.
    intros t. destruct t; simpl; auto.
  - intros b st. apply recorded_assign.
    intros t. destruct t; simpl; auto.
  - intros b l st. apply recorded_assign.
    intros t. destruct t; simpl; auto.
  - intros b d w st Hw. apply recorded_assign.
    intros t. destruct t, d, w; simpl; auto; contradiction.
Qed.

Lemma submitted_recorded st file_name dpi fmt uuid rnd :
  unused uuid (journal st) ->
  recorded uuid false (submitted st file_name dpi fmt uuid rnd).
Proof.
  intros Hun. exists (pending_task uuid file_name (now st)).
  unfold submitted. cbn [tasks_cache journal].
  rewrite current_app, snapshots_app, (current_unused _ _ _ Hun),
    (snapshots_unused _ _ _ Hun).
  simpl. rewrite String.eqb_refl. simpl. rewrite lookup_insert_eq.
  repeat split. constructor; [|constructor]. intros _. reflexivity.
Qed.

(** C3, as the code has it.  From its creation by Submit to the end of its
    run, a record that is not completed (pending, processing or failed) has
    an empty [images] list at every point; and when the run ends completed,
    [images] holds one entry per file the converter returned, so it is
    non-empty exactly when the converter returned at least one file. *)
Theorem images_empty_unless_completed
    (env : Env) (st : State) (file_name : string) (dpi : Z)
    (fmt uuid rnd : string) :
  accepted_upload file_name = true ->
  unused uuid (journal st) ->
  let st1 := snd (convert_ppt_async file_name dpi fmt uuid rnd st) in
  let st2 := snd (process_ppt_task env uuid (temp_path rnd) dpi fmt st1) in
  Forall (fun t => status t <> COMPLETED -> images t = [])
         (snapshots uuid None (journal st2))
  /\ exists t',
       tasks_cache st2 !! uuid = Some t'
       /\ last (snapshots uuid None (journal st2)) = Some t'
       /\ (status t' = COMPLETED ->
           exists n,
             fst (convert_stage env uuid (temp_path rnd) dpi fmt st1)
             = Ok (slide_paths (path_join (OUTPUT_BASE_DIR env) uuid)
                               "slide" fmt n)
             /\ length (images t') = n).
Proof.
  intros Hacc Hun. rewrite (submit_accepted _ _ _ _ _ _ Hacc). cbn [snd].
  set (st1 := submitted st file_name dpi fmt uuid rnd).
  pose proof (submitted_recorded st file_name dpi fmt uuid rnd Hun) as Hrec.
  fold st1 in Hrec.
  pose proof (proto_process_ppt_task env uuid _ (snapshot_protocol uuid)
                (temp_path rnd) dpi fmt st1 Hrec) as Hrun.
  destruct Hrec as (t0 & Ht0 & _).
  destruct (runner_outcome env uuid (temp_path rnd) dpi fmt st1 t0 Ht0)
    as (st2 & t2 & Heq & Ht2 & Hcase).
  rewrite Heq in Hrun |- *. cbn [snd].
  assert (Hfinal : exists d, recorded uuid d st2).
  { destruct Hrun as [H | (b & _ & H)]; eauto. }
  destruct Hfinal as (d & t' & Hc & _ & Hlast & Hall & _).
  split; [exact Hall|]. exists t'. split; [exact Hc|]. split; [exact Hlast|].
  intros Hdone. rewrite Ht2 in Hc. injection Hc as <-.
  destruct Hcase as [(n & _ & Hconv & _ & _ & Him & _) | (e & _ & Hst & _)];
    [|rewrite Hst in Hdone; discriminate].
  exists n. split; [exact Hconv|].
  rewrite Him. unfold image_urls.
  rewrite length_imap, slide_paths_length. reflexivity.
Qed.

Lemma images_of_a_three_page_document :
  let st1 := snd (convert_ppt_async "deck.pptx" 300 "png" "id-1" "abc"
                                    initial_state) in
  let st2 := snd (process_ppt_task (healthy_env 3) "id-1" (temp_path "abc")
                                   300 "png" st1) in
  Forall (fun t => status t <> COMPLETED -> images t = [])
         (snapshots "id-1" None (journal st2))
  /\ exists t',
       tasks_cache st2 !! "id-1" = Some t'
       /\ last (snapshots "id-1" None (journal st2)) = Some t'
       /\ (status t' = COMPLETED ->
           exists n,
             fst (convert_stage (healthy_env 3) "id-1" (temp_path "abc") 300
                                "png" st1)
             = Ok (slide_paths
                     (path_join (OUTPUT_BASE_DIR (healthy_env 3)) "id-1")
                     "slide" "png" n)
             /\ length (images t') = n).
Proof.
  apply (images_empty_unless_completed (healthy_env 3) initial_state
           "deck.pptx" 300 "png" "id-1" "abc").
  - vm_compute. reflexivity.
  - constructor.
Defined.

(** C3 as stated fails: a document that renders to no page at all leaves
    the record completed with an empty [images] list. *)
Lemma completed_with_no_image :
  let st1 := snd (convert_ppt_async "deck.pptx" 300 "png" "id-1" "abc"
                                    initial_state) in
  let st2 := snd (process_ppt_task (healthy_env 0) "id-1" (temp_path "abc")
                                   300 "png" st1) in
  (status <$> tasks_cache st2 !! "id-1") = Some COMPLETED
  /\ (images <$> tasks_cache st2 !! "id-1") = Some [].
Proof. vm_compute. split; reflexivity. Qed.

(** ** Visibility of a submitted task *)

Lemma hoare_save_pages_quiet env (P : State -> Prop) cfg dir prefix total :
  (forall st f, P st -> P (with_fs f st)) ->
  forall indices acc,
    hoare P (save_pages env cfg dir prefix None total indices acc)
          (fun _ => P) (fun _ => P).
Proof.
  intros HP. induction indices as [|i rest IH]; intros acc.
  - apply hoare_ret. auto.
  - cbn [save_pages]. apply hoare_bind with (R := fun _ => P).
    { apply hoare_save_image. exact HP. }
    intros _. apply hoare_bind with (R := fun _ => P).
    { apply hoare_ret. auto. }
    intros _. apply IH.
Qed.

(** Without a progress hook the converter touches the file system only. *)
Lemma hoare_export_quiet env (P : State -> Prop) cfg ppt dir method prefix :
  (forall st f, P st -> P (with_fs f st)) ->
  hoare P (export env cfg ppt dir method prefix None)
        (fun _ => P) (fun _ => P).
Proof.
  intros HP st H. rewrite export_unfold.
  destruct (negb (path_exists ppt (fs st))); [exact H|].
  destruct (negb (supported_input ppt)); [exact H|].
  unfold makedirs.
  destruct (bool_decide (dir ∈ files (fs st))); [exact H|].
  match goal with
  | |- context [with_fs ?f st] =>
      pose proof (HP st f H) as H1; revert H1;
      generalize (with_fs f st); intros st1 H1
  end.
  assert (Hlo : match _export_with_libreoffice env cfg ppt dir prefix None st1
                with (Ok _, st') | (Raise _, st') => P st' end).
  { unfold _export_with_libreoffice.
    destruct (soffice_run env) as [ | msg | e | found]; try exact H1.
    destruct (negb found); [exact H1|].
    destruct (negb (has_pdf2image env)); [exact H1|].
    destruct (convert_from_path env) as [e | n]; [exact H1|].
    pose proof (hoare_save_pages_quiet env P cfg dir prefix n HP (seq 1 n) []
                  st1 H1) as Hn.
    destruct (save_pages env cfg dir prefix None n (seq 1 n) [] st1)
      as [[a|e] st2]; exact Hn. }
  assert (Hall : forall m,
             match
               (if String.eqb m "libreoffice"
                then _export_with_libreoffice env cfg ppt dir prefix None st1
                else if String.eqb m "pdf2image"
                then _export_with_pdf2image env cfg ppt dir prefix None st1
                else if String.eqb m "aspose"
                then _export_with_aspose env cfg ppt dir prefix None st1
                else (Raise (ValueError ("不支持的方法: " +:+ m)), st1))
             with (Ok _, st') | (Raise _, st') => P st' end).
  { intros m. destruct (String.eqb m "libreoffice"); [exact Hlo|].
    destruct (String.eqb m "pdf2image").
    - unfold _export_with_pdf2image.
      destruct (negb (has_libreoffice env)); [exact H1 | exact Hlo].
    - destruct (String.eqb m "aspose"); [|exact H1].
      unfold _export_with_aspose.
      destruct (negb (has_aspose env)); [exact H1|].
      destruct (aspose_presentation env) as [e | n]; [exact H1|].
      pose proof (hoare_save_slides env P cfg dir prefix HP (seq 1 n) [] st1 H1)
        as Hn.
      destruct (save_slides env cfg dir prefix (seq 1 n) [] st1)
        as [[a|e] st2]; [exact (proj1 Hn) | exact Hn]. }
  assert (Hpost : forall r : res (list string) * State,
             match r with (Ok _, st') | (Raise _, st') => P st' end ->
             match r with (Ok _, st') => P st' | (Raise _, st') => P st' end).
  { intros [[a|e] s0] Hr; exact Hr. }
  apply Hpost.
  destruct (String.eqb method "auto"); [|cbv beta iota zeta; apply Hall].
  destruct (has_libreoffice env); [cbv beta iota zeta; apply Hall|].
  destruct (has_pdf2image env); [cbv beta iota zeta; apply Hall|].
  destruct (has_aspose env); [cbv beta iota zeta; apply Hall | exact H1].
Qed.

Lemma sync_keeps_store env file_name dpi fmt uuid rnd st :
  tasks_cache (snd (convert_ppt_sync env file_name dpi fmt uuid rnd st))
  = tasks_cache st.
Proof.
  unfold convert_ppt_sync.
  destruct (negb (accepted_upload file_name)); [reflexivity|].
  set (P := fun s : State => tasks_cache s = tasks_cache st).
  assert (HP : forall s f, P s -> P (with_fs f s)) by (intros s f H; exact H).
  assert (H : hoare P
                (try_except
                   (write_file (temp_path rnd) ;;
                    makedirs (path_join (OUTPUT_BASE_DIR env) uuid) ;;
                    image_files <-
                      export env {| dpi := dpi; format := fmt; quality := 95;
                                    width := None; height := None |}
                             (temp_path rnd)
                             (path_join (OUTPUT_BASE_DIR env) uuid) "auto"
                             "slide" None ;;
                    unlink env (temp_path rnd) ;;
                    ret {| sync_success := true; sync_folder_id := uuid;
                           sync_count :=
                             length (image_urls env uuid image_files);
                           sync_images := image_urls env uuid image_files;
                           sync_message :=
                             "成功转换 "
                             +:+ str_of_nat
                                   (length (image_urls env uuid image_files))
                             +:+ " 张图片" |})
                   (fun e => raise (HTTPException 500
                                      ("转换失败: " +:+ exn_str e))))
                (fun _ => P) (fun _ => P)).
  { apply hoare_try_except with (R := fun _ => P).
    - apply hoare_bind with (R := fun _ => P).
      { apply hoare_write_file. intros s Hs f. apply HP. exact Hs. }
      intros _. apply hoare_bind with (R := fun _ => P).
      { apply hoare_makedirs; [intros s Hs f; apply HP; exact Hs | auto]. }
      intros _. apply hoare_bind with (R := fun _ => P).
      { apply hoare_export_quiet. exact HP. }
      intros image_files. apply hoare_bind with (R := fun _ => P).
      { apply hoare_unlink; [intros s Hs f; apply HP; exact Hs | auto]. }
      intros _. apply hoare_ret. auto.
    - intros e. apply hoare_raise. auto. }
  specialize (H st eq_refl).
  match goal with
  | |- tasks_cache (snd ?r) = _ => destruct r as [[a|e] s']; exact H
  end.
Qed.

Lemma status_keeps_state id st : snd (get_task_status id st) = st.
Proof.
  unfold get_task_status, bind, get.
  destruct (tasks_cache st !! id); reflexivity.
Qed.

Lemma delete_keeps_others env id id' st :
  id' <> id ->
  is_Some (tasks_cache st !! id) ->
  is_Some (tasks_cache (snd (delete_task env id' st)) !! id).
Proof.
  intros Hne H. unfold delete_task, bind, get.
  destruct (tasks_cache st !! id'); [|exact H].
  assert (Hrm : forall s, tasks_cache s = tasks_cache st ->
            is_Some (tasks_cache
                       (snd ((remove_task id' ;;
                              ret ("任务 " +:+ id' +:+ " 已删除")) s)) !! id)).
  { intros s Hs. unfold bind, remove_task, ret. cbn.
    rewrite Hs, lookup_delete_ne by exact Hne. exact H. }
  destruct (path_exists _ (fs st)).
  - unfold rmtree_ignore_errors. destruct (rmtree_ok env); apply Hrm; reflexivity.
  - apply Hrm. reflexivity.
Qed.

Lemma run_keeps_records env id st :
  is_Some (tasks_cache st !! id) ->
  is_Some (tasks_cache (snd (run_background env st)) !! id).
Proof.
  intros H. unfold run_background.
  destruct (background st) as [|j rest]; [exact H|].
  match goal with
  | |- context [process_ppt_task _ _ _ _ _ ?s] =>
      pose proof (proto_process_ppt_task env (job_task_id j) _
                    (present_protocol (job_task_id j) id)
                    (job_temp_file_path j) (job_dpi j) (job_format j) s H)
        as Hrun;
      destruct (process_ppt_task env (job_task_id j) (job_temp_file_path j)
                                 (job_dpi j) (job_format j) s)
        as [[[]|e] s']
  end.
  - destruct Hrun as [Hr | (b & _ & Hr)]; exact Hr.
  - contradiction.
Qed.

(** Every request but a Delete of [id] leaves the record of [id] in place. *)
Lemma step_keeps_record op id st :
  (forall env, op <> OpDelete env id) ->
  is_Some (tasks_cache st !! id) ->
  is_Some (tasks_cache (step op st) !! id).
Proof.
  intros Hop H. destruct op as [f d fmt uuid rnd | env f d fmt uuid rnd
                               | id' | env id' | env]; cbn [step].
  - destruct (accepted_upload f) eqn:Hacc.
    + rewrite (submit_accepted _ _ _ _ _ _ Hacc). cbn.
      apply lookup_insert_is_Some'. right. exact H.
    + unfold convert_ppt_async. rewrite Hacc. exact H.
  - rewrite sync_keeps_store. exact H.
  - rewrite status_keeps_state. exact H.
  - apply delete_keeps_others; [|exact H].
    intros ->. exact (Hop env eq_refl).
  - apply run_keeps_records. exact H.
Qed.

Lemma run_ops_keeps_record ops id st :
  Forall (fun op => forall env, op <> OpDelete env id) ops ->
  is_Some (tasks_cache st !! id) ->
  is_Some (tasks_cache (run_ops ops st) !! id).
Proof.
  intros Hops. revert st. induction Hops as [|op ops Hop _ IH]; intros st H.
  - exact H.
  - cbn [run_ops fold_left]. apply IH. apply step_keeps_record; assumption.
Qed.

Lemma replay_app evs evs' c : replay (evs ++ evs') c = replay evs' (replay evs c).
Proof. unfold replay. apply fold_left_app. Qed.

Lemma replay_keeps id evs :
  Forall (fun ev => ev <> Deleted id) evs ->
  forall c, is_Some (c !! id) -> is_Some (replay evs c !! id).
Proof.
  induction 1 as [|ev evs Hev _ IH]; intros c Hc; [exact Hc|].
  change (replay (ev :: evs) c) with (replay evs (apply_event ev c)).
  apply IH. destruct ev as [id' t | id' w | id' | id']; cbn [apply_event].
  - apply lookup_insert_is_Some'. right. exact Hc.
  - apply lookup_alter_is_Some. exact Hc.
  - exact Hc.
  - rewrite lookup_delete_ne; [exact Hc|]. intros ->. apply Hev. reflexivity.
Qed.

(** The runner of [id] changes the store by assignments to the record of
    [id] only, each of them journalled. *)
Lemma events_protocol id (j0 : list Event) (c0 : gmap string TaskInfo) :
  Protocol id (fun _ _ st =>
                 exists evs,
                   journal st = j0 ++ evs
                   /\ tasks_cache st = replay evs c0
                   /\ Forall (fun ev => exists w, ev = Wrote id w) evs).
Proof.
  assert (Hkeep : forall st w,
             (exists evs, journal st = j0 ++ evs
                          /\ tasks_cache st = replay evs c0
                          /\ Forall (fun ev => exists w, ev = Wrote id w) evs) ->
             exists evs, journal (after_assign id w st) = j0 ++ evs
                         /\ tasks_cache (after_assign id w st) = replay evs c0
                         /\ Forall (fun ev => exists w, ev = Wrote id w) evs).
  { intros st w (evs & Hj & Hc & Hall). exists (evs ++ [Wrote id w]).
    rewrite journal_after_assign, cache_after_assign, Hj, Hc, replay_app.
    split; [symmetry; apply app_assoc|]. split; [reflexivity|].
    apply Forall_app. split; [exact Hall|]. constructor; [eauto|constructor]. }
  split; intros; try (apply Hkeep; assumption).
  match goal with
  | Hc : tasks_cache _ = tasks_cache _, Hj : journal _ = journal _ |- _ =>
      rewrite Hc, Hj
  end.
  assumption.
Qed.

Lemma sync_keeps_journal env file_name dpi fmt uuid rnd st :
  journal (snd (convert_ppt_sync env file_name dpi fmt uuid rnd st))
  = journal st.
Proof.
  unfold convert_ppt_sync.
  destruct (negb (accepted_upload file_name)); [reflexivity|].
  set (P := fun s : State => journal s = journal st).
  assert (HP : forall s f, P s -> P (with_fs f s)) by (intros s f H; exact H).
  match goal with
  | |- journal (snd (?m st)) = _ =>
      assert (H : hoare P m (fun _ => P) (fun _ => P))
  end.
  { apply hoare_try_except with (R := fun _ => P).
    - apply hoare_bind with (R := fun _ => P).
      { apply hoare_write_file. intros s Hs f. apply HP. exact Hs. }
      intros u. apply hoare_bind with (R := fun _ => P).
      { apply hoare_makedirs; [intros s Hs f; apply HP; exact Hs | auto]. }
      intros u'. apply hoare_bind with (R := fun _ => P).
      { apply hoare_export_quiet. exact HP. }
      intros image_files. apply hoare_bind with (R := fun _ => P).
      { apply hoare_unlink; [intros s Hs f; apply HP; exact Hs | auto]. }
      intros u''. apply hoare_ret. auto.
    - intros e. apply hoare_raise. auto. }
  specialize (H st eq_refl).
  match goal with
  | |- journal (snd ?r) = _ => destruct r as [[a|e] s']; exact H
  end.
Qed.

Lemma delete_task_events env id st :
  exists evs,
    journal (snd (delete_task env id st)) = journal st ++ evs
    /\ tasks_cache (snd (delete_task env id st)) = replay evs (tasks_cache st)
    /\ Forall (fun ev => ev = Deleted id) evs.
Proof.
  unfold delete_task, bind, get.
  destruct (tasks_cache st !! id).
  - exists [Deleted id].
    destruct (path_exists _ _);
      [unfold rmtree_ignore_errors; destruct (rmtree_ok env)|];
      cbn; repeat split; repeat constructor.
  - exists []. cbn. rewrite app_nil_r. repeat split. constructor.
Qed.

Lemma run_background_events env st :
  exists evs,
    journal (snd (run_background env st)) = journal st ++ evs
    /\ tasks_cache (snd (run_background env st)) = replay evs (tasks_cache st)
    /\ Forall (fun ev => exists id w, ev = Wrote id w) evs.
Proof.
  unfold run_background. destruct (background st) as [|j rest].
  { exists []. cbn. rewrite app_nil_r. repeat split. constructor. }
  match goal with
  | |- context [process_ppt_task _ _ _ _ _ ?s] =>
      pose proof (proto_process_ppt_task env (job_task_id j) _
                    (events_protocol (job_task_id j) (journal st)
                                     (tasks_cache st))
                    (job_temp_file_path j) (job_dpi j) (job_format j) s) as H;
      destruct (process_ppt_task env (job_task_id j) (job_temp_file_path j)
                                 (job_dpi j) (job_format j) s)
        as [[[]|e] s']
  end.
  - assert (H0 : exists evs : list Event,
               journal st = journal st ++ evs
               /\ tasks_cache st = replay evs (tasks_cache st)
               /\ Forall (fun ev => exists w, ev = Wrote (job_task_id j) w) evs).
    { exists []. rewrite app_nil_r. repeat split. constructor. }
    specialize (H H0).
    assert (H' : exists evs,
               journal s' = journal st ++ evs
               /\ tasks_cache s' = replay evs (tasks_cache st)
               /\ Forall (fun ev => exists w, ev = Wrote (job_task_id j) w) evs)
      by (destruct H as [H | (b & _ & H)]; exact H).
    destruct H' as (evs & Hj & Hc & Hall). exists evs.
    split; [exact Hj|]. split; [exact Hc|].
    eapply Forall_impl; [exact Hall|]. cbn. intros ev [w ->]. eauto.
  - exfalso. apply H. exists []. rewrite app_nil_r. repeat split. constructor.
Qed.

(** Every request journals what it does to the store; only a Delete of
    [id] journals the removal of [id]. *)
Lemma step_events id op st :
  (forall env, op <> OpDelete env id) ->
  exists evs,
    journal (step op st) = journal st ++ evs
    /\ tasks_cache (step op st) = replay evs (tasks_cache st)
    /\ Forall (fun ev => ev <> Deleted id) evs.
Proof.
  intros Hop. destruct op as [f d fmt uuid rnd | env f d fmt uuid rnd
                             | id' | env id' | env]; cbn [step].
  - destruct (accepted_upload f) eqn:Hacc.
    + rewrite (submit_accepted _ _ _ _ _ _ Hacc). cbn [snd].
      eexists [Created uuid _; Scheduled uuid].
      split; [reflexivity|]. split; [reflexivity|].
      repeat constructor; discriminate.
    + unfold convert_ppt_async. rewrite Hacc. exists []. cbn.
      rewrite app_nil_r. repeat split. constructor.
  - exists []. rewrite sync_keeps_journal, sync_keeps_store, app_nil_r.
    repeat split. constructor.
  - exists []. rewrite status_keeps_state, app_nil_r. repeat split. constructor.
  - destruct (delete_task_events env id' st) as (evs & Hj & Hc & Hall).
    exists evs. split; [exact Hj|]. split; [exact Hc|].
    eapply Forall_impl; [exact Hall|]. cbn. intros ev -> Heq.
    injection Heq as ->. exact (Hop env eq_refl).
  - destruct (run_background_events env st) as (evs & Hj & Hc & Hall).
    exists evs. split; [exact Hj|]. split; [exact Hc|].
    eapply Forall_impl; [exact Hall|]. cbn. intros ev (i & w & ->).
    discriminate.
Qed.

Lemma run_ops_events id ops :
  Forall (fun op => forall env, op <> OpDelete env id) ops ->
  forall st,
    exists evs,
      journal (run_ops ops st) = journal st ++ evs
      /\ tasks_cache (run_ops ops st) = replay evs (tasks_cache st)
      /\ Forall (fun ev => ev <> Deleted id) evs.
Proof.
  induction 1 as [|op ops Hop _ IH]; intros st.
  - exists []. cbn. rewrite app_nil_r. repeat split. constructor.
  - cbn [run_ops fold_left].
    destruct (step_events id op st Hop) as (evs1 & Hj1 & Hc1 & Hall1).
    destruct (IH (step op st)) as (evs2 & Hj2 & Hc2 & Hall2).
    exists (evs1 ++ evs2). unfold run_ops in *.
    rewrite Hj2, Hj1, Hc2, Hc1, replay_app, app_assoc.
    repeat split. apply Forall_app. split; assumption.
Qed.

(** C6.  An accepted Submit stores the pending record before it queues the
    runner, and from then on no Status query for the returned identifier
    answers not-found, whatever requests and background runs follow (a
    Delete of that task apart) and however far a run has got: the record
    is in the store after the whole sequence, and in the store as it stood
    after each single journalled step on the way, from the insertion of
    the record on (every assignment of the runner is one such step). *)
Theorem submitted_task_is_found
    (st : State) (file_name : string) (dpi : Z) (fmt uuid rnd : string) :
  accepted_upload file_name = true ->
  exists resp st1 t,
    convert_ppt_async file_name dpi fmt uuid rnd st = (Ok resp, st1)
    /\ submit_task_id resp = uuid
    /\ journal st1 = journal st ++ [Created uuid t; Scheduled uuid]
    /\ status t = PENDING
    /\ tasks_cache st1 !! uuid = Some t
    /\ forall ops,
         Forall (fun op => forall env, op <> OpDelete env uuid) ops ->
         (exists t', get_task_status uuid (run_ops ops st1)
                     = (Ok t', run_ops ops st1))
         /\ exists evs,
              journal (run_ops ops st1) = journal st ++ Created uuid t :: evs
              /\ tasks_cache (run_ops ops st1)
                 = replay (Created uuid t :: evs) (tasks_cache st)
              /\ forall seen later s,
                   evs = seen ++ later ->
                   tasks_cache s
                   = replay (Created uuid t :: seen) (tasks_cache st) ->
                   exists t', get_task_status uuid s = (Ok t', s).
Proof.
  intros Hacc. rewrite (submit_accepted _ _ _ _ _ _ Hacc).
  eexists _, _, (pending_task uuid file_name (now st)).
  split; [reflexivity|]. split; [reflexivity|]. split; [reflexivity|].
  split; [reflexivity|].
  assert (Hin : tasks_cache (submitted st file_name dpi fmt uuid rnd) !! uuid
                = Some (pending_task uuid file_name (now st))).
  { unfold submitted. cbn. apply lookup_insert_eq. }
  split; [exact Hin|].
  intros ops Hops.
  assert (Hfound : forall s, is_Some (tasks_cache s !! uuid) ->
                             exists t', get_task_status uuid s = (Ok t', s)).
  { intros s [t' Ht']. exists t'. unfold get_task_status, bind, get.
    rewrite Ht'. reflexivity. }
  destruct (run_ops_events uuid ops Hops
              (submitted st file_name dpi fmt uuid rnd))
    as (evs & Hj & Hc & Hall).
  split.
  { apply Hfound. rewrite Hc. apply replay_keeps; [exact Hall|].
    rewrite Hin. eauto. }
  exists (Scheduled uuid :: evs). split; [|split].
  - rewrite Hj. unfold submitted. cbn [journal].
    rewrite <- app_assoc. reflexivity.
  - rewrite Hc. reflexivity.
  - intros seen later s Hsplit Hs. apply Hfound. rewrite Hs.
    change (replay (Created uuid (pending_task uuid file_name (now st)) :: seen)
                   (tasks_cache st))
      with (replay seen (<[ uuid := pending_task uuid file_name (now st) ]>
                           (tasks_cache st))).
    apply replay_keeps.
    + assert (Hs' : Forall (fun ev => ev <> Deleted uuid)
                      (Scheduled uuid :: evs))
        by (constructor; [discriminate | exact Hall]).
      rewrite Hsplit in Hs'. apply Forall_app in Hs'. exact (proj1 Hs').
    + rewrite lookup_insert_eq. eauto.
Qed.

Lemma submitted_deck_is_found :
  exists resp st1 t,
    convert_ppt_async "deck.pptx" 300 "png" "id-1" "abc" initial_state
    = (Ok resp, st1)
    /\ submit_task_id resp = "id-1"
    /\ journal st1 = journal initial_state
                     ++ [Created "id-1" t; Scheduled "id-1"]
    /\ status t = PENDING
    /\ tasks_cache st1 !! "id-1" = Some t
    /\ forall ops,
         Forall (fun op => forall env, op <> OpDelete env "id-1") ops ->
         (exists t', get_task_status "id-1" (run_ops ops st1)
                     = (Ok t', run_ops ops st1))
         /\ exists evs,
              journal (run_ops ops st1)
              = journal initial_state ++ Created "id-1" t :: evs
              /\ tasks_cache (run_ops ops st1)
                 = replay (Created "id-1" t :: evs) (tasks_cache initial_state)
              /\ forall seen later s,
                   evs = seen ++ later ->
                   tasks_cache s
                   = replay (Created "id-1" t :: seen)
                            (tasks_cache initial_state) ->
                   exists t', get_task_status "id-1" s = (Ok t', s).
Proof.
  apply (submitted_task_is_found initial_state "deck.pptx" 300 "png" "id-1"
           "abc").
  vm_compute. reflexivity.
Defined.

(** * Further properties of the code *)

(** ** The slide count probe *)

Lemma count_hidden_unchanged slides :
  forall hidden_count, count_hidden slides hidden_count = hidden_count.
Proof.
  induction slides as [|slide_xml rest IH]; intros k; [reflexivity|].
  cbn [count_hidden]. destruct slide_xml as [text|]; cbn; apply IH.
Qed.

(** X1. The slide count is 0 when python-pptx is missing or the
    presentation cannot be opened; otherwise it is the number of slides of
    the presentation, hidden ones included.  The hidden-slide test looks
    for a [bytes] needle in the [str] text of the slide, which raises on
    every slide, and the inner [except] swallows that: no slide is ever
    counted as hidden, whatever its XML holds. *)
Theorem slide_count_counts_every_slide (env : Env) (ppt_path : string) :
  (HAS_PPTX env = false \/ pptx_slides env = None ->
   get_ppt_slide_count env ppt_path = 0%Z)
  /\ (forall slides,
         HAS_PPTX env = true -> pptx_slides env = Some slides ->
         get_ppt_slide_count env ppt_path = Z.of_nat (length slides)).
Proof.
  unfold get_ppt_slide_count. split.
  - intros [-> | H]; [reflexivity|]. rewrite H.
    destruct (negb (HAS_PPTX env)); reflexivity.
  - intros slides -> ->. cbn [negb]. cbv zeta.
    rewrite count_hidden_unchanged. lia.
Qed.

Lemma slide_count_of_a_deck_with_a_hidden_slide :
  let env :=
    {| OUTPUT_BASE_DIR := "/srv/output"; API_BASE_URL := "http://localhost:4000";
       HAS_PPTX := true;
       pptx_slides := Some [Some "<p:sld>";
                            Some ("<p:sld " +:+ show_zero +:+ ">");
                            None];
       has_libreoffice := true; has_pdf2image := true; has_aspose := false;
       soffice_run := SofficeDone true; convert_from_path := inr 2%nat;
       save_fault := fun _ => None; aspose_presentation := inr 0%nat;
       rmtree_ok := true; unlink_ok := true |} in
  get_ppt_slide_count env "/tmp/deck.pptx" = Z.of_nat 3.
Proof.
  intros env.
  exact (proj2 (slide_count_counts_every_slide env "/tmp/deck.pptx")
           [Some "<p:sld>"; Some ("<p:sld " +:+ show_zero +:+ ">"); None]
           eq_refl eq_refl).
Defined.

(** ** The progress hook *)

Module Binary64Exact.
Import Binary64 Binary64Facts.
Local Open Scope Q_scope.

(** Rounding depends on the value only, not on the fraction that names it. *)
Lemma fl_compat x y : 0 < x -> x == y -> fl x == fl y.
Proof.
  intros Hx Hxy. apply Qle_antisym.
  - apply fl_mono; [exact Hx|]. rewrite Hxy. apply Qle_refl.
  - apply fl_mono; [rewrite <- Hxy; exact Hx|]. rewrite Hxy. apply Qle_refl.
Qed.

Lemma fl_one : fl 1 == 1.
Proof. vm_compute. reflexivity. Qed.

Lemma fl_fifty_five : fl 55 == 55.
Proof. vm_compute. reflexivity. Qed.

Lemma py_truediv_self n : (0 < n)%Z -> py_truediv n n == 1.
Proof.
  intros Hn. unfold py_truediv.
  assert (Hq : inject_Z n / inject_Z n == 1).
  { apply Qmult_inv_r. intros H.
    assert (Hlt : 0 < inject_Z n) by (rewrite Zlt_Qlt in Hn; exact Hn).
    rewrite H in Hlt. exact (Qlt_irrefl _ Hlt). }
  rewrite <- fl_one. apply fl_compat; [|exact Hq].
  rewrite Hq. reflexivity.
Qed.

Lemma scaled_full n :
  (0 < n)%Z -> py_int (py_mul (py_truediv n n) (py_float 55)) = 55%Z.
Proof.
  intros Hn.
  assert (Hm : py_truediv n n * py_float 55 == 55).
  { rewrite (py_truediv_self n Hn). unfold py_float.
    change (inject_Z 55) with 55. rewrite fl_fifty_five. reflexivity. }
  assert (H : py_mul (py_truediv n n) (py_float 55) == 55).
  { unfold py_mul. apply Qeq_trans with (fl 55); [|exact fl_fifty_five].
    apply fl_compat; [|exact Hm]. rewrite Hm. reflexivity. }
  rewrite py_int_floor by (rewrite H; discriminate).
  rewrite (Qfloor_comp _ _ H). reflexivity.
Qed.

End Binary64Exact.

Lemma hook_progress_full n : (0 < n)%Z -> hook_progress n n = 85%Z.
Proof.
  intros Hn. unfold hook_progress.
  rewrite (Binary64Exact.scaled_full n Hn). reflexivity.
Qed.

Lemma own_record_only_refl id st : own_record_only id st st.
Proof. repeat split. Qed.

Lemma own_record_only_assign id w st0 st :
  own_record_only id st0 st -> own_record_only id st0 (after_assign id w st).
Proof.
  intros (Hc & Hd & Hf & Hb). repeat split; try assumption.
  - intros id' Hne. rewrite cache_after_assign, lookup_alter_ne by congruence.
    apply Hc. exact Hne.
  - rewrite cache_after_assign, dom_alter_L. exact Hd.
Qed.

Lemma own_record_only_tick id st0 st :
  own_record_only id st0 st -> own_record_only id st0 (tick st).
Proof. intros H. exact H. Qed.

Lemma progress_callback_frame id current total name st :
  own_record_only id st (snd (progress_callback id current total name st)).
Proof.
  unfold progress_callback, bind, get.
  destruct (tasks_cache st !! id) as [t|]; [|apply own_record_only_refl].
  cbv beta iota zeta delta [assign].
  destruct (total =? 0)%Z;
    cbv beta iota zeta delta [raise touch bind datetime_now assign snd];
    repeat (apply own_record_only_assign || apply own_record_only_tick);
    apply own_record_only_refl.
Qed.

(** X2. The progress hook touches nothing but the record of its own task:
    the other records, the set of stored identifiers, the file system and
    the queue are as before; for an identifier the store does not hold it
    returns without any effect at all. *)
Theorem progress_callback_touches_one_record (id : string)
    (current total : Z) (name : string) (st : State) :
  own_record_only id st (snd (progress_callback id current total name st))
  /\ (tasks_cache st !! id = None ->
      progress_callback id current total name st = (Ok tt, st)).
Proof.
  split; [apply progress_callback_frame|].
  intros Ht. unfold progress_callback, bind, get. rewrite Ht. reflexivity.
Qed.

Lemma progress_callback_on_two_tasks :
  let st := {| tasks_cache := {[ "a" := pending_task "a" "a.pptx" 0;
                                 "b" := pending_task "b" "b.pptx" 2 ]};
               fs := {| files := ∅; dirs := ∅ |}; now := 4;
               background := []; journal := [] |} in
  tasks_cache (snd (progress_callback "a" 1 2 "slide_001.png" st)) !! "b"
  = tasks_cache st !! "b"
  /\ progress_callback "zz" 1 2 "slide_001.png" st = (Ok tt, st).
Proof.
  intros st.
  split.
  - apply (proj1 (progress_callback_touches_one_record
                    "a" 1 2 "slide_001.png" st)).
    discriminate.
  - apply (proj2 (progress_callback_touches_one_record
                    "zz" 1 2 "slide_001.png" st)).
    reflexivity.
Defined.

(** X3. The hook's call for the last image ([current = total]) stores
    progress 85 exactly, with [current_slide = total_slides = total]: the
    binary64 quotient of a positive integer by itself is 1 and 1 * 55 is
    exact, so the float arithmetic loses nothing on the last step. *)
Theorem progress_callback_last_image (id : string) (t : TaskInfo) (n : Z)
    (name : string) (st : State) :
  tasks_cache st !! id = Some t ->
  (0 < n)%Z ->
  exists st' t',
    progress_callback id n n name st = (Ok tt, st')
    /\ tasks_cache st' !! id = Some t'
    /\ progress t' = 85%Z
    /\ current_slide t' = n
    /\ total_slides t' = n
    /\ status t' = status t
    /\ images t' = images t.
Proof.
  intros Ht Hn.
  destruct (progress_callback_effect st id t n n name Ht) as (st' & Hrun & Hrec);
    [lia|].
  eexists st', _. split; [exact Hrun|]. split; [exact Hrec|].
  destruct t. cbn. rewrite (hook_progress_full n Hn). repeat split.
Qed.

Lemma progress_callback_last_of_seven :
  exists st' t',
    progress_callback "a" 7 7 "slide_007.png"
      {| tasks_cache := {[ "a" := pending_task "a" "a.pptx" 0 ]};
         fs := {| files := ∅; dirs := ∅ |}; now := 2;
         background := []; journal := [] |} = (Ok tt, st')
    /\ tasks_cache st' !! "a" = Some t'
    /\ progress t' = 85%Z
    /\ current_slide t' = 7%Z
    /\ total_slides t' = 7%Z
    /\ status t' = PENDING
    /\ images t' = [].
Proof.
  apply (progress_callback_last_image "a" (pending_task "a" "a.pptx" 0) 7).
  - reflexivity.
  - lia.
Defined.

(** X4. Called with [total = 0] on a stored task, the hook raises
    [ZeroDivisionError] after it has overwritten [current_slide] and
    [total_slides]; progress, status, message, images and the time stamps
    of the record are as before. *)
Theorem progress_callback_zero_total (id : string) (t : TaskInfo)
    (current : Z) (name : string) (st : State) :
  tasks_cache st !! id = Some t ->
  exists st',
    progress_callback id current 0 name st
    = (Raise (ZeroDivisionError "division by zero"), st')
    /\ tasks_cache st' !! id
       = Some (apply_write (SetTotalSlides 0)
                 (apply_write (SetCurrentSlide current) t))
    /\ now st' = now st.
Proof.
  intros Ht. unfold progress_callback, bind, get. rewrite Ht.
  cbv beta iota zeta delta [assign raise Z.eqb].
  eexists. split; [reflexivity|].
  rewrite !cache_after_assign, !lookup_alter_eq, Ht. split; reflexivity.
Qed.

Lemma progress_callback_zero_total_example :
  exists st',
    progress_callback "a" 1 0 "slide_001.png"
      {| tasks_cache := {[ "a" := pending_task "a" "a.pptx" 0 ]};
         fs := {| files := ∅; dirs := ∅ |}; now := 2;
         background := []; journal := [] |}
    = (Raise (ZeroDivisionError "division by zero"), st')
    /\ tasks_cache st' !! "a"
       = Some (apply_write (SetTotalSlides 0)
                 (apply_write (SetCurrentSlide 1)
                    (pending_task "a" "a.pptx" 0)))
    /\ now st' = 2%nat.
Proof.
  apply (progress_callback_zero_total "a" (pending_task "a" "a.pptx" 0)).
  reflexivity.
Defined.

(** ** The background runner *)

Lemma any_protocol id : Protocol id (fun _ _ _ => True).
Proof. split; intros; exact Logic.I. Qed.

(** X5. The background runner never lets an exception escape: whatever the
    store, the file system and the conversion tools do, [process_ppt_task]
    returns normally (a failure of the conversion ends in the handler, a
    failure to remove the upload is swallowed). *)
Theorem runner_never_raises (env : Env) (id tmp : string) (dpi : Z)
    (fmt : string) (st : State) :
  fst (process_ppt_task env id tmp dpi fmt st) = Ok tt.
Proof.
  pose proof (proto_process_ppt_task env id _ (any_protocol id) tmp dpi fmt
                st Logic.I) as H.
  destruct (process_ppt_task env id tmp dpi fmt st) as [[[]|e] st'].
  - reflexivity.
  - contradiction.
Qed.

Lemma bystander_protocol id id' (v : option TaskInfo) (D : gset string)
    (l : list Z) :
  id' <> id ->
  Protocol id (fun _ _ st =>
                 tasks_cache st !! id' = v
                 /\ dom (tasks_cache st) = D
                 /\ progress_trace id' (journal st) = l).
Proof.
  intros Hne.
  assert (Hkeep : forall st w,
             tasks_cache st !! id' = v
             /\ dom (tasks_cache st) = D
             /\ progress_trace id' (journal st) = l ->
             tasks_cache (after_assign id w st) !! id' = v
             /\ dom (tasks_cache (after_assign id w st)) = D
             /\ progress_trace id' (journal (after_assign id w st)) = l).
  { intros st w (Hv & Hd & Hl).
    rewrite cache_after_assign, journal_after_assign, progress_trace_app.
    rewrite lookup_alter_ne by congruence. rewrite dom_alter_L.
    repeat split; try assumption.
    rewrite Hl. destruct w; cbn [progress_trace]; try apply app_nil_r.
    destruct (String.eqb id id') eqn:E; [|apply app_nil_r].
    apply String.eqb_eq in E. congruence. }
  split; intros; try (apply Hkeep; assumption).
  match goal with
  | Hc : tasks_cache _ = tasks_cache _, Hj : journal _ = journal _ |- _ =>
      rewrite Hc, Hj
  end.
  assumption.
Qed.

(** X6. A run of the runner for one task leaves every other task alone:
    the record of any other identifier and the progress values the journal
    holds for it are as before, and the store holds the same identifiers
    after the run as before it (the runner adds and removes no record). *)
Theorem runner_leaves_other_tasks (env : Env) (id tmp : string) (dpi : Z)
    (fmt : string) (st : State) (id' : string) :
  id' <> id ->
  tasks_cache (snd (process_ppt_task env id tmp dpi fmt st)) !! id'
  = tasks_cache st !! id'
  /\ dom (tasks_cache (snd (process_ppt_task env id tmp dpi fmt st)))
     = dom (tasks_cache st)
  /\ progress_trace id' (journal (snd (process_ppt_task env id tmp dpi fmt st)))
     = progress_trace id' (journal st).
Proof.
  intros Hne.
  pose proof (proto_process_ppt_task env id _
                (bystander_protocol id id' (tasks_cache st !! id')
                   (dom (tasks_cache st))
                   (progress_trace id' (journal st)) Hne)
                tmp dpi fmt st (conj eq_refl (conj eq_refl eq_refl))) as H.
  destruct (process_ppt_task env id tmp dpi fmt st) as [[[]|e] st'];
    [|contradiction].
  destruct H as [H | (b & _ & H)]; exact H.
Qed.

Lemma runner_leaves_a_second_task :
  let st := {| tasks_cache := {[ "a" := pending_task "a" "a.pptx" 0;
                                 "b" := pending_task "b" "b.pptx" 2 ]};
               fs := {| files := {[ "/tmp/tmpa.pptx" ]}; dirs := ∅ |};
               now := 4; background := [];
               journal := [Created "a" (pending_task "a" "a.pptx" 0);
                           Created "b" (pending_task "b" "b.pptx" 2)] |} in
  tasks_cache (snd (process_ppt_task (healthy_env 2) "a" "/tmp/tmpa.pptx"
                                     200 "png" st)) !! "b"
  = Some (pending_task "b" "b.pptx" 2)
  /\ dom (tasks_cache (snd (process_ppt_task (healthy_env 2) "a"
                               "/tmp/tmpa.pptx" 200 "png" st)))
     = dom (tasks_cache st)
  /\ progress_trace "b"
       (journal (snd (process_ppt_task (healthy_env 2) "a" "/tmp/tmpa.pptx"
                                       200 "png" st)))
     = progress_trace "b" (journal st).
Proof.
  intros st.
  apply (runner_leaves_other_tasks (healthy_env 2) "a" "/tmp/tmpa.pptx"
           200 "png" st "b").
  discriminate.
Defined.

Lemma level_protocol id :
  Protocol id (fun b d st =>
                 exists t, tasks_cache st !! id = Some t
                           /\ (0 <= b)%Z /\ progress t = b
                           /\ (if d then status t = COMPLETED
                               else status t <> COMPLETED)).
Proof.
  split.
  - intros b d st st' Hc _ (t & Ht & H). exists t. rewrite Hc. auto.
  - intros b d p st Hbp (t & Ht & Hb & Hp & Hs).
    exists (apply_write (SetProgress p) t).
    rewrite cache_after_assign, lookup_alter_eq, Ht.
    destruct t; cbn in *. repeat split; try assumption; lia.
  - intros b s st Hs (t & Ht & Hb & Hp & _).
    exists (apply_write (SetStatus s) t).
    rewrite cache_after_assign, lookup_alter_eq, Ht.
    destruct t; cbn in *. repeat split; assumption.
  - intros b st (t & Ht & Hb & Hp & _).
    exists (apply_write (SetStatus COMPLETED) t).
    rewrite cache_after_assign, lookup_alter_eq, Ht.
    destruct t; cbn in *. repeat split; assumption.
  - intros b l st (t & Ht & Hb & Hp & Hs).
    exists (apply_write (SetImages l) t).
    rewrite cache_after_assign, lookup_alter_eq, Ht.
    destruct t; cbn in *. repeat split; assumption.
  - intros b d w st Hw (t & Ht & Hb & Hp & Hs).
    exists (apply_write w t).
    rewrite cache_after_assign, lookup_alter_eq, Ht.
    destruct t, w; cbn in *; try contradiction; repeat split; assumption.
Qed.

(** X7. A run on a stored record that is not completed and shows progress
    0 (as every record is when created) returns with the record either
    completed at progress 100, or failed with a progress between 0 and 85
    and the text of the exception as its error: no run ends with the task
    pending or processing, and a failed task never shows more than 85. *)
Theorem run_ends_completed_or_failed (env : Env) (id tmp : string) (dpi : Z)
    (fmt : string) (st : State) (t : TaskInfo) :
  tasks_cache st !! id = Some t ->
  progress t = 0%Z ->
  status t <> COMPLETED ->
  exists st' t',
    process_ppt_task env id tmp dpi fmt st = (Ok tt, st')
    /\ tasks_cache st' !! id = Some t'
    /\ ((status t' = COMPLETED /\ progress t' = 100%Z)
        \/ (status t' = FAILED /\ (0 <= progress t' <= 85)%Z
            /\ exists e, error t' = Some e)).
Proof.
  intros Ht Hp Hs.
  destruct (runner_outcome env id tmp dpi fmt st t Ht)
    as (st' & t' & Hrun & Ht' & Hout).
  exists st', t'. split; [exact Hrun|]. split; [exact Ht'|].
  destruct Hout as [(n & _ & _ & Hst & Hpr & _) | (e & _ & Hst & _ & He & _)].
  - left. split; assumption.
  - right. split; [exact Hst|]. split; [|eauto].
    assert (H0 : exists t0, tasks_cache st !! id = Some t0
                            /\ (0 <= 0)%Z /\ progress t0 = 0%Z
                            /\ status t0 <> COMPLETED).
    { exists t. repeat split; try assumption. lia. }
    pose proof (proto_process_ppt_task env id _ (level_protocol id)
                  tmp dpi fmt st H0) as H.
    rewrite Hrun in H.
    destruct H as [(t1 & Ht1 & _ & _ & Hc) | (b & Hb & t1 & Ht1 & Hb0 & Hp1 & _)].
    + rewrite Ht' in Ht1. injection Ht1 as <-. congruence.
    + rewrite Ht' in Ht1. injection Ht1 as <-. lia.
Qed.

Lemma run_of_a_pending_task_without_tools :
  exists st' t',
    process_ppt_task bare_env "a" "/tmp/tmpa.pptx" 200 "png"
      {| tasks_cache := {[ "a" := pending_task "a" "a.pptx" 0 ]};
         fs := {| files := {[ "/tmp/tmpa.pptx" ]}; dirs := ∅ |};
         now := 2; background := []; journal := [] |} = (Ok tt, st')
    /\ tasks_cache st' !! "a" = Some t'
    /\ ((status t' = COMPLETED /\ progress t' = 100%Z)
        \/ (status t' = FAILED /\ (0 <= progress t' <= 85)%Z
            /\ exists e, error t' = Some e)).
Proof.
  apply (run_ends_completed_or_failed bare_env "a" "/tmp/tmpa.pptx" 200 "png"
           _ (pending_task "a" "a.pptx" 0)).
  - reflexivity.
  - reflexivity.
  - discriminate.
Defined.

(** ** Removing a task *)

Lemma rmtree_removes_path p (f : FS) :
  path_exists p {| files := filter (outside p) (files f);
                   dirs := filter (outside p) (dirs f) |} = false.
Proof.
  unfold path_exists. cbn [files dirs].
  rewrite !bool_decide_eq_false_2; [reflexivity| |];
    rewrite elem_of_filter; unfold outside; tauto.
Qed.

Lemma rmtree_keeps_outside p x (S : gset string) :
  outside p x -> x ∈ S -> x ∈ filter (outside p) S.
Proof. intros Ho Hx. apply elem_of_filter. split; assumption. Qed.

(** X8. Delete of a stored task removes its record and nothing else from
    the store, logs the removal, leaves the queue as it is (a queued run
    of the task stays queued), and removes the task's output directory
    unless the operating system refuses; afterwards both a Status query and
    a second Delete for the identifier answer 404. *)
Theorem delete_removes_task (env : Env) (id : string) (t : TaskInfo)
    (st : State) :
  tasks_cache st !! id = Some t ->
  exists st',
    delete_task env id st = (Ok ("任务 " +:+ id +:+ " 已删除"), st')
    /\ tasks_cache st' = delete id (tasks_cache st)
    /\ journal st' = journal st ++ [Deleted id]
    /\ background st' = background st
    /\ (rmtree_ok env = true ->
        path_exists (path_join (OUTPUT_BASE_DIR env) id) (fs st') = false)
    /\ get_task_status id st' = (Raise (HTTPException 404 "任务不存在"), st')
    /\ delete_task env id st' = (Raise (HTTPException 404 "任务不存在"), st').
Proof.
  intros Ht.
  assert (Hgone : forall st',
             tasks_cache st' = delete id (tasks_cache st) ->
             get_task_status id st' = (Raise (HTTPException 404 "任务不存在"), st')
             /\ delete_task env id st'
                = (Raise (HTTPException 404 "任务不存在"), st')).
  { intros st' Hc. unfold get_task_status, delete_task, bind, get.
    rewrite Hc, lookup_delete_eq. split; reflexivity. }
  unfold delete_task at 1. unfold bind at 1. unfold get at 1. rewrite Ht.
  destruct (path_exists (path_join (OUTPUT_BASE_DIR env) id) (fs st)) eqn:Hex.
  - unfold rmtree_ignore_errors. destruct (rmtree_ok env) eqn:Hrm.
    + eexists. split; [reflexivity|].
      split; [reflexivity|]. split; [reflexivity|]. split; [reflexivity|].
      split; [intros _; apply rmtree_removes_path|].
      apply Hgone. reflexivity.
    + eexists. split; [reflexivity|].
      split; [reflexivity|]. split; [reflexivity|]. split; [reflexivity|].
      split; [discriminate|]. apply Hgone. reflexivity.
  - eexists. split; [reflexivity|].
    split; [reflexivity|]. split; [reflexivity|]. split; [reflexivity|].
    split; [intros _; exact Hex|]. apply Hgone. reflexivity.
Qed.

Lemma delete_of_a_finished_task :
  exists st',
    delete_task (healthy_env 1) "a"
      {| tasks_cache := {[ "a" := pending_task "a" "a.pptx" 0 ]};
         fs := {| files := {[ "/srv/output/a/slide_001.png" ]};
                  dirs := {[ "/srv/output/a" ]} |};
         now := 2; background := []; journal := [] |}
    = (Ok ("任务 " +:+ "a" +:+ " 已删除"), st')
    /\ tasks_cache st' = delete "a" {[ "a" := pending_task "a" "a.pptx" 0 ]}
    /\ journal st' = [] ++ [Deleted "a"]
    /\ background st' = []
    /\ (rmtree_ok (healthy_env 1) = true ->
        path_exists (path_join (OUTPUT_BASE_DIR (healthy_env 1)) "a") (fs st')
        = false)
    /\ get_task_status "a" st' = (Raise (HTTPException 404 "任务不存在"), st')
    /\ delete_task (healthy_env 1) "a" st'
       = (Raise (HTTPException 404 "任务不存在"), st').
Proof.
  apply (delete_removes_task (healthy_env 1) "a" (pending_task "a" "a.pptx" 0)).
  reflexivity.
Defined.

(** X9. When a task is deleted before its queued run starts, the runner
    finds no record and returns at once, before its [try ... finally]:
    nothing changes and the temporary upload of the task stays on disk
    (provided the upload does not lie inside the task's output directory,
    which Delete removes). *)
Theorem deleted_task_leaves_upload (env env' : Env) (st : State)
    (file_name : string) (dpi : Z) (fmt uuid rnd : string) :
  accepted_upload file_name = true ->
  outside (path_join (OUTPUT_BASE_DIR env) uuid) (temp_path rnd) ->
  exists st2,
    snd (delete_task env uuid
           (snd (convert_ppt_async file_name dpi fmt uuid rnd st))) = st2
    /\ process_ppt_task env' uuid (temp_path rnd) dpi fmt st2 = (Ok tt, st2)
    /\ temp_path rnd ∈ files (fs st2).
Proof.
  intros Hacc Hout. rewrite (submit_accepted _ _ _ _ _ _ Hacc).
  cbn [snd].
  assert (Hin : tasks_cache (submitted st file_name dpi fmt uuid rnd) !! uuid
                = Some (pending_task uuid file_name (now st))).
  { unfold submitted. cbn. apply lookup_insert_eq. }
  assert (Hfile : temp_path rnd
                  ∈ files (fs (submitted st file_name dpi fmt uuid rnd))).
  { unfold submitted. cbn. set_solver. }
  eexists. split; [reflexivity|].
  assert (Hnone : tasks_cache
                    (snd (delete_task env uuid
                            (submitted st file_name dpi fmt uuid rnd)))
                  !! uuid = None
                  /\ temp_path rnd
                     ∈ files (fs (snd (delete_task env uuid
                                 (submitted st file_name dpi fmt uuid rnd))))).
  { unfold delete_task, bind, get. rewrite Hin.
    destruct (path_exists _ _).
    - unfold rmtree_ignore_errors. destruct (rmtree_ok env); cbn.
      + split; [apply lookup_delete_eq|].
        apply rmtree_keeps_outside; assumption.
      + split; [apply lookup_delete_eq | exact Hfile].
    - cbn. split; [apply lookup_delete_eq | exact Hfile]. }
  destruct Hnone as [Hnone Hkept]. split; [|exact Hkept].
  unfold process_ppt_task, bind, get. rewrite Hnone. reflexivity.
Qed.

Lemma deleted_deck_leaves_upload :
  exists st2,
    snd (delete_task (healthy_env 3) "id-1"
           (snd (convert_ppt_async "deck.pptx" 300 "png" "id-1" "abc"
                                   initial_state))) = st2
    /\ process_ppt_task (healthy_env 3) "id-1" (temp_path "abc") 300 "png" st2
       = (Ok tt, st2)
    /\ temp_path "abc" ∈ files (fs st2).
Proof.
  apply (deleted_task_leaves_upload (healthy_env 3) (healthy_env 3)
           initial_state "deck.pptx" 300 "png" "id-1" "abc").
  - reflexivity.
  - split; [discriminate | reflexivity].
Defined.

(** ** The read-only endpoints *)

Lemma dom_protocol id (D : gset string) :
  Protocol id (fun _ _ st => dom (tasks_cache st) = D).
Proof.
  split; intros;
    try (rewrite cache_after_assign, dom_alter_L; assumption).
  match goal with Hc : tasks_cache _ = tasks_cache _ |- _ => rewrite Hc end.
  assumption.
Qed.

Lemma runner_keeps_dom env id tmp dpi fmt st :
  dom (tasks_cache (snd (process_ppt_task env id tmp dpi fmt st)))
  = dom (tasks_cache st).
Proof.
  pose proof (proto_process_ppt_task env id _
                (dom_protocol id (dom (tasks_cache st)))
                tmp dpi fmt st eq_refl) as H.
  destruct (process_ppt_task env id tmp dpi fmt st) as [[[]|e] st'];
    [|contradiction].
  destruct H as [H | (b & _ & H)]; exact H.
Qed.

Lemma delete_task_cache env id st :
  tasks_cache (snd (delete_task env id st)) = delete id (tasks_cache st).
Proof.
  unfold delete_task, bind, get.
  destruct (tasks_cache st !! id) eqn:Ht.
  - destruct (path_exists _ _); [|reflexivity].
    unfold rmtree_ignore_errors. destruct (rmtree_ok env); reflexivity.
  - cbn. symmetry. apply delete_id. exact Ht.
Qed.

(** X10. The task count of [GET /health] follows the requests: an accepted
    Submit under an identifier the store does not hold raises it by one
    (under a held identifier the record is replaced and the count stays),
    a Delete of a stored task lowers it by one, and a rejected Submit, a
    Delete of an unknown task, a Status query, a synchronous conversion
    and a background run leave it as it is. *)
Theorem health_count_follows_requests (op : Op) (st : State) :
  reported_tasks_count (step op st)
  = match op with
    | OpSubmit file_name _ _ uuid _ =>
        if accepted_upload file_name
        then match tasks_cache st !! uuid with
             | None => S (reported_tasks_count st)
             | Some _ => reported_tasks_count st
             end
        else reported_tasks_count st
    | OpDelete _ id =>
        match tasks_cache st !! id with
        | None => reported_tasks_count st
        | Some _ => Nat.pred (reported_tasks_count st)
        end
    | OpSync _ _ _ _ _ _ | OpStatus _ | OpRun _ => reported_tasks_count st
    end.
Proof.
  unfold reported_tasks_count, health_check, bind, get, ret.
  cbn [fst health_tasks_count].
  destruct op as [f d fmt uuid rnd | env f d fmt uuid rnd
                 | id | env id | env]; cbn [step].
  - destruct (accepted_upload f) eqn:Hacc.
    + rewrite (submit_accepted _ _ _ _ _ _ Hacc). cbn [snd submitted tasks_cache].
      rewrite map_size_insert. destruct (tasks_cache st !! uuid); reflexivity.
    + unfold convert_ppt_async. rewrite Hacc. reflexivity.
  - rewrite sync_keeps_store. reflexivity.
  - rewrite status_keeps_state. reflexivity.
  - rewrite delete_task_cache, map_size_delete.
    destruct (tasks_cache st !! id); reflexivity.
  - unfold run_background. destruct (background st) as [|j rest]; [reflexivity|].
    rewrite <- !size_dom, runner_keeps_dom. reflexivity.
Qed.

Lemma insert_newest_first_perm x l : insert_newest_first x l ≡ₚ x :: l.
Proof.
  induction l as [|y r IH]; cbn [insert_newest_first]; [reflexivity|].
  destruct (created_at y <=? created_at x)%nat; [reflexivity|].
  rewrite IH. apply Permutation_swap.
Qed.

Lemma sort_newest_first_perm l : sort_newest_first l ≡ₚ l.
Proof.
  induction l as [|x l IH]; [reflexivity|].
  change (sort_newest_first (x :: l))
    with (insert_newest_first x (sort_newest_first l)).
  rewrite insert_newest_first_perm. constructor. exact IH.
Qed.

Lemma insert_newest_first_sorted x l :
  StronglySorted (fun a b => created_at b <= created_at a)%nat l ->
  StronglySorted (fun a b => created_at b <= created_at a)%nat
                 (insert_newest_first x l).
Proof.
  induction 1 as [|y r Hr IH Hy]; cbn [insert_newest_first].
  - constructor; constructor.
  - destruct (created_at y <=? created_at x)%nat eqn:E.
    + apply Nat.leb_le in E. constructor.
      * constructor; assumption.
      * constructor; [exact E|].
        eapply Forall_impl; [exact Hy|]. cbn. intros z Hz. lia.
    + apply Nat.leb_gt in E. constructor; [exact IH|].
      rewrite insert_newest_first_perm. constructor; [lia | exact Hy].
Qed.

Lemma sort_newest_first_sorted l :
  StronglySorted (fun a b => created_at b <= created_at a)%nat
                 (sort_newest_first l).
Proof.
  induction l as [|x l IH]; [constructor|].
  change (sort_newest_first (x :: l))
    with (insert_newest_first x (sort_newest_first l)).
  apply insert_newest_first_sorted. exact IH.
Qed.

Lemma insert_newest_first_same_time k x l :
  filter (fun t => created_at t = k) (insert_newest_first x l)
  = filter (fun t => created_at t = k) (x :: l).
Proof.
  induction l as [|y r IH]; cbn [insert_newest_first]; [reflexivity|].
  destruct (created_at y <=? created_at x)%nat eqn:E; [reflexivity|].
  apply Nat.leb_gt in E.
  rewrite (filter_cons _ y (insert_newest_first x r)), IH.
  rewrite !filter_cons.
  destruct (decide (created_at y = k)) as [Hy|Hy];
    destruct (decide (created_at x = k)) as [Hx|Hx];
    try reflexivity.
  lia.
Qed.

Lemma sort_newest_first_same_time k l :
  filter (fun t => created_at t = k) (sort_newest_first l)
  = filter (fun t => created_at t = k) l.
Proof.
  induction l as [|x l IH]; [reflexivity|].
  change (sort_newest_first (x :: l))
    with (insert_newest_first x (sort_newest_first l)).
  rewrite insert_newest_first_same_time, !filter_cons, IH. reflexivity.
Qed.

Lemma values_of_pairs (m : gmap string TaskInfo)
    (l : list (string * TaskInfo)) :
  Forall (fun kv => m !! kv.1 = Some kv.2) l ->
  omap (fun k => m !! k) l.*1 = l.*2.
Proof.
  induction 1 as [|[k t] l Hk _ IH]; [reflexivity|].
  cbn in *. rewrite Hk. cbn. rewrite IH. reflexivity.
Qed.

Lemma values_in_key_order (m : gmap string TaskInfo) (keys : list string) :
  NoDup keys ->
  (forall k, k ∈ keys <-> is_Some (m !! k)) ->
  omap (fun k => m !! k) keys ≡ₚ (map_to_list m).*2.
Proof.
  intros Hnd Hkeys.
  assert (Hp : keys ≡ₚ (map_to_list m).*1).
  { apply NoDup_Permutation; [exact Hnd | apply NoDup_fst_map_to_list|].
    intros k. rewrite Hkeys. rewrite list_elem_of_fmap. split.
    - intros [t Ht]. exists (k, t). split; [reflexivity|].
      apply elem_of_map_to_list. exact Ht.
    - intros ([k' t] & -> & Hin). apply elem_of_map_to_list in Hin. eauto. }
  rewrite Hp.
  assert (Hall : Forall (fun kv => m !! kv.1 = Some kv.2) (map_to_list m)).
  { apply Forall_forall. intros [k t] Hin.
    apply elem_of_map_to_list in Hin. exact Hin. }
  rewrite (values_of_pairs m _ Hall). reflexivity.
Qed.

(** X11. [GET /api/tasks] changes nothing and, when the dict holds each
    stored identifier once, answers with every stored record exactly once
    ([count] is their number, the one [GET /health] reports), newest
    first; records created at the same time keep the order of the dict
    (the sort is stable). *)
Theorem list_all_tasks_newest_first (keys : list string) (st : State) :
  NoDup keys ->
  (forall k, k ∈ keys <-> is_Some (tasks_cache st !! k)) ->
  exists r,
    list_all_tasks keys st = (Ok r, st)
    /\ list_success r = true
    /\ list_count r = length (list_tasks r)
    /\ list_count r = reported_tasks_count st
    /\ list_tasks r ≡ₚ (map_to_list (tasks_cache st)).*2
    /\ StronglySorted (fun a b => created_at b <= created_at a)%nat
                      (list_tasks r)
    /\ forall k,
         filter (fun t => created_at t = k) (list_tasks r)
         = filter (fun t => created_at t = k)
                  (omap (fun id => tasks_cache st !! id) keys).
Proof.
  intros Hnd Hkeys. unfold list_all_tasks, bind, get, ret.
  eexists. split; [reflexivity|]. cbn [list_success list_count list_tasks].
  pose proof (values_in_key_order (tasks_cache st) keys Hnd Hkeys) as Hv.
  split; [reflexivity|]. split; [reflexivity|]. split.
  { unfold reported_tasks_count, health_check, bind, get, ret.
    cbn [fst health_tasks_count].
    rewrite sort_newest_first_perm, Hv, length_fmap.
    apply length_map_to_list. }
  split; [rewrite sort_newest_first_perm; exact Hv|].
  split; [apply sort_newest_first_sorted|].
  intros k. apply sort_newest_first_same_time.
Qed.

Lemma list_of_three_tasks :
  exists r,
    list_all_tasks ["a"; "b"; "c"]
      {| tasks_cache := {[ "a" := pending_task "a" "a.pptx" 3;
                           "b" := pending_task "b" "b.pptx" 7;
                           "c" := pending_task "c" "c.pptx" 3 ]};
         fs := {| files := ∅; dirs := ∅ |}; now := 9;
         background := []; journal := [] |}
    = (Ok r, {| tasks_cache := {[ "a" := pending_task "a" "a.pptx" 3;
                                  "b" := pending_task "b" "b.pptx" 7;
                                  "c" := pending_task "c" "c.pptx" 3 ]};
                fs := {| files := ∅; dirs := ∅ |}; now := 9;
                background := []; journal := [] |})
    /\ list_tasks r = [pending_task "b" "b.pptx" 7;
                       pending_task "a" "a.pptx" 3;
                       pending_task "c" "c.pptx" 3].
Proof.
  destruct (list_all_tasks_newest_first ["a"; "b"; "c"]
              {| tasks_cache := {[ "a" := pending_task "a" "a.pptx" 3;
                                   "b" := pending_task "b" "b.pptx" 7;
                                   "c" := pending_task "c" "c.pptx" 3 ]};
                 fs := {| files := ∅; dirs := ∅ |}; now := 9;
                 background := []; journal := [] |})
    as (r & Hr & _).
  - apply (bool_decide_unpack _). vm_compute. exact Logic.I.
  - intros k. rewrite !elem_of_cons, elem_of_nil. cbn [tasks_cache]. split.
    + intros [->|[->|[->|[]]]]; vm_compute; eauto.
    + intros [t Ht].
      destruct (decide (k = "a")) as [->|Ha]; [tauto|].
      destruct (decide (k = "b")) as [->|Hb]; [tauto|].
      destruct (decide (k = "c")) as [->|Hc]; [tauto|].
      rewrite !lookup_insert_ne in Ht by congruence.
      rewrite lookup_singleton_ne in Ht by congruence. discriminate.
  - exists r. split; [exact Hr|].
    injection Hr as <-. vm_compute. reflexivity.
Defined.

(** ** The converter and the file system *)

Lemma fs_extends_weaken f0 paths paths' st :
  fs_extends f0 paths st -> Forall (fun p => p ∈ paths) paths' ->
  fs_extends f0 paths' st.
Proof.
  intros (Hf & Hd & Hp) Hsub. repeat split; try assumption.
  rewrite Forall_forall in *. intros p Hin. apply Hp. apply Hsub. exact Hin.
Qed.

Lemma fs_extends_nil f0 paths st : fs_extends f0 paths st -> fs_extends f0 [] st.
Proof. intros (Hf & Hd & _). repeat split; try assumption. constructor. Qed.

Lemma fs_extends_same_fs f0 paths st st' :
  fs st' = fs st -> fs_extends f0 paths st -> fs_extends f0 paths st'.
Proof. unfold fs_extends. intros ->. tauto. Qed.

Lemma hoare_save_image_fs env f0 acc i path :
  hoare (fs_extends f0 acc) (save_image env i path)
        (fun _ => fs_extends f0 (acc ++ [path]))
        (fun _ => fs_extends f0 []).
Proof.
  unfold save_image. destruct (save_fault env i) as [e|].
  - apply hoare_raise. intros st. apply fs_extends_nil.
  - intros st (Hf & Hd & Hp). unfold write_file, fs_extends. cbn.
    split; [|split; [exact Hd|]].
    + intros x Hx. apply elem_of_union. right. apply Hf. exact Hx.
    + apply Forall_app. split.
      * eapply Forall_impl; [exact Hp|]. cbn. intros x Hx.
        apply elem_of_union. right. exact Hx.
      * constructor; [|constructor]. apply elem_of_union. left.
        apply elem_of_singleton. reflexivity.
Qed.

Lemma hoare_save_pages_fs env cfg dir prefix cb total f0 :
  fs_neutral cb ->
  forall indices acc,
    hoare (fs_extends f0 acc)
          (save_pages env cfg dir prefix cb total indices acc)
          (fun out => fs_extends f0 out) (fun _ => fs_extends f0 []).
Proof.
  intros Hcb. induction indices as [|i rest IH]; intros acc.
  - apply hoare_ret. auto.
  - cbn [save_pages].
    apply hoare_bind with (R := fun _ => fs_extends f0 (acc ++ [path_join dir
                                 (slide_filename prefix (format cfg) i)]));
      [apply hoare_save_image_fs|].
    intros u.
    apply hoare_bind with (R := fun _ => fs_extends f0 (acc ++ [path_join dir
                                 (slide_filename prefix (format cfg) i)]));
      [|intros u'; apply IH].
    destruct cb as [hook|].
    + intros st H.
      pose proof (Hcb hook eq_refl (Z.of_nat i) (Z.of_nat total)
                    (slide_filename prefix (format cfg) i) st) as Hfs.
      destruct (hook _ _ _ st) as [[[]|e] st']; cbn in Hfs.
      * eapply fs_extends_same_fs; eauto.
      * eapply fs_extends_nil, fs_extends_same_fs; eauto.
    + apply hoare_ret. auto.
Qed.

Lemma hoare_save_slides_fs env cfg dir prefix f0 :
  forall indices acc,
    hoare (fs_extends f0 acc)
          (save_slides env cfg dir prefix indices acc)
          (fun out => fs_extends f0 out) (fun _ => fs_extends f0 []).
Proof.
  induction indices as [|i rest IH]; intros acc.
  - apply hoare_ret. auto.
  - cbn [save_slides].
    apply hoare_bind with (R := fun _ => fs_extends f0 (acc ++ [path_join dir
                                 (slide_filename prefix (format cfg) i)]));
      [apply hoare_save_image_fs|].
    intros u. apply IH.
Qed.

Lemma hoare_libreoffice_fs env cfg ppt dir prefix cb f0 :
  fs_neutral cb ->
  hoare (fs_extends f0 [])
        (_export_with_libreoffice env cfg ppt dir prefix cb)
        (fun out => fs_extends f0 out) (fun _ => fs_extends f0 []).
Proof.
  intros Hcb. unfold _export_with_libreoffice.
  destruct (soffice_run env) as [| msg | e | found];
    try (apply hoare_raise; auto).
  destruct (negb found); [apply hoare_raise; auto|].
  destruct (negb (has_pdf2image env)); [apply hoare_raise; auto|].
  destruct (convert_from_path env) as [e|n]; [apply hoare_raise; auto|].
  apply hoare_save_pages_fs. exact Hcb.
Qed.

Lemma hoare_aspose_fs env cfg ppt dir prefix cb f0 :
  hoare (fs_extends f0 [])
        (_export_with_aspose env cfg ppt dir prefix cb)
        (fun out => fs_extends f0 out) (fun _ => fs_extends f0 []).
Proof.
  unfold _export_with_aspose.
  destruct (negb (has_aspose env)); [apply hoare_raise; auto|].
  destruct (aspose_presentation env) as [e|n]; [apply hoare_raise; auto|].
  apply hoare_save_slides_fs.
Qed.

(** What [export] does to the file system, from the state [st0]. *)
Lemma export_fs env cfg ppt dir method prefix cb st0 :
  fs_neutral cb ->
  hoare (fun st => st = st0)
        (export env cfg ppt dir method prefix cb)
        (fun out st => fs_extends (fs st0) out st /\ dir ∈ dirs (fs st))
        (fun _ => fs_extends (fs st0) []).
Proof.
  intros Hcb st ->. rewrite export_unfold.
  assert (Hrefl : fs_extends (fs st0) [] st0).
  { repeat split; [reflexivity | reflexivity | constructor]. }
  destruct (negb (path_exists ppt (fs st0))); [exact Hrefl|].
  destruct (negb (supported_input ppt)); [exact Hrefl|].
  unfold makedirs.
  destruct (bool_decide (dir ∈ files (fs st0))); [exact Hrefl|].
  set (f1 := {| files := files (fs st0); dirs := {[dir]} ∪ dirs (fs st0) |}).
  set (st1 := with_fs f1 st0).
  assert (H1 : fs_extends f1 [] st1).
  { repeat split; [reflexivity | reflexivity | constructor]. }
  assert (Hup : forall out s, fs_extends f1 out s ->
                              fs_extends (fs st0) out s /\ dir ∈ dirs (fs s)).
  { intros out s (Hf & Hd & Hp). split.
    - repeat split; [exact Hf | | exact Hp].
      intros x Hx. apply Hd. apply elem_of_union. right. exact Hx.
    - apply Hd. apply elem_of_union. left. apply elem_of_singleton.
      reflexivity. }
  assert (Hlo := hoare_libreoffice_fs env cfg ppt dir prefix cb f1 Hcb st1 H1).
  assert (Has := hoare_aspose_fs env cfg ppt dir prefix cb f1 st1 H1).
  assert (Hp2 : match _export_with_pdf2image env cfg ppt dir prefix cb st1 with
                | (Ok out, s) => fs_extends f1 out s
                | (Raise _, s) => fs_extends f1 [] s
                end).
  { unfold _export_with_pdf2image.
    destruct (negb (has_libreoffice env)); [exact H1 | exact Hlo]. }
  assert (Hdispatch : forall m,
             match (if String.eqb m "libreoffice"
                    then _export_with_libreoffice env cfg ppt dir prefix cb st1
                    else if String.eqb m "pdf2image"
                    then _export_with_pdf2image env cfg ppt dir prefix cb st1
                    else if String.eqb m "aspose"
                    then _export_with_aspose env cfg ppt dir prefix cb st1
                    else (Raise (ValueError ("不支持的方法: " +:+ m)), st1))
             with
             | (Ok out, s) => fs_extends (fs st0) out s /\ dir ∈ dirs (fs s)
             | (Raise _, s) => fs_extends (fs st0) [] s
             end).
  { intros m.
    destruct (String.eqb m "libreoffice").
    { destruct (_export_with_libreoffice _ _ _ _ _ _ st1) as [[out|e] s];
        [apply Hup | apply (Hup [])]; exact Hlo. }
    destruct (String.eqb m "pdf2image").
    { destruct (_export_with_pdf2image _ _ _ _ _ _ st1) as [[out|e] s];
        [apply Hup | apply (Hup [])]; exact Hp2. }
    destruct (String.eqb m "aspose").
    { destruct (_export_with_aspose _ _ _ _ _ _ st1) as [[out|e] s];
        [apply Hup | apply (Hup [])]; exact Has. }
    apply (Hup []). exact H1. }
  cbv zeta.
  destruct (String.eqb method "auto"); [|apply Hdispatch].
  destruct (has_libreoffice env); [apply Hdispatch|].
  destruct (has_pdf2image env); [apply Hdispatch|].
  destruct (has_aspose env); [apply Hdispatch|].
  apply (Hup []). exact H1.
Qed.

Lemma fs_neutral_none : fs_neutral None.
Proof. intros hook H. discriminate. Qed.

Lemma fs_neutral_progress_callback id : fs_neutral (Some (progress_callback id)).
Proof.
  intros hook H. injection H as <-. intros current total name st.
  apply (progress_callback_frame id current total name st).
Qed.

(** X12. [export] only ever adds to the file system: whatever it returns
    or raises, every file and directory that existed before still exists
    afterwards (files saved before a failing page are left behind, nothing
    is cleaned up); and when it returns, the output directory exists and
    every returned path is a file on disk.  This holds for every method
    and for every progress hook that leaves the file system alone, such as
    no hook and the server's hook. *)
Theorem export_only_adds_files (env : Env) (cfg : ExportConfig)
    (ppt dir method prefix : string) (cb : option Callback)
    (st st' : State) (r : res (list string)) :
  fs_neutral cb ->
  export env cfg ppt dir method prefix cb st = (r, st') ->
  files (fs st) ⊆ files (fs st')
  /\ dirs (fs st) ⊆ dirs (fs st')
  /\ forall out, r = Ok out ->
       dir ∈ dirs (fs st') /\ Forall (fun p => p ∈ files (fs st')) out.
Proof.
  intros Hcb Hrun.
  pose proof (export_fs env cfg ppt dir method prefix cb st Hcb st eq_refl) as H.
  rewrite Hrun in H. destruct r as [out|e].
  - destruct H as [(Hf & Hd & Hp) Hdir].
    split; [exact Hf|]. split; [exact Hd|].
    intros out' Hout. injection Hout as <-. split; assumption.
  - destruct H as (Hf & Hd & _).
    split; [exact Hf|]. split; [exact Hd|]. discriminate.
Qed.

Lemma export_of_two_pages_adds_files :
  let st := {| tasks_cache := {[ "a" := pending_task "a" "a.pptx" 0 ]};
               fs := {| files := {[ "/tmp/tmpa.pptx" ]}; dirs := ∅ |};
               now := 2; background := []; journal := [] |} in
  let cfg := {| dpi := 200; format := "png"; quality := 95;
                width := None; height := None |} in
  let run := export (healthy_env 2) cfg "/tmp/tmpa.pptx" "/srv/output/a"
                    "auto" "slide" (Some (progress_callback "a")) st in
  fst run = Ok ["/srv/output/a/slide_001.png"; "/srv/output/a/slide_002.png"]
  /\ files (fs st) ⊆ files (fs (snd run))
  /\ dirs (fs st) ⊆ dirs (fs (snd run))
  /\ forall out, fst run = Ok out ->
       "/srv/output/a" ∈ dirs (fs (snd run))
       /\ Forall (fun p => p ∈ files (fs (snd run))) out.
Proof.
  intros st cfg run. split; [vm_compute; reflexivity|].
  apply (export_only_adds_files (healthy_env 2) cfg "/tmp/tmpa.pptx"
           "/srv/output/a" "auto" "slide" (Some (progress_callback "a"))
           st (snd run) (fst run)).
  - apply fs_neutral_progress_callback.
  - apply surjective_pairing.
Defined.

(** ** The converter's checks and its choice of a tool *)

Lemma save_pages_result env cfg dir prefix cb total indices st out st' :
  save_pages env cfg dir prefix cb total indices [] st = (Ok out, st') ->
  out = map (fun i => path_join dir (slide_filename prefix (format cfg) i))
            indices.
Proof.
  intros Hrun.
  pose proof (save_pages_names env cfg dir prefix cb total indices [] st
                Logic.I) as H.
  rewrite Hrun in H. exact H.
Qed.

Lemma save_slides_result env cfg dir prefix indices st out st' :
  save_slides env cfg dir prefix indices [] st = (Ok out, st') ->
  out = map (fun i => path_join dir (slide_filename prefix (format cfg) i))
            indices.
Proof.
  intros Hrun.
  pose proof (hoare_save_slides env (fun _ => True) cfg dir prefix
                (fun _ _ _ => Logic.I) indices [] st Logic.I) as H.
  rewrite Hrun in H. exact (proj2 H).
Qed.

Lemma libreoffice_result env cfg ppt dir prefix cb st out st' :
  _export_with_libreoffice env cfg ppt dir prefix cb st = (Ok out, st') ->
  exists n,
    out = slide_paths dir prefix (format cfg) n
    /\ has_pdf2image env = true
    /\ soffice_run env = SofficeDone true
    /\ convert_from_path env = inr n.
Proof.
  unfold _export_with_libreoffice.
  destruct (soffice_run env) as [| msg | e | found]; try discriminate.
  destruct found; [|discriminate]. cbn [negb].
  destruct (has_pdf2image env); [|discriminate]. cbn [negb].
  destruct (convert_from_path env) as [e|n]; [discriminate|].
  intros Hrun. exists n. repeat split.
  exact (save_pages_result _ _ _ _ _ _ _ _ _ _ Hrun).
Qed.

(** X13. With the method [auto], [export] returns files only when
    LibreOffice and pdf2image are both installed (LibreOffice exited
    normally, left a PDF, and the rasteriser delivered the pages), or when
    neither of them is installed and aspose is; a host with pdf2image but
    without LibreOffice never converts, even when aspose is installed.
    The files returned are the slide names 1..n for the n pages delivered. *)
Theorem export_auto_needs_tools (env : Env) (cfg : ExportConfig)
    (ppt dir prefix : string) (cb : option Callback) (st st' : State)
    (out : list string) :
  export env cfg ppt dir "auto" prefix cb st = (Ok out, st') ->
  exists n,
    out = slide_paths dir prefix (format cfg) n
    /\ ((has_libreoffice env = true /\ has_pdf2image env = true
         /\ soffice_run env = SofficeDone true
         /\ convert_from_path env = inr n)
        \/ (has_libreoffice env = false /\ has_pdf2image env = false
            /\ has_aspose env = true /\ aspose_presentation env = inr n)).
Proof.
  rewrite export_unfold.
  destruct (negb (path_exists ppt (fs st))); [discriminate|].
  destruct (negb (supported_input ppt)); [discriminate|].
  destruct (makedirs dir st) as [[[]|e] st1]; [|discriminate].
  cbv zeta. change (String.eqb "auto" "auto") with true. cbv iota.
  destruct (has_libreoffice env) eqn:Hlo.
  { change (String.eqb "libreoffice" "libreoffice") with true. cbv iota.
    intros Hrun. apply libreoffice_result in Hrun.
    destruct Hrun as (n & -> & Hp & Hs & Hc). exists n.
    split; [reflexivity|]. left. auto. }
  destruct (has_pdf2image env) eqn:Hp2.
  { change (String.eqb "pdf2image" "libreoffice") with false.
    change (String.eqb "pdf2image" "pdf2image") with true. cbv iota.
    unfold _export_with_pdf2image. rewrite Hlo. discriminate. }
  destruct (has_aspose env) eqn:Has; [|discriminate].
  change (String.eqb "aspose" "libreoffice") with false.
  change (String.eqb "aspose" "pdf2image") with false.
  change (String.eqb "aspose" "aspose") with true. cbv iota.
  unfold _export_with_aspose. rewrite Has. cbn [negb].
  destruct (aspose_presentation env) as [e|n]; [discriminate|].
  intros Hrun. exists n. split.
  - exact (save_slides_result _ _ _ _ _ _ _ _ Hrun).
  - right. auto.
Qed.

Lemma export_auto_of_two_pages :
  exists n,
    ["/srv/output/a/slide_001.png"; "/srv/output/a/slide_002.png"]
    = slide_paths "/srv/output/a" "slide" "png" n
    /\ ((has_libreoffice (healthy_env 2) = true
         /\ has_pdf2image (healthy_env 2) = true
         /\ soffice_run (healthy_env 2) = SofficeDone true
         /\ convert_from_path (healthy_env 2) = inr n)
        \/ (has_libreoffice (healthy_env 2) = false
            /\ has_pdf2image (healthy_env 2) = false
            /\ has_aspose (healthy_env 2) = true
            /\ aspose_presentation (healthy_env 2) = inr n)).
Proof.
  apply (export_auto_needs_tools (healthy_env 2)
           {| dpi := 200; format := "png"; quality := 95;
              width := None; height := None |}
           "/tmp/tmpa.pptx" "/srv/output/a" "slide" None
           {| tasks_cache := ∅;
              fs := {| files := {[ "/tmp/tmpa.pptx" ]}; dirs := ∅ |};
              now := 0; background := []; journal := [] |}
           (snd (export (healthy_env 2)
                   {| dpi := 200; format := "png"; quality := 95;
                      width := None; height := None |}
                   "/tmp/tmpa.pptx" "/srv/output/a" "auto" "slide" None
                   {| tasks_cache := ∅;
                      fs := {| files := {[ "/tmp/tmpa.pptx" ]}; dirs := ∅ |};
                      now := 0; background := []; journal := [] |}))).
  vm_compute. reflexivity.
Defined.



(** X15. The server's upload check is the stricter one: every file name
    the endpoints accept also passes the converter's own, case-blind check,
    and the temporary copy the server hands to the converter always does,
    whatever the upload was called (its name always ends in [.pptx]). *)
Theorem accepted_uploads_pass_converter_check :
  (forall name, accepted_upload name = true -> supported_input name = true)
  /\ (forall rnd, supported_input (temp_path rnd) = true).
Proof.
  split.
  - intros name Hacc. apply accepted_upload_iff in Hacc.
    destruct Hacc as [stem [-> | ->]]; apply case_variant_supported;
      [left | right]; reflexivity.
  - intros rnd. unfold temp_path. rewrite <- append_assoc.
    apply case_variant_supported. right. reflexivity.
Qed.

Lemma old_format_upload_passes_converter_check :
  supported_input "talk.ppt" = true.
Proof.
  apply (proj1 accepted_uploads_pass_converter_check "talk.ppt").
  vm_compute. reflexivity.
Defined.

(** ** The names and the files behind the image links *)

Lemma has_slash_append a b : has_slash (a +:+ b) = has_slash a || has_slash b.
Proof.
  induction a as [|c a IH]; [reflexivity|].
  rewrite append_cons. cbn [has_slash]. rewrite IH, orb_assoc. reflexivity.
Qed.

Lemma basename_plain name : has_slash name = false -> basename name = name.
Proof.
  destruct name as [|c r]; [reflexivity|]. cbn [has_slash basename].
  intros H. apply orb_false_iff in H. destruct H as [Hc Hr].
  rewrite Hr, Hc. reflexivity.
Qed.

Lemma basename_after_slash a name :
  has_slash name = false -> basename (a +:+ "/" +:+ name) = name.
Proof.
  intros Hn. induction a as [|c a IH].
  - rewrite append_nil. change ("/" +:+ name) with (String "/" name).
    cbn [basename]. rewrite Hn. reflexivity.
  - rewrite append_cons. cbn [basename].
    rewrite has_slash_append.
    change ("/" +:+ name) with (String "/" name). cbn [has_slash].
    rewrite orb_true_r. exact IH.
Qed.

Lemma prefix_slash_plain name :
  has_slash name = false -> String.prefix "/" name = false.
Proof.
  destruct name as [|c r]; [reflexivity|]. cbn [has_slash].
  intros H. apply orb_false_iff in H. destruct H as [Hc _].
  cbn [String.prefix]. destruct (ascii_dec "/" c) as [<-|Hne]; [|reflexivity].
  discriminate.
Qed.

(** [os.path.basename(os.path.join(dir, name))] is [name] for a plain name. *)
Lemma basename_path_join dir name :
  has_slash name = false -> basename (path_join dir name) = name.
Proof.
  intros Hn. unfold path_join. rewrite (prefix_slash_plain name Hn).
  destruct (String.eqb dir "") eqn:He.
  { apply String.eqb_eq in He. subst dir. cbn [orb]. rewrite append_nil.
    apply basename_plain. exact Hn. }
  cbn [orb]. destruct (endswith dir "/") eqn:Hs.
  - apply endswith_spec in Hs. destruct Hs as [stem ->].
    rewrite append_assoc. apply basename_after_slash. exact Hn.
  - apply basename_after_slash. exact Hn.
Qed.

Lemma has_slash_uint (d : Decimal.uint) :
  has_slash (NilEmpty.string_of_uint d) = false.
Proof. induction d; cbn; try exact IHd; reflexivity. Qed.

Lemma has_slash_zeros k : has_slash (zeros k) = false.
Proof. induction k as [|k IH]; [reflexivity|]. cbn. exact IH. Qed.

Lemma has_slash_fmt_03d i : has_slash (fmt_03d i) = false.
Proof.
  unfold fmt_03d, str_of_nat. cbv zeta.
  rewrite has_slash_append, has_slash_zeros, has_slash_uint. reflexivity.
Qed.

Lemma has_slash_slide_filename prefix fmt i :
  has_slash prefix = false -> has_slash fmt = false ->
  has_slash (slide_filename prefix fmt i) = false.
Proof.
  intros Hp Hf. unfold slide_filename.
  rewrite !has_slash_append, Hp, Hf, has_slash_fmt_03d. reflexivity.
Qed.

Lemma export_files_on_disk env cfg ppt dir method prefix cb :
  fs_neutral cb ->
  hoare (fun _ => True) (export env cfg ppt dir method prefix cb)
        (fun out st => Forall (fun p => p ∈ files (fs st)) out)
        (fun _ _ => True).
Proof.
  intros Hcb st _.
  pose proof (export_fs env cfg ppt dir method prefix cb st Hcb st eq_refl) as H.
  destruct (export env cfg ppt dir method prefix cb st) as [[out|e] st'];
    [|exact Logic.I].
  destruct H as [(_ & _ & Hp) _]. exact Hp.
Qed.

Ltac skip_step :=
  lazymatch goal with
  | |- hoare _ (bind _ _) _ _ =>
      apply hoare_bind with (R := fun _ _ => True);
      [eapply hoare_post; [| |apply hoare_any]; auto | intros ?]
  end.

Lemma convert_stage_files_on_disk env id tmp dpi fmt :
  hoare (fun _ => True) (convert_stage env id tmp dpi fmt)
        (fun out st => Forall (fun p => p ∈ files (fs st)) out)
        (fun _ _ => True).
Proof.
  unfold convert_stage. cbv zeta. repeat skip_step.
  apply export_files_on_disk. apply fs_neutral_progress_callback.
Qed.

Lemma finish_stage_keeps_fs env id out st :
  exists st', finish_stage env id out st = (Ok tt, st') /\ fs st' = fs st.
Proof.
  cbv beta iota zeta delta
    [finish_stage bind read_total_slides get ret touch datetime_now assign].
  destruct (negb _); eexists; split; reflexivity.
Qed.

Lemma process_cleanup_keeps_others env tmp st p :
  p <> tmp -> p ∈ files (fs st) ->
  p ∈ files (fs (snd (process_cleanup env tmp st))).
Proof.
  intros Hne Hp. unfold process_cleanup, try_except, unlink, ret.
  destruct (negb (bool_decide (tmp ∈ files (fs st)))); [exact Hp|].
  destruct (negb (unlink_ok env)); [exact Hp|].
  cbn. apply elem_of_difference. split; [exact Hp|].
  rewrite elem_of_singleton. exact Hne.
Qed.

(** The files of a successful conversion survive the rest of the run. *)
Lemma runner_keeps_converted_files env id tmp dpi fmt st t out :
  tasks_cache st !! id = Some t ->
  fst (convert_stage env id tmp dpi fmt st) = Ok out ->
  Forall (fun p => p <> tmp) out ->
  Forall (fun p => p ∈ files (fs (snd (process_ppt_task env id tmp dpi fmt st))))
         out.
Proof.
  intros Ht Hconv Hne.
  pose proof (convert_stage_files_on_disk env id tmp dpi fmt st Logic.I) as Hd.
  unfold process_ppt_task, bind, get. rewrite Ht.
  unfold try_finally, try_except, process_body, bind.
  destruct (convert_stage env id tmp dpi fmt st) as [[out'|e] s1];
    [|discriminate].
  cbn in Hconv. injection Hconv as ->.
  destruct (finish_stage_keeps_fs env id out s1) as (s2 & -> & Hfs).
  rewrite Forall_forall in *. intros p Hp.
  pose proof (process_cleanup_keeps_others env tmp s2 p (Hne p Hp)) as Hk.
  rewrite Hfs in Hk. specialize (Hk (Hd p Hp)).
  destruct (process_cleanup env tmp s2) as [[[]|e] s3]; exact Hk.
Qed.

(** X16. After a run that left the record completed, every image entry
    [i] (from 0) is named [slide_{i+1:03d}.{format}], its link is
    [{API_BASE_URL}/images/{task_id}/] followed by that name, and the file
    of that name exists in the task's output directory, provided the
    format holds no [/] and the temporary upload is not one of the output
    files (the runner removes the upload at the end). *)
Theorem completed_images_are_on_disk (env : Env) (id tmp : string) (dpi : Z)
    (fmt : string) (st st' : State) (t t' : TaskInfo) :
  tasks_cache st !! id = Some t ->
  has_slash fmt = false ->
  (forall i, tmp <> path_join (path_join (OUTPUT_BASE_DIR env) id)
                              (slide_filename "slide" fmt i)) ->
  process_ppt_task env id tmp dpi fmt st = (Ok tt, st') ->
  tasks_cache st' !! id = Some t' ->
  status t' = COMPLETED ->
  forall i, (i < length (images t'))%nat ->
    exists entry,
      images t' !! i = Some entry
      /\ image_filename entry = slide_filename "slide" fmt (S i)
      /\ url entry = API_BASE_URL env +:+ "/images/" +:+ id +:+ "/"
                     +:+ slide_filename "slide" fmt (S i)
      /\ path_join (path_join (OUTPUT_BASE_DIR env) id) (image_filename entry)
         ∈ files (fs st').
Proof.
  intros Ht Hfmt Htmp Hrun Ht' Hdone i Hi.
  destruct (runner_outcome env id tmp dpi fmt st t Ht)
    as (st1 & t1 & Hrun1 & Ht1 & Hcase).
  rewrite Hrun in Hrun1. injection Hrun1 as <-.
  rewrite Ht' in Ht1. injection Ht1 as <-.
  destruct Hcase as [(n & _ & Hconv & _ & _ & Him & _) | (e & _ & Hst & _)];
    [|rewrite Hst in Hdone; discriminate].
  assert (Hlen : length (images t') = n).
  { rewrite Him. unfold image_urls.
    rewrite length_imap, slide_paths_length. reflexivity. }
  rewrite Hlen in Hi.
  assert (Hname : basename (path_join (path_join (OUTPUT_BASE_DIR env) id)
                              (slide_filename "slide" fmt (S i)))
                  = slide_filename "slide" fmt (S i)).
  { apply basename_path_join. apply has_slash_slide_filename;
      [reflexivity | exact Hfmt]. }
  eexists. split; [rewrite Him; apply image_urls_lookup; exact Hi|].
  cbn [image_filename url]. rewrite Hname.
  split; [reflexivity|]. split; [reflexivity|].
  assert (Hne : Forall (fun p => p <> tmp)
                  (slide_paths (path_join (OUTPUT_BASE_DIR env) id)
                               "slide" fmt n)).
  { unfold slide_paths. apply Forall_forall. intros p Hp.
    apply list_elem_of_fmap in Hp. destruct Hp as (k & -> & _).
    intros Heq. exact (Htmp k (eq_sym Heq)). }
  pose proof (runner_keeps_converted_files env id tmp dpi fmt st t _
                Ht Hconv Hne) as Hall.
  rewrite Hrun in Hall. cbn [snd] in Hall.
  rewrite Forall_forall in Hall. apply Hall.
  unfold slide_paths. apply list_elem_of_fmap. exists (S i).
  split; [reflexivity|]. apply elem_of_seq. lia.
Qed.

Lemma completed_images_of_two_pages :
  let st := {| tasks_cache := {[ "a" := pending_task "a" "a.pptx" 0 ]};
               fs := {| files := {[ "/tmp/tmpa.pptx" ]}; dirs := ∅ |};
               now := 2; background := []; journal := [] |} in
  let st' := snd (process_ppt_task (healthy_env 2) "a" "/tmp/tmpa.pptx"
                                   200 "png" st) in
  exists t',
    tasks_cache st' !! "a" = Some t'
    /\ length (images t') = 2%nat
    /\ exists entry,
         images t' !! 1%nat = Some entry
         /\ image_filename entry = slide_filename "slide" "png" 2
         /\ url entry = API_BASE_URL (healthy_env 2) +:+ "/images/" +:+ "a"
                        +:+ "/" +:+ slide_filename "slide" "png" 2
         /\ path_join (path_join (OUTPUT_BASE_DIR (healthy_env 2)) "a")
                      (image_filename entry) ∈ files (fs st').
Proof.
  intros st st'.
  destruct (tasks_cache st' !! "a") as [t'|] eqn:Ht';
    [|vm_compute in Ht'; discriminate].
  assert (Hlen : length (images t') = 2%nat).
  { vm_compute in Ht'. injection Ht' as <-. reflexivity. }
  exists t'. split; [reflexivity|]. split; [exact Hlen|].
  apply (completed_images_are_on_disk (healthy_env 2) "a" "/tmp/tmpa.pptx"
           200 "png" st st' (pending_task "a" "a.pptx" 0) t').
  - reflexivity.
  - reflexivity.
  - intros i H. vm_compute in H. discriminate.
  - vm_compute. reflexivity.
  - exact Ht'.
  - vm_compute in Ht'. injection Ht' as <-. reflexivity.
  - rewrite Hlen. lia.
Defined.

(** ** The synchronous endpoint *)

(** Without a hook the converter changes the file system only. *)
Lemma export_changes_fs_only env cfg ppt dir method prefix st :
  let st' := snd (export env cfg ppt dir method prefix None st) in
  tasks_cache st' = tasks_cache st /\ background st' = background st
  /\ journal st' = journal st /\ now st' = now st.
Proof.
  pose proof (hoare_export_quiet env
                (fun s => tasks_cache s = tasks_cache st
                          /\ background s = background st
                          /\ journal s = journal st /\ now s = now st)
                cfg ppt dir method prefix
                (fun s f H => H) st
                (conj eq_refl (conj eq_refl (conj eq_refl eq_refl)))) as H.
  cbv zeta.
  destruct (export env cfg ppt dir method prefix None st) as [[out|e] st'];
    exact H.
Qed.

(** X17. The synchronous endpoint never touches the task store, the
    queue, the journal or the clock, and it answers in one of three ways
    only: 400 for a file name that is not accepted, with nothing changed;
    500 with the text of the exception after "转换失败: " when anything
    fails after that; or a success response whose folder is the fresh
    identifier, whose images are the links of the slide files 1..n in
    order, whose count is their number, and after which the temporary
    upload is no longer on disk. *)
Theorem sync_answers (env : Env) (file_name : string) (dpi : Z)
    (fmt uuid rnd : string) (st : State) :
  let r := fst (convert_ppt_sync env file_name dpi fmt uuid rnd st) in
  let st' := snd (convert_ppt_sync env file_name dpi fmt uuid rnd st) in
  tasks_cache st' = tasks_cache st
  /\ background st' = background st
  /\ journal st' = journal st
  /\ now st' = now st
  /\ match r with
     | Ok resp =>
         accepted_upload file_name = true
         /\ sync_success resp = true
         /\ sync_folder_id resp = uuid
         /\ sync_count resp = length (sync_images resp)
         /\ (exists n,
                sync_count resp = n
                /\ sync_images resp
                   = image_urls env uuid
                       (slide_paths (path_join (OUTPUT_BASE_DIR env) uuid)
                                    "slide" fmt n))
         /\ temp_path rnd ∉ files (fs st')
     | Raise (HTTPException code detail) =>
         (code = 400%Z /\ accepted_upload file_name = false /\ st' = st)
         \/ (code = 500%Z /\ accepted_upload file_name = true
             /\ exists e, detail = "转换失败: " +:+ exn_str e)
     | Raise _ => False
     end.
Proof.
  cbv zeta.
  destruct (convert_ppt_sync env file_name dpi fmt uuid rnd st)
    as [r st'] eqn:Hrun.
  cbn [fst snd]. revert Hrun. unfold convert_ppt_sync.
  destruct (accepted_upload file_name) eqn:Hacc; cbn [negb].
  2:{ intros [= <- <-]. repeat split. left. repeat split. }
  unfold try_except, bind at 1. unfold write_file at 1.
  set (s1 := with_fs _ st).
  unfold bind at 1. unfold makedirs at 1.
  destruct (bool_decide _).
  { intros [= <- <-]. repeat split. right. repeat split.
    first [ eexists; reflexivity | eexists (OSError _); reflexivity
          | eexists (FileNotFoundError _); reflexivity ]. }
  set (s2 := with_fs _ s1).
  unfold bind at 1.
  pose proof (export_changes_fs_only env
                {| dpi := dpi; format := fmt; quality := 95;
                   width := None; height := None |}
                (temp_path rnd) (path_join (OUTPUT_BASE_DIR env) uuid)
                "auto" "slide" s2) as Hq.
  cbv zeta in Hq.
  destruct (export env _ (temp_path rnd) _ "auto" "slide" None s2)
    as [[out|e] s3] eqn:Hex.
  2:{ cbn [snd] in Hq. destruct Hq as (Hc & Hb & Hj & Hn).
      intros [= <- <-]. repeat split; try assumption.
      right. repeat split.
    first [ eexists; reflexivity | eexists (OSError _); reflexivity
          | eexists (FileNotFoundError _); reflexivity ]. }
  cbn [snd] in Hq. destruct Hq as (Hc & Hb & Hj & Hn).
  apply export_names in Hex. destruct Hex as [n ->]. cbn [format] in *.
  unfold bind at 1. unfold unlink at 1.
  destruct (negb (bool_decide _)).
  { intros [= <- <-]. repeat split; try assumption.
    right. repeat split.
    first [ eexists; reflexivity | eexists (OSError _); reflexivity
          | eexists (FileNotFoundError _); reflexivity ]. }
  destruct (negb (unlink_ok env)).
  { intros [= <- <-]. repeat split; try assumption.
    right. repeat split.
    first [ eexists; reflexivity | eexists (OSError _); reflexivity
          | eexists (FileNotFoundError _); reflexivity ]. }
  unfold bind, ret. intros [= <- <-].
  cbn [sync_success sync_folder_id sync_count sync_images tasks_cache
       background journal now fs files with_fs].
  repeat split; try assumption.
  - exists n. split; [|reflexivity].
    unfold image_urls. rewrite length_imap, slide_paths_length. reflexivity.
  - intros Hin. apply elem_of_difference in Hin. destruct Hin as [_ Hn'].
    apply Hn'. apply elem_of_singleton. reflexivity.
Qed.

Lemma sync_success_inv env file_name dpi fmt uuid rnd st resp st' :
  convert_ppt_sync env file_name dpi fmt uuid rnd st = (Ok resp, st') ->
  exists s2 out s3,
    export env {| dpi := dpi; format := fmt; quality := 95;
                  width := None; height := None |}
           (temp_path rnd) (path_join (OUTPUT_BASE_DIR env) uuid)
           "auto" "slide" None s2 = (Ok out, s3)
    /\ sync_images resp = image_urls env uuid out
    /\ files (fs st') = files (fs s3) ∖ {[ temp_path rnd ]}
    /\ dirs (fs st') = dirs (fs s3).
Proof.
  unfold convert_ppt_sync.
  destruct (negb (accepted_upload file_name)); [discriminate|].
  unfold try_except, bind at 1. unfold write_file at 1.
  set (s1 := with_fs _ st).
  unfold bind at 1. unfold makedirs at 1.
  destruct (bool_decide _); [discriminate|].
  set (s2 := with_fs _ s1).
  unfold bind at 1.
  destruct (export env _ (temp_path rnd) _ "auto" "slide" None s2)
    as [[out|e] s3] eqn:Hex; [|discriminate].
  unfold bind at 1. unfold unlink at 1.
  destruct (negb (bool_decide _)); [discriminate|].
  destruct (negb (unlink_ok env)); [discriminate|].
  unfold bind, ret. intros [= <- <-].
  exists s2, out, s3. split; [exact Hex|]. repeat split.
Qed.

(** X18. After a successful synchronous conversion the images of the
    response are named [slide_{i+1:03d}.{format}] in order and each of
    them exists as a file in the output directory of the fresh folder
    identifier, which exists as well, provided the format holds no [/] and
    the temporary upload is not one of the output files (the endpoint
    removes the upload before it answers). *)
Theorem sync_images_are_on_disk (env : Env) (file_name : string) (dpi : Z)
    (fmt uuid rnd : string) (st st' : State) (resp : SyncResponse) :
  has_slash fmt = false ->
  (forall i, temp_path rnd
             <> path_join (path_join (OUTPUT_BASE_DIR env) uuid)
                          (slide_filename "slide" fmt i)) ->
  convert_ppt_sync env file_name dpi fmt uuid rnd st = (Ok resp, st') ->
  path_join (OUTPUT_BASE_DIR env) uuid ∈ dirs (fs st')
  /\ forall i entry,
       sync_images resp !! i = Some entry ->
       image_filename entry = slide_filename "slide" fmt (S i)
       /\ path_join (path_join (OUTPUT_BASE_DIR env) uuid)
                    (image_filename entry) ∈ files (fs st').
Proof.
  intros Hfmt Htmp Hrun.
  destruct (sync_success_inv _ _ _ _ _ _ _ _ _ Hrun)
    as (s2 & out & s3 & Hex & Him & Hfiles & Hdirs).
  pose proof (export_fs env {| dpi := dpi; format := fmt; quality := 95;
                               width := None; height := None |}
                (temp_path rnd)
                (path_join (OUTPUT_BASE_DIR env) uuid) "auto" "slide" None
                s2 fs_neutral_none s2 eq_refl) as Hfs.
  rewrite Hex in Hfs. destruct Hfs as [(_ & _ & Hon) Hdir].
  destruct (export_names _ _ _ _ _ _ _ _ _ _ Hex) as [n ->].
  cbn [format] in *.
  split; [rewrite Hdirs; exact Hdir|].
  intros i entry Hi. rewrite Him in Hi.
  assert (Hlt : (i < n)%nat).
  { apply lookup_lt_Some in Hi. unfold image_urls in Hi.
    rewrite length_imap, slide_paths_length in Hi. exact Hi. }
  rewrite (image_urls_lookup env uuid _ "slide" fmt n i Hlt) in Hi.
  injection Hi as <-. cbn [image_filename].
  rewrite basename_path_join
    by (apply has_slash_slide_filename; [reflexivity | exact Hfmt]).
  split; [reflexivity|].
  rewrite Hfiles. apply elem_of_difference. split.
  - rewrite Forall_forall in Hon. apply Hon.
    unfold slide_paths. apply list_elem_of_fmap. exists (S i).
    split; [reflexivity|]. apply elem_of_seq. lia.
  - rewrite elem_of_singleton. intros Heq. exact (Htmp (S i) (eq_sym Heq)).
Qed.

Lemma sync_images_of_two_pages :
  let run := convert_ppt_sync (healthy_env 2) "deck.pptx" 200 "png" "f1" "abc"
                              initial_state in
  exists resp,
    fst run = Ok resp
    /\ "/srv/output/f1" ∈ dirs (fs (snd run))
    /\ forall i entry,
         sync_images resp !! i = Some entry ->
         image_filename entry = slide_filename "slide" "png" (S i)
         /\ path_join (path_join (OUTPUT_BASE_DIR (healthy_env 2)) "f1")
                      (image_filename entry) ∈ files (fs (snd run)).
Proof.
  intros run.
  destruct (fst run) as [resp|e] eqn:Hr; [|vm_compute in Hr; discriminate].
  exists resp. split; [reflexivity|].
  apply (sync_images_are_on_disk (healthy_env 2) "deck.pptx" 200 "png" "f1"
           "abc" initial_state (snd run) resp).
  - reflexivity.
  - intros i H. vm_compute in H. discriminate.
  - rewrite <- Hr. apply surjective_pairing.
Defined.

(** ** Resizing *)

Module Binary64Integers.
Import Binary64 Binary64Facts Binary64Exact.
Local Open Scope Q_scope.

Lemma round_half_even_Z (m : Z) y : y == inject_Z m -> round_half_even y = m.
Proof.
  intros H. apply Z.le_antisymm.
  - apply round_half_even_le. rewrite H. apply Qle_refl.
  - apply round_half_even_ge. rewrite H. apply Qle_refl.
Qed.

Lemma inject_Z_pos n : (0 < n)%Z -> 0 < inject_Z n.
Proof. intros H. rewrite Zlt_Qlt in H. exact H. Qed.

Lemma binade_of_int n :
  (0 < n < 2 ^ 53)%Z -> (0 <= binade (inject_Z n) <= 52)%Z.
Proof.
  intros [Hlo Hhi].
  destruct (binade_spec (inject_Z n) (inject_Z_pos n Hlo)) as [Blo Bhi].
  split.
  - assert (H : (0 < binade (inject_Z n) + 1)%Z); [|lia].
    apply (Qpower_lt_compat_l_inv 2); [|reflexivity].
    eapply Qle_lt_trans; [|exact Bhi].
    change (2 ^ 0) with (inject_Z 1). rewrite <- Zle_Qle. lia.
  - assert (H : (binade (inject_Z n) < 53)%Z); [|lia].
    apply (Qpower_lt_compat_l_inv 2); [|reflexivity].
    eapply Qle_lt_trans; [exact Blo|].
    rewrite <- (Zpower_Qpower 2 53) by lia.
    rewrite <- Zlt_Qlt. exact Hhi.
Qed.

(** Integers below 2^53 are binary64 numbers. *)
Lemma fl_int n : (0 < n < 2 ^ 53)%Z -> fl (inject_Z n) == inject_Z n.
Proof.
  intros Hn. pose proof (binade_of_int n Hn) as He.
  rewrite (fl_of_pos _ (inject_Z_pos n (proj1 Hn))).
  set (e := binade (inject_Z n)) in *.
  assert (Hu : 2 ^ (e - 52) == / inject_Z (2 ^ (52 - e))).
  { replace (e - 52)%Z with (- (52 - e))%Z by lia.
    rewrite Qpower_opp, Zpower_Qpower by lia. reflexivity. }
  assert (Hp : ~ inject_Z (2 ^ (52 - e)) == 0).
  { intros H. assert (H0 : 0 < inject_Z (2 ^ (52 - e))).
    { apply inject_Z_pos. apply Z.pow_pos_nonneg; lia. }
    rewrite H in H0. exact (Qlt_irrefl _ H0). }
  rewrite (round_half_even_Z (n * 2 ^ (52 - e))).
  - rewrite Hu, inject_Z_mult. field. exact Hp.
  - rewrite Hu, inject_Z_mult. field. exact Hp.
Qed.

Lemma py_float_int n : (0 < n < 2 ^ 53)%Z -> py_float n == inject_Z n.
Proof. apply fl_int. Qed.

Lemma py_truediv_whole s d :
  (0 < d)%Z -> (0 < s < 2 ^ 53)%Z -> py_truediv (s * d) d == inject_Z s.
Proof.
  intros Hd Hs. unfold py_truediv.
  assert (Hq : inject_Z (s * d) / inject_Z d == inject_Z s).
  { rewrite inject_Z_mult. field. intros H.
    pose proof (inject_Z_pos d Hd) as H0. rewrite H in H0.
    exact (Qlt_irrefl _ H0). }
  apply Qeq_trans with (fl (inject_Z s)); [|apply fl_int; exact Hs].
  apply fl_compat; [|exact Hq]. rewrite Hq. apply inject_Z_pos. lia.
Qed.

(** [int(n * ratio)] for a whole ratio [s], without any rounding. *)
Lemma scaled_whole n s d :
  (0 < d)%Z -> (0 < s < 2 ^ 53)%Z -> (0 < n < 2 ^ 53)%Z ->
  (n * s < 2 ^ 53)%Z ->
  py_int (py_mul (py_float n) (py_truediv (s * d) d)) = (s * n)%Z.
Proof.
  intros Hd Hs Hn Hns.
  assert (Hm : py_float n * py_truediv (s * d) d == inject_Z (n * s)).
  { rewrite (py_float_int n Hn), (py_truediv_whole s d Hd Hs), inject_Z_mult.
    reflexivity. }
  assert (Hpos : 0 < inject_Z (n * s)) by (apply inject_Z_pos; nia).
  assert (H : py_mul (py_float n) (py_truediv (s * d) d) == inject_Z (n * s)).
  { unfold py_mul. apply Qeq_trans with (fl (inject_Z (n * s))).
    - apply fl_compat; [rewrite Hm; exact Hpos | exact Hm].
    - apply fl_int. nia. }
  rewrite py_int_floor by (rewrite H; apply Qlt_le_weak; exact Hpos).
  rewrite (Qfloor_comp _ _ H), Qfloor_Z. lia.
Qed.

End Binary64Integers.

(** X19. When only the width is set, to a whole multiple [s] of the
    image's width, [_resize_image] asks for exactly [s] times the height
    as well (and likewise with only the height set): for whole scale
    factors the binary64 ratio and product are exact, so the aspect ratio
    is kept to the pixel.  A setting of 0 counts as not set.  All sizes
    are positive and below 2^53. *)
Theorem resize_by_whole_factor (cfg : ExportConfig)
    (orig_width orig_height s : Z) :
  (0 < orig_width)%Z -> (0 < orig_height)%Z -> (0 < s)%Z ->
  (s * orig_width < 2 ^ 53)%Z -> (s * orig_height < 2 ^ 53)%Z ->
  (width cfg = Some (s * orig_width)%Z -> given (height cfg) = false ->
   _resize_image cfg orig_width orig_height
   = Ok (Some ((s * orig_width)%Z, (s * orig_height)%Z)))
  /\ (height cfg = Some (s * orig_height)%Z -> given (width cfg) = false ->
      _resize_image cfg orig_width orig_height
      = Ok (Some ((s * orig_width)%Z, (s * orig_height)%Z))).
Proof.
  intros Hw Hh Hs Hsw Hsh.
  assert (Hs53 : (0 < s < 2 ^ 53)%Z) by nia.
  assert (Hw53 : (0 < orig_width < 2 ^ 53)%Z) by nia.
  assert (Hh53 : (0 < orig_height < 2 ^ 53)%Z) by nia.
  split; intros Hset Hoff; unfold _resize_image; rewrite Hset, Hoff;
    cbn [given from_option id].
  - replace (s * orig_width =? 0)%Z with false by (symmetry; apply Z.eqb_neq; nia).
    cbn [negb andb].
    replace (orig_width =? 0)%Z with false by (symmetry; apply Z.eqb_neq; lia).
    rewrite Binary64Integers.scaled_whole by (try assumption; nia).
    reflexivity.
  - replace (s * orig_height =? 0)%Z with false
      by (symmetry; apply Z.eqb_neq; nia).
    cbn [negb andb].
    replace (orig_height =? 0)%Z with false by (symmetry; apply Z.eqb_neq; lia).
    rewrite Binary64Integers.scaled_whole by (try assumption; nia).
    reflexivity.
Qed.

Lemma resize_to_double_width :
  _resize_image {| dpi := 300; format := "png"; quality := 95;
                   width := Some 3840%Z; height := Some 0%Z |} 1920 1080
  = Ok (Some (3840%Z, 2160%Z)).
Proof.
  apply (proj1 (resize_by_whole_factor
                  {| dpi := 300; format := "png"; quality := 95;
                     width := Some 3840%Z; height := Some 0%Z |}
                  1920 1080 2 ltac:(lia) ltac:(lia) ltac:(lia)
                  ltac:(vm_compute; reflexivity)
                  ltac:(vm_compute; reflexivity)));
    reflexivity.
Defined.

(** ** The progress values of a whole run *)

Lemma tracking_frame id l st st' :
  tasks_cache st' = tasks_cache st -> journal st' = journal st ->
  tracking id l st -> tracking id l st'.
Proof. unfold tracking. intros -> ->. tauto. Qed.

Lemma tracking_assign_progress id l p st :
  tracking id l st -> tracking id (l ++ [p]) (after_assign id (SetProgress p) st).
Proof.
  intros [Hl Hs]. split.
  - rewrite journal_after_assign, progress_trace_app, Hl.
    cbn [progress_trace]. rewrite String.eqb_refl. reflexivity.
  - rewrite cache_after_assign. apply lookup_alter_is_Some. exact Hs.
Qed.

Lemma tracking_assign_other id l w st :
  match w with SetProgress _ => False | _ => True end ->
  tracking id l st -> tracking id l (after_assign id w st).
Proof.
  intros Hw [Hl Hs]. split.
  - rewrite journal_after_assign, progress_trace_app, Hl.
    destruct w; try contradiction; apply app_nil_r.
  - rewrite cache_after_assign. apply lookup_alter_is_Some. exact Hs.
Qed.

Lemma hoare_assign_tracked id l w (E : exn -> State -> Prop) :
  match w with SetProgress _ => False | _ => True end ->
  hoare (tracking id l) (assign id w) (fun _ => tracking id l) E.
Proof.
  intros Hw. apply hoare_assign. intros st. apply tracking_assign_other.
  exact Hw.
Qed.

Lemma hoare_progress_tracked id l p (E : exn -> State -> Prop) :
  hoare (tracking id l) (assign id (SetProgress p))
        (fun _ => tracking id (l ++ [p])) E.
Proof. apply hoare_assign. intros st. apply tracking_assign_progress. Qed.

Lemma hoare_touch_tracked id l (E : exn -> State -> Prop) :
  hoare (tracking id l) (touch id) (fun _ => tracking id l) E.
Proof.
  intros st H. unfold touch, bind, datetime_now, assign.
  apply tracking_assign_other; [exact Logic.I|].
  exact (tracking_frame id l st (tick st) eq_refl eq_refl H).
Qed.

(** One call of the hook, on a stored task. *)
Lemma hoare_hook_tracked id l c n name :
  n <> 0%Z ->
  hoare (tracking id l) (progress_callback id c n name)
        (fun _ st => tracking id (l ++ [hook_progress c n]) st
                     /\ showing id c n (hook_progress c n) st)
        (fun _ _ => False).
Proof.
  intros Hn st Htr. pose proof Htr as [_ [t Ht]].
  unfold progress_callback, bind, get. rewrite Ht.
  cbv beta iota zeta delta [assign].
  destruct (n =? 0)%Z eqn:E; [apply Z.eqb_eq in E; contradiction|].
  cbv beta iota zeta delta [touch bind datetime_now assign].
  split.
  - apply tracking_assign_other; [exact Logic.I|].
    eapply tracking_frame; [reflexivity | reflexivity |].
    apply tracking_assign_other; [exact Logic.I|].
    apply tracking_assign_progress.
    apply tracking_assign_other; [exact Logic.I|].
    apply tracking_assign_other; [exact Logic.I|]. exact Htr.
  - unfold showing, after_assign, tick. cbn [tasks_cache log with_cache now].
    rewrite !lookup_alter_eq, Ht. eexists. split; [reflexivity|].
    destruct t; cbn. repeat split.
Qed.

Section HealthyPages.
Context (env : Env) (cfg : ExportConfig) (dir prefix id : string) (n : nat).

(** The loop over the pages [a .. a + m - 1], none of which fails. *)
Lemma hoare_save_pages_tracked :
  forall m a acc l,
    (forall i, (a <= i < a + m)%nat -> save_fault env i = None) ->
    n <> 0%nat ->
    hoare (tracking id l)
          (save_pages env cfg dir prefix (Some (progress_callback id)) n
                      (seq a m) acc)
          (fun out st =>
             out = acc ++ map (fun i => path_join dir
                                 (slide_filename prefix (format cfg) i))
                              (seq a m)
             /\ tracking id (l ++ hook_values n a m) st
             /\ ((0 < m)%nat ->
                 showing id (Z.of_nat (a + m - 1)) (Z.of_nat n)
                         (hook_progress (Z.of_nat (a + m - 1)) (Z.of_nat n))
                         st))
          (fun _ _ => False).
Proof.
  induction m as [|m IH]; intros a acc l Hok Hn.
  - apply hoare_ret. intros st H. unfold hook_values. cbn.
    rewrite !app_nil_r. split; [reflexivity|]. split; [exact H|]. lia.
  - cbn [seq save_pages].
    apply hoare_bind with (R := fun _ => tracking id l).
    { unfold save_image. rewrite (Hok a) by lia.
      intros st H. unfold write_file.
      exact (tracking_frame id l st _ eq_refl eq_refl H). }
    intros u.
    apply hoare_bind
      with (R := fun _ st =>
                   tracking id (l ++ [hook_progress (Z.of_nat a) (Z.of_nat n)]) st
                   /\ showing id (Z.of_nat a) (Z.of_nat n)
                        (hook_progress (Z.of_nat a) (Z.of_nat n)) st).
    { apply hoare_hook_tracked. lia. }
    intros u'. destruct m as [|m'].
    + apply hoare_ret. intros st [Htr Hsh]. unfold hook_values. cbn.
      split; [reflexivity|]. split; [exact Htr|]. intros _.
      replace (a + 1 - 1)%nat with a by lia. exact Hsh.
    + eapply hoare_post;
        [| |eapply hoare_pre;
              [|apply (IH (S a) (acc ++ [path_join dir
                                 (slide_filename prefix (format cfg) a)])
                          (l ++ [hook_progress (Z.of_nat a) (Z.of_nat n)]))]].
      * intros out st (Hout & Htr & Hsh). split.
        { rewrite Hout, <- app_assoc. reflexivity. }
        split.
        { unfold hook_values in *. cbn [seq map] in *.
          rewrite <- app_assoc in Htr. exact Htr. }
        intros _. replace (a + S (S m') - 1)%nat with (S a + S m' - 1)%nat by lia.
        apply Hsh. lia.
      * intros e st H. exact H.
      * intros st [Htr _]. exact Htr.
      * intros i Hi. apply Hok. lia.
      * exact Hn.
Qed.

End HealthyPages.

Section HealthyRun.
Context (env : Env) (id tmp : string) (n : nat).
Hypothesis Hlo : has_libreoffice env = true.
Hypothesis Hp2i : has_pdf2image env = true.
Hypothesis Hsoffice : soffice_run env = SofficeDone true.
Hypothesis Hpages : convert_from_path env = inr n.
Hypothesis Hsup : supported_input tmp = true.

Lemma ready_same_fs st st' :
  fs st' = fs st -> ready tmp (path_join (OUTPUT_BASE_DIR env) id) st -> ready tmp (path_join (OUTPUT_BASE_DIR env) id) st'.
Proof. unfold ready. intros ->. tauto. Qed.

Lemma hoare_assign_ready l w (E : exn -> State -> Prop) :
  match w with SetProgress _ => False | _ => True end ->
  hoare (fun st => tracking id l st
      /\ ready tmp (path_join (OUTPUT_BASE_DIR env) id) st) (assign id w)
        (fun _ st => tracking id l st
            /\ ready tmp (path_join (OUTPUT_BASE_DIR env) id) st) E.
Proof.
  intros Hw. apply hoare_assign. intros st [Ht Hr]. split.
  - apply tracking_assign_other; assumption.
  - exact (ready_same_fs st _ eq_refl Hr).
Qed.

Lemma hoare_progress_ready l p (E : exn -> State -> Prop) :
  hoare (fun st => tracking id l st
      /\ ready tmp (path_join (OUTPUT_BASE_DIR env) id) st)
        (assign id (SetProgress p))
        (fun _ st => tracking id (l ++ [p]) st
            /\ ready tmp (path_join (OUTPUT_BASE_DIR env) id) st) E.
Proof.
  apply hoare_assign. intros st [Ht Hr]. split.
  - apply tracking_assign_progress. exact Ht.
  - exact (ready_same_fs st _ eq_refl Hr).
Qed.

Lemma hoare_touch_ready l (E : exn -> State -> Prop) :
  hoare (fun st => tracking id l st
      /\ ready tmp (path_join (OUTPUT_BASE_DIR env) id) st) (touch id)
        (fun _ st => tracking id l st
            /\ ready tmp (path_join (OUTPUT_BASE_DIR env) id) st) E.
Proof.
  intros st [Ht Hr].
  pose proof (hoare_touch_tracked id l E st Ht) as H.
  unfold touch, bind, datetime_now, assign in *. split; [exact H|].
  exact (ready_same_fs st _ eq_refl Hr).
Qed.

Lemma hoare_makedirs_ready l (E : exn -> State -> Prop) :
  hoare (fun st => tracking id l st
                   /\ ready tmp (path_join (OUTPUT_BASE_DIR env) id) st)
        (makedirs (path_join (OUTPUT_BASE_DIR env) id))
        (fun _ st => tracking id l st
                     /\ ready tmp (path_join (OUTPUT_BASE_DIR env) id) st)
        E.
Proof.
  intros st [Ht [Hex Hdir]]. unfold makedirs.
  rewrite bool_decide_eq_false_2 by exact Hdir. split.
  - exact (tracking_frame id l st _ eq_refl eq_refl Ht).
  - split; [|exact Hdir]. unfold path_exists in *. cbn [fs with_fs files dirs].
    apply orb_true_iff in Hex. apply orb_true_iff.
    destruct Hex as [Hex | Hex]; [left; exact Hex|]. right.
    apply bool_decide_eq_true in Hex. apply bool_decide_eq_true.
    apply elem_of_union. right. exact Hex.
Qed.

Lemma hoare_read_total_ready l (E : exn -> State -> Prop) :
  hoare (fun st => tracking id l st
      /\ ready tmp (path_join (OUTPUT_BASE_DIR env) id) st)
        (read_total_slides id)
        (fun _ st => tracking id l st
            /\ ready tmp (path_join (OUTPUT_BASE_DIR env) id) st) E.
Proof.
  unfold read_total_slides. apply hoare_get_bind. intros st0.
  apply hoare_ret. intros st [H _]. exact H.
Qed.

(** The conversion itself, in a deployment where every page is saved. *)
Lemma hoare_export_tracked cfg prefix l :
  (forall i, (1 <= i <= n)%nat -> save_fault env i = None) ->
  hoare (fun st => tracking id l st
      /\ ready tmp (path_join (OUTPUT_BASE_DIR env) id) st)
        (export env cfg tmp (path_join (OUTPUT_BASE_DIR env) id) "auto" prefix
                (Some (progress_callback id)))
        (fun out st =>
           out = slide_paths (path_join (OUTPUT_BASE_DIR env) id) prefix (format cfg) n
           /\ tracking id (l ++ hook_values n 1 n) st)
        (fun _ _ => False).
Proof.
  intros Hok st [Ht [Hex Hdir]]. rewrite export_unfold.
  rewrite Hex, Hsup. cbn [negb]. unfold makedirs.
  rewrite bool_decide_eq_false_2 by exact Hdir. cbv zeta.
  change (String.eqb "auto" "auto") with true. cbv iota. rewrite Hlo.
  change (String.eqb "libreoffice" "libreoffice") with true. cbv iota.
  unfold _export_with_libreoffice.
  rewrite Hsoffice, Hp2i, Hpages. cbn [negb].
  set (st1 := with_fs _ st).
  assert (Ht1 : tracking id l st1)
    by exact (tracking_frame id l st st1 eq_refl eq_refl Ht).
  destruct n as [|n'] eqn:En.
  - cbn. unfold hook_values. cbn. rewrite app_nil_r.
    split; [reflexivity | exact Ht1].
  - pose proof (hoare_save_pages_tracked env cfg (path_join (OUTPUT_BASE_DIR env) id) prefix id (S n')
                  (S n') 1 [] l) as H.
    specialize (H ltac:(intros i Hi; apply Hok; lia) ltac:(lia) st1 Ht1).
    destruct (save_pages _ _ _ _ _ _ _ _ st1) as [[out|e] st2];
      [|exact H].
    destruct H as (Hout & Htr & _). split; [exact Hout | exact Htr].
Qed.

Ltac ready_step l' :=
  apply hoare_bind
    with (R := fun _ st => tracking id l' st
        /\ ready tmp (path_join (OUTPUT_BASE_DIR env) id) st);
  [first [ apply hoare_progress_ready
         | apply hoare_touch_ready
         | apply hoare_makedirs_ready
         | apply hoare_read_total_ready
         | apply hoare_assign_ready; exact Logic.I ]
  | intros ? ].

(** Everything [convert_stage] does before it calls the converter. *)
Lemma hoare_convert_stage_ready dpi fmt l
    (Q : list string -> State -> Prop) (E : exn -> State -> Prop) :
  hoare (fun st => tracking id (l ++ [5; 10; 15; 30])%Z st
                   /\ ready tmp (path_join (OUTPUT_BASE_DIR env) id) st)
        (export env {| dpi := dpi; format := fmt; quality := 95;
                       width := None; height := None |}
                tmp (path_join (OUTPUT_BASE_DIR env) id) "auto" "slide"
                (Some (progress_callback id)))
        Q E ->
  hoare (fun st => tracking id l st
                   /\ ready tmp (path_join (OUTPUT_BASE_DIR env) id) st)
        (convert_stage env id tmp dpi fmt) Q E.
Proof.
  intros Hexport. unfold convert_stage. cbv zeta.
  ready_step l. ready_step (l ++ [5%Z]). ready_step (l ++ [5%Z]).
  ready_step (l ++ [5%Z]).
  apply hoare_bind
    with (R := fun _ st =>
                 tracking id (l ++ [5%Z]) st
                 /\ ready tmp (path_join (OUTPUT_BASE_DIR env) id) st).
  { destruct (0 <? get_ppt_slide_count env tmp)%Z.
    - ready_step (l ++ [5%Z]). apply hoare_assign_ready. exact Logic.I.
    - apply hoare_assign_ready. exact Logic.I. }
  intros u. ready_step (l ++ [5%Z]). ready_step (l ++ [5%Z]).
  ready_step ((l ++ [5%Z]) ++ [10%Z]).
  ready_step ((l ++ [5%Z]) ++ [10%Z]).
  ready_step ((l ++ [5%Z]) ++ [10%Z]).
  ready_step (((l ++ [5%Z]) ++ [10%Z]) ++ [15%Z]).
  ready_step (((l ++ [5%Z]) ++ [10%Z]) ++ [15%Z]).
  ready_step (((l ++ [5%Z]) ++ [10%Z]) ++ [15%Z]).
  ready_step ((((l ++ [5%Z]) ++ [10%Z]) ++ [15%Z]) ++ [30%Z]).
  ready_step ((((l ++ [5%Z]) ++ [10%Z]) ++ [15%Z]) ++ [30%Z]).
  apply hoare_bind
    with (R := fun _ st =>
                 tracking id ((((l ++ [5%Z]) ++ [10%Z]) ++ [15%Z]) ++ [30%Z]) st
                 /\ ready tmp (path_join (OUTPUT_BASE_DIR env) id) st).
  { match goal with |- context [(0 <? ?k)%Z] => destruct (0 <? k)%Z end;
      apply hoare_assign_ready; exact Logic.I. }
  intros u'.
  ready_step ((((l ++ [5%Z]) ++ [10%Z]) ++ [15%Z]) ++ [30%Z]).
  ready_step ((((l ++ [5%Z]) ++ [10%Z]) ++ [15%Z]) ++ [30%Z]).
  eapply hoare_pre; [|exact Hexport].
  intros st [Htr Hr]. split; [|exact Hr].
  rewrite <- !app_assoc in Htr. exact Htr.
Qed.

Lemma hoare_convert_stage_tracked dpi fmt l :
  (forall i, (1 <= i <= n)%nat -> save_fault env i = None) ->
  hoare (fun st => tracking id l st
                   /\ ready tmp (path_join (OUTPUT_BASE_DIR env) id) st)
        (convert_stage env id tmp dpi fmt)
        (fun out st =>
           out = slide_paths (path_join (OUTPUT_BASE_DIR env) id) "slide" fmt n
           /\ tracking id (l ++ [5; 10; 15; 30] ++ hook_values n 1 n)%Z st)
        (fun _ _ => False).
Proof.
  intros Hok. apply hoare_convert_stage_ready.
  eapply hoare_post; [| |apply (hoare_export_tracked _ "slide" _ Hok)].
  - intros out st [Hout Htr]. split; [exact Hout|].
    rewrite <- !app_assoc in Htr. exact Htr.
  - intros e st H. exact H.
Qed.

Lemma hoare_finish_stage_tracked out l (E : exn -> State -> Prop) :
  hoare (tracking id l) (finish_stage env id out)
        (fun _ => tracking id (l ++ [90; 100])%Z) E.
Proof.
  unfold finish_stage. cbv zeta.
  apply hoare_bind with (R := fun _ => tracking id l).
  { unfold read_total_slides. apply hoare_get_bind. intros st0.
    apply hoare_ret. intros st [H _]. exact H. }
  intros expected.
  apply hoare_bind with (R := fun _ => tracking id l).
  { destruct (negb _).
    - apply hoare_assign_tracked. exact Logic.I.
    - apply hoare_ret. auto. }
  intros u.
  apply hoare_bind with (R := fun _ => tracking id l);
    [apply hoare_assign_tracked; exact Logic.I | intros ?].
  apply hoare_bind with (R := fun _ => tracking id (l ++ [90%Z]));
    [apply hoare_progress_tracked | intros ?].
  apply hoare_bind with (R := fun _ => tracking id (l ++ [90%Z]));
    [apply hoare_assign_tracked; exact Logic.I | intros ?].
  apply hoare_bind with (R := fun _ => tracking id (l ++ [90%Z]));
    [apply hoare_touch_tracked | intros ?].
  apply hoare_bind with (R := fun _ => tracking id (l ++ [90%Z]));
    [apply hoare_assign_tracked; exact Logic.I | intros ?].
  apply hoare_bind with (R := fun _ => tracking id ((l ++ [90%Z]) ++ [100%Z]));
    [apply hoare_progress_tracked | intros ?].
  apply hoare_bind with (R := fun _ => tracking id ((l ++ [90%Z]) ++ [100%Z]));
    [apply hoare_assign_tracked; exact Logic.I | intros ?].
  apply hoare_bind with (R := fun _ => tracking id ((l ++ [90%Z]) ++ [100%Z]));
    [apply hoare_assign_tracked; exact Logic.I | intros ?].
  apply hoare_bind with (R := fun _ => tracking id ((l ++ [90%Z]) ++ [100%Z]));
    [apply hoare_assign_tracked; exact Logic.I | intros ?].
  eapply hoare_post; [| |apply (hoare_touch_tracked id _ E)].
  - intros ? st H. rewrite <- app_assoc in H. exact H.
  - intros e st H. exact H.
Qed.

Lemma hoare_runner_tracked dpi fmt l :
  (forall i, (1 <= i <= n)%nat -> save_fault env i = None) ->
  hoare (fun st => tracking id l st
      /\ ready tmp (path_join (OUTPUT_BASE_DIR env) id) st)
        (process_ppt_task env id tmp dpi fmt)
        (fun _ => tracking id (l ++ [5; 10; 15; 30] ++ hook_values n 1 n
                                 ++ [90; 100])%Z)
        (fun _ _ => False).
Proof.
  intros Hok. unfold process_ppt_task. apply hoare_get_bind. intros st0.
  destruct (tasks_cache st0 !! id) eqn:Ht0.
  2:{ intros st [[[_ [t Ht]] _] ->]. rewrite Ht in Ht0. discriminate. }
  apply hoare_pre
    with (P' := fun st => tracking id l st
        /\ ready tmp (path_join (OUTPUT_BASE_DIR env) id) st);
    [intros st [H _]; exact H|].
  apply hoare_try_finally
    with (R := fun _ => tracking id (l ++ [5; 10; 15; 30]
                                       ++ hook_values n 1 n ++ [90; 100])%Z)
         (RE := fun _ _ => False).
  - apply hoare_try_except with (R := fun _ _ => False).
    + unfold process_body.
      apply hoare_bind
        with (R := fun _ => tracking id (l ++ [5; 10; 15; 30]
                                           ++ hook_values n 1 n)%Z).
      * eapply hoare_post; [| |apply (hoare_convert_stage_tracked _ _ _ Hok)].
        -- intros out st [_ H]. exact H.
        -- intros e st H. exact H.
      * intros out. eapply hoare_post; [| |apply hoare_finish_stage_tracked].
        -- intros ? st H. rewrite <- !app_assoc in H. exact H.
        -- intros e st H. exact H.
    + intros e st [].
  - intros u. apply hoare_process_cleanup. intros st f H.
    exact (tracking_frame id _ st _ eq_refl eq_refl H).
  - intros e st [].
Qed.

End HealthyRun.

(** X20. In a deployment where LibreOffice and the rasteriser work and
    each of the [n] pages is saved, a run on a stored task whose upload
    exists returns normally and writes exactly the progress values 5, 10,
    15, 30, then the hook's value for page 1, 2, ..., [n] in this order,
    then 90 and 100: the hook runs once per page, in page order, and
    nothing else writes a progress value. *)
Theorem healthy_run_progress_values (env : Env) (id tmp : string) (dpi : Z)
    (fmt : string) (n : nat) (st : State) :
  has_libreoffice env = true ->
  has_pdf2image env = true ->
  soffice_run env = SofficeDone true ->
  convert_from_path env = inr n ->
  (forall i, (1 <= i <= n)%nat -> save_fault env i = None) ->
  is_Some (tasks_cache st !! id) ->
  path_exists tmp (fs st) = true ->
  supported_input tmp = true ->
  path_join (OUTPUT_BASE_DIR env) id ∉ files (fs st) ->
  fst (process_ppt_task env id tmp dpi fmt st) = Ok tt
  /\ progress_trace id (journal (snd (process_ppt_task env id tmp dpi fmt st)))
     = (progress_trace id (journal st) ++ [5; 10; 15; 30]
        ++ hook_values n 1 n ++ [90; 100])%Z.
Proof.
  intros Hlo Hp2i Hso Hpages Hok Hin Hex Hsup Hdir.
  pose proof (hoare_runner_tracked env id tmp n Hlo Hp2i Hso Hpages Hsup
                dpi fmt (progress_trace id (journal st)) Hok st
                (conj (conj eq_refl Hin) (conj Hex Hdir))) as H.
  destruct (process_ppt_task env id tmp dpi fmt st) as [[[]|e] st'];
    [|contradiction].
  split; [reflexivity|]. exact (proj1 H).
Qed.

Lemma healthy_run_of_two_pages :
  let st := {| tasks_cache := {[ "a" := pending_task "a" "a.pptx" 0 ]};
               fs := {| files := {[ "/tmp/tmpa.pptx" ]}; dirs := ∅ |};
               now := 2; background := [];
               journal := [Created "a" (pending_task "a" "a.pptx" 0)] |} in
  fst (process_ppt_task (healthy_env 2) "a" "/tmp/tmpa.pptx" 200 "png" st)
  = Ok tt
  /\ progress_trace "a"
       (journal (snd (process_ppt_task (healthy_env 2) "a" "/tmp/tmpa.pptx"
                                       200 "png" st)))
     = ([0] ++ [5; 10; 15; 30] ++ hook_values 2 1 2 ++ [90; 100])%Z.
Proof.
  intros st.
  apply (healthy_run_progress_values (healthy_env 2) "a" "/tmp/tmpa.pptx"
           200 "png" 2 st).
  - reflexivity.
  - reflexivity.
  - reflexivity.
  - reflexivity.
  - intros i Hi. reflexivity.
  - vm_compute. eauto.
  - vm_compute. reflexivity.
  - vm_compute. reflexivity.
  - apply (bool_decide_unpack _). vm_compute. exact Logic.I.
Defined.

(** ** A page that cannot be saved *)

Lemma showing_frame id c n p st st' :
  tasks_cache st' = tasks_cache st -> showing id c n p st -> showing id c n p st'.
Proof. unfold showing. intros ->. tauto. Qed.

Lemma showing_assign id c n p w st :
  match w with
  | SetProgress _ | SetTotalSlides _ | SetCurrentSlide _ => False
  | _ => True
  end ->
  showing id c n p st -> showing id c n p (after_assign id w st).
Proof.
  intros Hw (t & Ht & Hc & Hn & Hp). exists (apply_write w t).
  rewrite cache_after_assign, lookup_alter_eq, Ht. split; [reflexivity|].
  destruct t, w; cbn in *; try contradiction; repeat split; assumption.
Qed.

Section FaultyPage.
Context (env : Env) (cfg : ExportConfig) (dir prefix id : string) (n : nat).
Context (e : exn).

(** The loop over the pages [a .. a + m - 1], which are saved, followed by
    page [a + m], which is not. *)
Lemma hoare_save_pages_fault :
  forall m a rest acc l,
    (forall i, (a <= i < a + m)%nat -> save_fault env i = None) ->
    save_fault env (a + m) = Some e ->
    n <> 0%nat ->
    hoare (fun st =>
             tracking id l st
             /\ ((1 < a)%nat ->
                 showing id (Z.of_nat (a - 1)) (Z.of_nat n)
                         (hook_progress (Z.of_nat (a - 1)) (Z.of_nat n)) st))
          (save_pages env cfg dir prefix (Some (progress_callback id)) n
                      (seq a m ++ (a + m)%nat :: rest) acc)
          (fun _ _ => False)
          (fun e' st =>
             e' = e
             /\ tracking id (l ++ hook_values n a m) st
             /\ ((1 < a + m)%nat ->
                 showing id (Z.of_nat (a + m - 1)) (Z.of_nat n)
                         (hook_progress (Z.of_nat (a + m - 1)) (Z.of_nat n))
                         st)).
Proof.
  induction m as [|m IH]; intros a rest acc l Hok Hbad Hn.
  - cbn [seq app]. replace (a + 0)%nat with a in * by lia.
    intros st [Htr Hsh]. cbn [save_pages]. unfold bind, save_image.
    rewrite Hbad. cbn. unfold hook_values. cbn. rewrite app_nil_r.
    split; [reflexivity|]. split; assumption.
  - cbn [seq app save_pages].
    apply hoare_bind with (R := fun _ => tracking id l).
    { unfold save_image. rewrite (Hok a) by lia.
      intros st [H _]. unfold write_file.
      exact (tracking_frame id l st _ eq_refl eq_refl H). }
    intros u.
    apply hoare_bind
      with (R := fun _ st =>
                   tracking id (l ++ [hook_progress (Z.of_nat a) (Z.of_nat n)]) st
                   /\ showing id (Z.of_nat a) (Z.of_nat n)
                        (hook_progress (Z.of_nat a) (Z.of_nat n)) st).
    { eapply hoare_post; [| |apply hoare_hook_tracked; lia].
      - intros ? st H. exact H.
      - intros ? st []. }
    intros u'.
    replace (a + S m)%nat with (S a + m)%nat in * by lia.
    eapply hoare_post;
      [| |eapply hoare_pre;
            [|apply (IH (S a) rest
                        (acc ++ [path_join dir
                                   (slide_filename prefix (format cfg) a)])
                        (l ++ [hook_progress (Z.of_nat a) (Z.of_nat n)]))]].
    + intros out st H. exact H.
    + intros e' st (He & Htr & Hsh). split; [exact He|]. split; [|exact Hsh].
      unfold hook_values in *. cbn [seq map]. rewrite <- app_assoc in Htr.
      exact Htr.
    + intros st [Htr Hsh]. split; [exact Htr|]. intros _.
      replace (S a - 1)%nat with a by lia. exact Hsh.
    + intros i Hi. apply Hok. lia.
    + exact Hbad.
    + exact Hn.
Qed.

End FaultyPage.

Section FaultyRun.
Context (env : Env) (id tmp : string) (n k : nat) (e : exn).
Hypothesis Hlo : has_libreoffice env = true.
Hypothesis Hp2i : has_pdf2image env = true.
Hypothesis Hsoffice : soffice_run env = SofficeDone true.
Hypothesis Hpages : convert_from_path env = inr n.
Hypothesis Hsup : supported_input tmp = true.
Hypothesis Hk : (2 <= k <= n)%nat.
Hypothesis Hok : forall i, (1 <= i < k)%nat -> save_fault env i = None.
Hypothesis Hbad : save_fault env k = Some e.

Lemma hoare_export_fault cfg prefix l :
  hoare (fun st => tracking id l st
                   /\ ready tmp (path_join (OUTPUT_BASE_DIR env) id) st)
        (export env cfg tmp (path_join (OUTPUT_BASE_DIR env) id) "auto" prefix
                (Some (progress_callback id)))
        (fun _ _ => False)
        (fun e' st =>
           e' = e
           /\ tracking id (l ++ hook_values n 1 (k - 1)) st
           /\ showing id (Z.of_nat (k - 1)) (Z.of_nat n)
                (hook_progress (Z.of_nat (k - 1)) (Z.of_nat n)) st).
Proof.
  intros st [Ht [Hex Hdir]]. rewrite export_unfold.
  rewrite Hex, Hsup. cbn [negb]. unfold makedirs.
  rewrite bool_decide_eq_false_2 by exact Hdir. cbv zeta.
  change (String.eqb "auto" "auto") with true. cbv iota. rewrite Hlo.
  change (String.eqb "libreoffice" "libreoffice") with true. cbv iota.
  unfold _export_with_libreoffice.
  rewrite Hsoffice, Hp2i, Hpages. cbn [negb].
  set (st1 := with_fs _ st).
  assert (Ht1 : tracking id l st1)
    by exact (tracking_frame id l st st1 eq_refl eq_refl Ht).
  assert (Hseq : seq 1 n = seq 1 (k - 1) ++ (1 + (k - 1))%nat
                                           :: seq (S k) (n - k)).
  { replace n with ((k - 1) + S (n - k))%nat at 1 by lia.
    rewrite seq_app. cbn [seq].
    replace (S (1 + (k - 1)))%nat with (S k) by lia. reflexivity. }
  rewrite Hseq.
  pose proof (hoare_save_pages_fault env cfg
                (path_join (OUTPUT_BASE_DIR env) id) prefix id n e
                (k - 1) 1 (seq (S k) (n - k)) [] l) as H.
  assert (H1 : forall i, (1 <= i < 1 + (k - 1))%nat -> save_fault env i = None)
    by (intros i Hi; apply Hok; lia).
  assert (H2 : save_fault env (1 + (k - 1)) = Some e)
    by (replace (1 + (k - 1))%nat with k by lia; exact Hbad).
  assert (H3 : n <> 0%nat) by lia.
  specialize (H H1 H2 H3 st1).
  assert (H4 : (1 < 1)%nat ->
               showing id (Z.of_nat (1 - 1)) (Z.of_nat n)
                 (hook_progress (Z.of_nat (1 - 1)) (Z.of_nat n)) st1)
    by (intros Hlt; exfalso; lia).
  specialize (H (conj Ht1 H4)).
  destruct (save_pages _ _ _ _ _ _ _ _ st1) as [[out|e'] st2]; [exact H|].
  destruct H as (He & Htr & Hsh). split; [exact He|]. split; [exact Htr|].
  replace (1 + (k - 1) - 1)%nat with (k - 1)%nat in Hsh by lia.
  apply Hsh. lia.
Qed.

Lemma hoare_process_body_fault dpi fmt l :
  hoare (fun st => tracking id l st
                   /\ ready tmp (path_join (OUTPUT_BASE_DIR env) id) st)
        (process_body env id tmp dpi fmt)
        (fun _ _ => False)
        (fun e' st =>
           e' = e
           /\ tracking id (l ++ [5; 10; 15; 30] ++ hook_values n 1 (k - 1))%Z st
           /\ showing id (Z.of_nat (k - 1)) (Z.of_nat n)
                (hook_progress (Z.of_nat (k - 1)) (Z.of_nat n)) st).
Proof.
  unfold process_body.
  apply hoare_bind with (R := fun _ _ => False); [|intros out st []].
  apply hoare_convert_stage_ready.
  eapply hoare_post; [| |apply (hoare_export_fault _ "slide")].
  - intros out st H. exact H.
  - intros e' st (He & Htr & Hsh). split; [exact He|]. split; [|exact Hsh].
    rewrite <- !app_assoc in Htr. exact Htr.
Qed.

Lemma hoare_process_failure_shown e' l c p (E : exn -> State -> Prop) :
  hoare (fun st => tracking id l st /\ showing id c (Z.of_nat n) p st)
        (process_failure env id e')
        (fun _ st => tracking id l st /\ showing id c (Z.of_nat n) p st) E.
Proof.
  assert (Hstep : forall w,
             match w with
             | SetProgress _ | SetTotalSlides _ | SetCurrentSlide _ => False
             | _ => True
             end ->
             hoare (fun st => tracking id l st
                              /\ showing id c (Z.of_nat n) p st)
                   (assign id w)
                   (fun _ st => tracking id l st
                                /\ showing id c (Z.of_nat n) p st) E).
  { intros w Hw. apply hoare_assign. intros st [Htr Hsh]. split.
    - apply tracking_assign_other; [destruct w; tauto | exact Htr].
    - apply showing_assign; assumption. }
  unfold process_failure. cbv zeta.
  apply hoare_bind
    with (R := fun _ st => tracking id l st /\ showing id c (Z.of_nat n) p st);
    [apply Hstep; exact Logic.I | intros ?].
  apply hoare_bind
    with (R := fun _ st => tracking id l st /\ showing id c (Z.of_nat n) p st);
    [apply Hstep; exact Logic.I | intros ?].
  apply hoare_bind
    with (R := fun _ st => tracking id l st /\ showing id c (Z.of_nat n) p st);
    [apply Hstep; exact Logic.I | intros ?].
  apply hoare_bind
    with (R := fun _ st => tracking id l st /\ showing id c (Z.of_nat n) p st).
  { unfold touch. apply hoare_bind
      with (R := fun _ st => tracking id l st
                             /\ showing id c (Z.of_nat n) p st).
    - apply hoare_datetime_now. intros st [Htr Hsh]. split.
      + exact (tracking_frame id l st _ eq_refl eq_refl Htr).
      + exact (showing_frame id c _ p st _ eq_refl Hsh).
    - intros t. apply Hstep. exact Logic.I. }
  intros u. apply hoare_get_bind. intros st0.
  apply hoare_pre
    with (P' := fun st => tracking id l st /\ showing id c (Z.of_nat n) p st);
    [intros st [H _]; exact H|].
  destruct (path_exists _ (fs st0)).
  - apply hoare_rmtree; [|auto]. intros st [Htr Hsh] f. split.
    + exact (tracking_frame id l st _ eq_refl eq_refl Htr).
    + exact (showing_frame id c _ p st _ eq_refl Hsh).
  - apply hoare_ret. auto.
Qed.

Lemma hoare_runner_fault dpi fmt l :
  hoare (fun st => tracking id l st
                   /\ ready tmp (path_join (OUTPUT_BASE_DIR env) id) st)
        (process_ppt_task env id tmp dpi fmt)
        (fun _ st =>
           tracking id (l ++ [5; 10; 15; 30] ++ hook_values n 1 (k - 1))%Z st
           /\ showing id (Z.of_nat (k - 1)) (Z.of_nat n)
                (hook_progress (Z.of_nat (k - 1)) (Z.of_nat n)) st)
        (fun _ _ => False).
Proof.
  unfold process_ppt_task. apply hoare_get_bind. intros st0.
  destruct (tasks_cache st0 !! id) eqn:Ht0.
  2:{ intros st [[[_ [t Ht]] _] ->]. rewrite Ht in Ht0. discriminate. }
  apply hoare_pre
    with (P' := fun st => tracking id l st
                          /\ ready tmp (path_join (OUTPUT_BASE_DIR env) id) st);
    [intros st [H _]; exact H|].
  apply hoare_try_finally
    with (R := fun _ st =>
                 tracking id (l ++ [5; 10; 15; 30]
                                ++ hook_values n 1 (k - 1))%Z st
                 /\ showing id (Z.of_nat (k - 1)) (Z.of_nat n)
                      (hook_progress (Z.of_nat (k - 1)) (Z.of_nat n)) st)
         (RE := fun _ _ => False).
  - apply hoare_try_except
      with (R := fun _ st =>
                   tracking id (l ++ [5; 10; 15; 30]
                                  ++ hook_values n 1 (k - 1))%Z st
                   /\ showing id (Z.of_nat (k - 1)) (Z.of_nat n)
                        (hook_progress (Z.of_nat (k - 1)) (Z.of_nat n)) st).
    + eapply hoare_post; [| |apply hoare_process_body_fault].
      * intros ? st [].
      * intros e' st (_ & H). exact H.
    + intros e'. apply hoare_process_failure_shown.
  - intros u. apply hoare_process_cleanup. intros st f [Htr Hsh]. split.
    + exact (tracking_frame id _ st _ eq_refl eq_refl Htr).
    + exact (showing_frame id _ _ _ st _ eq_refl Hsh).
  - intros e' st [].
Qed.

End FaultyRun.

(** X21. When LibreOffice and the rasteriser work but page [k] of [n]
    (with [2 <= k]) cannot be saved, the pages before it having been
    saved, a run on a stored task whose upload exists ends with the record
    failed, its error the text of the exception of page [k], and frozen
    where the hook left it: slide [k - 1] of [n], at the hook's progress
    for page [k - 1]; the progress values written are 5, 10, 15, 30 and
    the hook's values for pages 1 .. [k - 1], and the output directory
    with the images already saved is gone unless its removal was refused. *)
Theorem failed_page_is_recorded (env : Env) (id tmp : string) (dpi : Z)
    (fmt : string) (n k : nat) (e : exn) (st : State) (t : TaskInfo) :
  has_libreoffice env = true ->
  has_pdf2image env = true ->
  soffice_run env = SofficeDone true ->
  convert_from_path env = inr n ->
  (2 <= k <= n)%nat ->
  (forall i, (1 <= i < k)%nat -> save_fault env i = None) ->
  save_fault env k = Some e ->
  tasks_cache st !! id = Some t ->
  path_exists tmp (fs st) = true ->
  supported_input tmp = true ->
  path_join (OUTPUT_BASE_DIR env) id ∉ files (fs st) ->
  exists st' t',
    process_ppt_task env id tmp dpi fmt st = (Ok tt, st')
    /\ tasks_cache st' !! id = Some t'
    /\ status t' = FAILED
    /\ error t' = Some (exn_str e)
    /\ current_slide t' = (Z.of_nat k - 1)%Z
    /\ total_slides t' = Z.of_nat n
    /\ progress t' = hook_progress (Z.of_nat k - 1) (Z.of_nat n)
    /\ progress_trace id (journal st')
       = (progress_trace id (journal st) ++ [5; 10; 15; 30]
          ++ hook_values n 1 (k - 1))%Z
    /\ (rmtree_ok env = true ->
        path_exists (path_join (OUTPUT_BASE_DIR env) id) (fs st') = false).
Proof.
  intros Hlo Hp2i Hso Hpages Hk Hok Hbad Ht Hex Hsup Hdir.
  assert (Hpre : tracking id (progress_trace id (journal st)) st
                 /\ ready tmp (path_join (OUTPUT_BASE_DIR env) id) st).
  { split; [split; [reflexivity | eauto] | split; assumption]. }
  pose proof (hoare_process_body_fault env id tmp n k e Hlo Hp2i Hso Hpages
                Hsup Hk Hok Hbad dpi fmt _ st Hpre) as Hbody.
  pose proof (hoare_runner_fault env id tmp n k e Hlo Hp2i Hso Hpages
                Hsup Hk Hok Hbad dpi fmt _ st Hpre) as Hrun.
  destruct (runner_outcome env id tmp dpi fmt st t Ht)
    as (st' & t' & Hres & Ht' & Hcase).
  rewrite Hres in Hrun. destruct Hrun as [[Htr _] (t1 & Ht1 & Hc & Hn & Hp)].
  rewrite Ht' in Ht1. injection Ht1 as <-.
  exists st', t'. split; [exact Hres|]. split; [exact Ht'|].
  destruct (process_body env id tmp dpi fmt st) as [[[]|e'] s1];
    [contradiction|].
  destruct Hbody as [-> _].
  destruct Hcase as [(m & Hbad' & _) | (e' & He' & Hst & _ & Herr & Hrm)];
    [discriminate|].
  cbn in He'. injection He' as <-.
  replace (Z.of_nat k - 1)%Z with (Z.of_nat (k - 1)) by lia.
  repeat split; assumption.
Qed.

Lemma failed_second_page_of_three :
  let env := mk_env true true false (SofficeDone true) (inr 3%nat)
               (fun i => if (i =? 2)%nat then Some (OSError "disk full")
                         else None) true true in
  let st := {| tasks_cache := {[ "a" := pending_task "a" "a.pptx" 0 ]};
               fs := {| files := {[ "/tmp/tmpa.pptx" ]}; dirs := ∅ |};
               now := 2; background := [];
               journal := [Created "a" (pending_task "a" "a.pptx" 0)] |} in
  exists st' t',
    process_ppt_task env "a" "/tmp/tmpa.pptx" 200 "png" st = (Ok tt, st')
    /\ tasks_cache st' !! "a" = Some t'
    /\ status t' = FAILED
    /\ error t' = Some (exn_str (OSError "disk full"))
    /\ current_slide t' = (Z.of_nat 2 - 1)%Z
    /\ total_slides t' = Z.of_nat 3
    /\ progress t' = hook_progress (Z.of_nat 2 - 1) (Z.of_nat 3)
    /\ progress_trace "a" (journal st')
       = (progress_trace "a" (journal st) ++ [5; 10; 15; 30]
          ++ hook_values 3 1 (2 - 1))%Z
    /\ (rmtree_ok env = true ->
        path_exists (path_join (OUTPUT_BASE_DIR env) "a") (fs st') = false).
Proof.
  intros env st.
  apply (failed_page_is_recorded env "a" "/tmp/tmpa.pptx" 200 "png" 3 2
           (OSError "disk full") st (pending_task "a" "a.pptx" 0)).
  - reflexivity.
  - reflexivity.
  - reflexivity.
  - reflexivity.
  - lia.
  - intros i Hi. assert (i = 1%nat) as -> by lia. reflexivity.
  - reflexivity.
  - reflexivity.
  - vm_compute. reflexivity.
  - vm_compute. reflexivity.
  - apply (bool_decide_unpack _). vm_compute. exact Logic.I.
Defined.
